(** * A shallow embedding of the RAG pipeline (ingest, retrieve, rerank, answer)

    The Python sources are embedded module by module:
    - [PyStr]: Python [str] values as sequences of Unicode code points, with
      the string methods the sources call;
    - [Eff]: the effects of the code (calls to external collaborators,
      printed lines, raised exceptions) as a trace-and-error monad;
    - [Config]: [shared_config.py];
    - [LoggingConfig]: [logging_config.py];
    - [DocumentIndexing]: [document_indexing.py] (class [DataIngestion]);
    - [Main]: [main.py] (class [RAGSystem], text extraction);
    - [LocalQuery]: [local_query.py] (class [LocalQuerySystem]);
    - [QueryService]: [query_service.py] (class [QueryService]).

    External collaborators (PDF miner, semantic splitter, vector index,
    reranker, generation model, clock) are fields of an environment record:
    deterministic oracles that return a value or raise. *)

From stdpp Require Import base list strings gmap.
From Stdlib Require Import ZArith QArith Lia Sorting.Sorted DecimalString.

Close Scope Q_scope.
Local Open Scope list_scope.

(** ** Python strings *)

Module PyStr.

(** A Python [str] is a sequence of Unicode code points. *)
Abbreviation char := N (only parsing).
Abbreviation str := (list N) (only parsing).

(** The bytes of a source literal. *)
Fixpoint bytes_of (s : string) : list N :=
  match s with
  | EmptyString => []
  | String a s' => Ascii.N_of_ascii a :: bytes_of s'
  end.

(** UTF-8 decoding of the bytes of a source literal into code points
    (the source files are UTF-8 encoded). *)
Fixpoint utf8_decode (bs : list N) : str :=
  match bs with
  | [] => []
  | b0 :: r0 =>
      if (b0 <? 128)%N then b0 :: utf8_decode r0
      else if (b0 <? 224)%N then
        match r0 with
        | b1 :: r1 => ((b0 - 192) * 64 + (b1 - 128))%N :: utf8_decode r1
        | _ => []
        end
      else if (b0 <? 240)%N then
        match r0 with
        | b1 :: b2 :: r2 =>
            ((b0 - 224) * 4096 + (b1 - 128) * 64 + (b2 - 128))%N
              :: utf8_decode r2
        | _ => []
        end
      else
        match r0 with
        | b1 :: b2 :: b3 :: r3 =>
            ((b0 - 240) * 262144 + (b1 - 128) * 4096
             + (b2 - 128) * 64 + (b3 - 128))%N :: utf8_decode r3
        | _ => []
        end
  end.

(** A string literal of the source. *)
Definition lit (s : string) : str := utf8_decode (bytes_of s).

Definition LF : N := 10%N.          (* '\n' *)
Definition HYPHEN : N := 45%N.      (* '-' *)
Definition SPACE : N := 32%N.       (* ' ' *)
Definition DQUOTE : N := 34%N.      (* the double quote *)

(** [c in chars] for a character and a string of characters. *)
Definition in_chars (chars : str) (c : N) : bool :=
  existsb (N.eqb c) chars.

(** [str.isspace] on one code point: what [str.strip()] without
    argument removes. *)
Definition is_space (c : N) : bool :=
  ((9 <=? c) && (c <=? 13) || (28 <=? c) && (c <=? 32)
   || (c =? 133) || (c =? 160) || (c =? 5760)
   || (8192 <=? c) && (c <=? 8202)
   || (c =? 8232) || (c =? 8233) || (c =? 8239) || (c =? 8287)
   || (c =? 12288))%N.

(** [s == t]. *)
Definition eqb (s t : str) : bool := bool_decide (s = t).

(** [s.endswith(suffix)]. *)
Definition endswith (s suffix : str) : bool :=
  (length suffix <=? length s)%nat
  && eqb (drop (length s - length suffix) s) suffix.

Fixpoint lstrip_by (p : N -> bool) (s : str) : str :=
  match s with
  | [] => []
  | c :: s' => if p c then lstrip_by p s' else s
  end.

Definition rstrip_by (p : N -> bool) (s : str) : str :=
  rev (lstrip_by p (rev s)).

Definition strip_by (p : N -> bool) (s : str) : str :=
  lstrip_by p (rstrip_by p s).

(** [s.rstrip(chars)]: every trailing character that occurs in [chars]
    is removed. *)
Definition rstrip (chars s : str) : str := rstrip_by (in_chars chars) s.

(** [s.strip(chars)]: the same at both ends. *)
Definition strip_chars (chars s : str) : str := strip_by (in_chars chars) s.

(** [s.strip()]: leading and trailing whitespace removed. *)
Definition strip (s : str) : str := strip_by is_space s.

(** [s.startswith(prefix)]. *)
Definition startswith (s prefix : str) : bool :=
  eqb (take (length prefix) s) prefix.

(** Truth value of a string: [bool(s)], as in [if s:]. *)
Definition truthy (s : str) : bool :=
  match s with [] => false | _ => true end.

(** [s.split(sep)] for a one-character separator. *)
Fixpoint split (sep : N) (s : str) : list str :=
  match s with
  | [] => [[]]
  | c :: s' =>
      if (c =? sep)%N then [] :: split sep s'
      else match split sep s' with
           | h :: t => (c :: h) :: t
           | [] => [[c]]
           end
  end.

(** [sep.join(parts)]. *)
Fixpoint join (sep : str) (parts : list str) : str :=
  match parts with
  | [] => []
  | [p] => p
  | p :: rest => p ++ sep ++ join sep rest
  end.

(** [s[:n]]. *)
Definition slice_to (n : nat) (s : str) : str := take n s.

(** [str(i)] for an integer. *)
Definition of_Z (z : Z) : str :=
  bytes_of (NilZero.string_of_int (Z.to_int z)).

(** Whitespace-only (or empty) strings. *)
Definition blank (s : str) : Prop := Forall (fun c => is_space c = true) s.

End PyStr.

Notation "'u8' s" := (PyStr.lit s%string) (at level 1, s at level 0, only parsing).

(** Literals are compared as they are written; [vm_compute] decodes them. *)
Opaque PyStr.lit.

(** ** shared_config.py *)

Module Config.

Definition EMBEDDING_DIM : Z := 1536.
Definition CHUNK_SIZE : Z := 512.
Definition CHUNK_OVERLAP : Z := 50.
Definition MIN_LINE_LENGTH : nat := 1.
Definition SIMILARITY_TOP_K : Z := 5.
Definition RESPONSE_MODE : list N := u8 "compact".

End Config.

(** ** The values the pipeline passes around *)

(** A metadata value: a string or an integer. *)
Inductive MetaVal : Type :=
| MStr (s : list N)
| MInt (z : Z).

(** A metadata dict, in insertion order. *)
Abbreviation Metadata := (list (list N * MetaVal)).

(** [key in metadata] / [metadata[key]]. *)
Fixpoint meta_get (key : list N) (m : Metadata) : option MetaVal :=
  match m with
  | [] => None
  | (k, v) :: m' => if PyStr.eqb k key then Some v else meta_get key m'
  end.

(** [str(v)] of a metadata value in an f-string. *)
Definition meta_str (v : MetaVal) : list N :=
  match v with
  | MStr s => s
  | MInt z => PyStr.of_Z z
  end.

(** pdfminer layout elements: only text containers carry text. *)
Inductive Element : Type :=
| LTTextContainer (text : list N)
| LTOther.

(** llama_index [Document] and [TextNode]. *)
Record Document : Type := mkDocument {
  doc_text : list N;
  doc_metadata : Metadata }.

Record TextNode : Type := mkTextNode {
  tn_text : list N;
  tn_metadata : Metadata }.

(** llama_index [NodeWithScore], as the retriever returns it. *)
Record Node : Type := mkNode {
  node_text : list N;
  node_score : Q;
  node_metadata : Metadata }.

(** One entry of the reranker's answer ([return_documents=True]). *)
Record RankResult : Type := mkRankResult {
  rr_document : list N;
  rr_score : Q }.

(** A query-engine response, and the [MockResponse] of the rerank path:
    [str(response)] and [response.source_nodes]. *)
Record Response : Type := mkResponse {
  resp_text : list N;
  source_nodes : list Node }.

(** The per-source dict of a query result. *)
Record SourceInfo : Type := mkSourceInfo {
  src_text : list N;
  src_score : Q;
  src_metadata : Metadata }.

(** The dict a query returns. *)
Record QueryResult : Type := mkQueryResult {
  question : list N;
  answer : list N;
  sources : list SourceInfo;
  processing_time : Q }.

(** What [QueryLogger.log_query_result] writes per source and per query
    (the timestamp is left out). *)
Record LogSource : Type := mkLogSource {
  ls_rank : nat;
  ls_similarity_score : Q;
  ls_metadata : Metadata;
  ls_full_content : list N }.

Record LogData : Type := mkLogData {
  ld_question : list N;
  ld_answer : list N;
  ld_processing_time : Q;
  ld_sources : list LogSource }.

(** ** Effects *)

Module Eff.

(** A raised [Exception]: any exception with its message, or the
    [HTTPException] of the service layer. *)
Inductive exn : Type :=
| Exn (message : list N)
| HTTPException (status_code : Z) (detail : list N).

(** [str(e)]. *)
Definition exn_msg (e : exn) : list N :=
  match e with
  | Exn message => message
  | HTTPException status_code detail =>
      PyStr.of_Z status_code ++ u8 ": " ++ detail
  end.

(** What the code does to the outside world, in order. *)
Inductive Event : Type :=
| EvPrint (line : list N)
| EvExtractPages (pdf_path : list N)
| EvSplit (text : list N)
| EvIndexCreate (nodes : list TextNode)
| EvIndexInsert (node : TextNode)
| EvRetrieve (similarity_top_k : Z) (query : list N)
| EvRank (query : list N) (documents : list (list N)) (top_k : Z)
| EvComplete (prompt : list N)
| EvEngineQuery (template : option (list N)) (similarity_top_k : Z)
    (query : list N)
| EvLogInfo (message : list N)
| EvLogQueryResult (data : LogData)
| EvWriteJson (output_file : list N) (results : list QueryResult).

(** A computation: the events so far, and an exception or a value. *)
Definition M (A : Type) : Type := (list Event * (exn + A))%type.

Definition ret {A} (a : A) : M A := ([], inr a).

Definition bind {A B} (m : M A) (f : A -> M B) : M B :=
  match m with
  | (t, inl e) => (t, inl e)
  | (t, inr a) => match f a with (t', r) => (t ++ t', r) end
  end.

Definition raise {A} (e : exn) : M A := ([], inl e).

(** A call to a collaborator: recorded, then its outcome. *)
Definition call {A} (ev : Event) (outcome : exn + A) : M A := ([ev], outcome).

Definition print (line : list N) : M unit := ([EvPrint line], inr tt).

(** [try: body / except Exception as e: handler e]. *)
Definition try_except {A} (body : M A) (handler : exn -> M A) : M A :=
  match body with
  | (t, inl e) => match handler e with (t', r) => (t ++ t', r) end
  | (t, inr a) => (t, inr a)
  end.

(** [for x in xs: body x]. *)
Fixpoint for_each {A} (xs : list A) (body : A -> M unit) : M unit :=
  match xs with
  | [] => ret tt
  | x :: xs' => bind (body x) (fun _ => for_each xs' body)
  end.

Definition trace {A} (m : M A) : list Event := fst m.
Definition outcome {A} (m : M A) : exn + A := snd m.

End Eff.

Import Eff.

Declare Scope eff_scope.
Delimit Scope eff_scope with eff.
Notation "x <- m ;; k" := (bind m (fun x => k))
  (at level 20, m at level 99, k at level 200, only parsing) : eff_scope.
Notation "m ;; k" := (bind m (fun _ => k))
  (at level 100, k at level 200, right associativity, only parsing) : eff_scope.
Local Open Scope eff_scope.

(** The external collaborators. *)
Record Env : Type := mkEnv {
  (** [pdfminer.high_level.extract_pages]: the pages, each a sequence of
      layout elements. *)
  extract_pages : list N -> exn + list (list Element);
  (** [SemanticSplitterNodeParser.get_nodes_from_documents] on one
      document with the given text: the texts of the nodes. *)
  get_nodes_from_documents : list N -> exn + list (list N);
  (** [VectorStoreIndex(batch, ...)] and [index.insert_nodes([node])]. *)
  index_create : list TextNode -> exn + unit;
  index_insert : TextNode -> exn + unit;
  (** [VectorIndexRetriever(similarity_top_k=k).retrieve(query)]. *)
  retrieve : Z -> list N -> exn + list Node;
  (** [MxbaiRerankV2.rank(query, documents, return_documents=True, top_k)]. *)
  rank : list N -> list (list N) -> Z -> exn + list RankResult;
  (** [llm.complete(prompt).text]. *)
  complete : list N -> exn + list N;
  (** [index.as_query_engine(similarity_top_k=k, text_qa_template=...)
      .query(query)]; no template means the library's default. *)
  engine_query : option (list N) -> Z -> list N -> exn + Response;
  (** [logger.info] of a text message, and of a serialised query record. *)
  logger_info : list N -> exn + unit;
  logger_query_result : LogData -> exn + unit;
  (** [json.dump] of the batch results into a file. *)
  write_json : list N -> list QueryResult -> exn + unit;
  (** Wall-clock duration of the query, [time.time() - start_time]. *)
  elapsed : Q;
  (** [f"{x:.nf}"] for a float. *)
  fmt_float : nat -> Q -> list N }.

(** A path found by [Path.glob]: [str(path)], [path.name] and
    [path.suffix]. *)
Record File : Type := mkFile {
  file_path : list N;
  file_name : list N;
  file_suffix : list N }.

(** What a line typed at the console does to [input()]: it returns the
    line, or raises [KeyboardInterrupt], or raises an [Exception] (the
    end of the input, for one). *)
Inductive ConsoleInput : Type :=
| Line (text : list N)
| Interrupt
| InputError (e : exn).

(** The file system and the parts of the libraries that the command-line
    tools and [main.py] use beyond the collaborators of [Env]. *)
Record Host : Type := mkHost {
  (** [Path(directory).exists()]; an error of the file system other than
      a missing path is raised. *)
  path_exists : list N -> exn + bool;
  (** [list(Path(directory).glob(file_pattern))]; raises for a pattern
      that is empty or absolute. *)
  glob : list N -> list N -> exn + list File;
  (** [str.lower]. *)
  lower : list N -> list N;
  (** [SimpleNodeParser.get_nodes_from_documents]. *)
  simple_parse : list Document -> exn + list TextNode;
  (** [os.makedirs(log_dir, exist_ok=True)]. *)
  makedirs : list N -> exn + unit;
  (** [logging.FileHandler(log_file, encoding='utf-8')] opening its
      file. *)
  open_log : list N -> exn + unit }.

(** [enumerate(xs, start)]. *)
Fixpoint enumerate {A} (start : nat) (xs : list A) : list (nat * A) :=
  match xs with
  | [] => []
  | x :: xs' => (start, x) :: enumerate (S start) xs'
  end.

(** [range(start, stop, step)] for a positive step. *)
Definition range_step (start stop step : nat) : list nat :=
  map (fun j => start + j * step) (seq 0 ((stop - start + (step - 1)) / step)).

(** [f"{len(xs)}"]. *)
Definition len_str {A} (xs : list A) : list N := PyStr.of_Z (Z.of_nat (length xs)).

(** ** document_indexing.py *)

Module DocumentIndexing.

(** Lines 105-107: the text of one element, before it is appended. *)
Definition dehyphenate (text : list N) : list N :=
  if PyStr.endswith text [PyStr.HYPHEN; PyStr.LF]
  then PyStr.rstrip [PyStr.HYPHEN; PyStr.LF] text
  else text.

(** [page_numbers is not None and i not in page_numbers] is the skip test. *)
Definition page_selected (page_numbers : option (list Z)) (i : nat) : bool :=
  match page_numbers with
  | None => true
  | Some l => existsb (Z.eqb (Z.of_nat i)) l
  end.

(** Lines 102-108: the elements of one page appended to [full_text]. *)
Fixpoint add_page (page : list Element) (full_text : list N) : list N :=
  match page with
  | [] => full_text
  | LTTextContainer text :: rest => add_page rest (full_text ++ dehyphenate text)
  | LTOther :: rest => add_page rest full_text
  end.

(** Lines 98-108: the loop over the enumerated pages. *)
Fixpoint add_pages (page_numbers : option (list Z)) (i : nat)
    (pages : list (list Element)) (full_text : list N) : list N :=
  match pages with
  | [] => full_text
  | page :: rest =>
      add_pages page_numbers (S i) rest
        (if page_selected page_numbers i then add_page page full_text
         else full_text)
  end.

Definition MSG_NO_TEXT : list N := u8 "✗ 未提取到任何文字".

Definition extract_text_from_pdf (env : Env) (pdf_path : list N)
    (page_numbers : option (list Z)) : M (list (list N)) :=
  print (u8 "正在提取 PDF 文字: " ++ pdf_path) ;;
  try_except
    (pages <- call (EvExtractPages pdf_path) (extract_pages env pdf_path) ;;
     let full_text := add_pages page_numbers 0 pages [] in
     if negb (PyStr.truthy (PyStr.strip full_text)) then
       print MSG_NO_TEXT ;;
       ret []
     else
       let document := PyStr.strip full_text in
       nodes <- call (EvSplit document) (get_nodes_from_documents env document) ;;
       let text_chunks :=
         List.filter (fun t => PyStr.truthy (PyStr.strip t)) nodes in
       print (u8 "✓ 語意分割為 " ++ len_str text_chunks ++ u8 " 個文字片段") ;;
       ret text_chunks)
    (fun e =>
       print (u8 "✗ PDF 提取失敗: " ++ exn_msg e) ;;
       ret []).

(** The loop body of lines 144-154 and 172-182: one [Document] per entry
    whose stripped text is not empty. *)
Definition documents_of (entries : list (nat * list N))
    (metadata : nat -> Metadata) : list Document :=
  flat_map (fun '(i, text) =>
              if PyStr.truthy (PyStr.strip text)
              then [mkDocument text (metadata i)]
              else [])
           entries.

Definition process_documents_from_pdf (env : Env) (pdf_path : list N)
    (page_numbers : option (list Z)) : M (list Document) :=
  paragraphs <- extract_text_from_pdf env pdf_path page_numbers ;;
  let documents :=
    documents_of (enumerate 0 paragraphs)
      (fun i => [(u8 "source", MStr pdf_path);
                 (u8 "paragraph_id", MInt (Z.of_nat i));
                 (u8 "source_type", MStr (u8 "pdf"))]) in
  print (u8 "✓ 建立 " ++ len_str documents ++ u8 " 個文檔物件") ;;
  ret documents.

Definition process_documents_from_text (texts : list (list N))
    (source : list N) : M (list Document) :=
  let documents :=
    documents_of (enumerate 0 texts)
      (fun i => [(u8 "source", MStr source);
                 (u8 "text_id", MInt (Z.of_nat i));
                 (u8 "source_type", MStr (u8 "text"))]) in
  print (u8 "✓ 建立 " ++ len_str documents ++ u8 " 個文檔物件") ;;
  ret documents.

(** Lines 225-234: the batches of ten; the first creates the index, the
    nodes of the later ones are inserted one by one. *)
Definition store_batches (env : Env) (nodes : list TextNode) : M unit :=
  let batch_size := 10 in
  for_each (range_step 0 (length nodes) batch_size)
    (fun i =>
       let batch_nodes := take batch_size (drop i nodes) in
       if (i =? 0)%nat then
         call (EvIndexCreate batch_nodes) (index_create env batch_nodes)
       else
         for_each batch_nodes
           (fun node => call (EvIndexInsert node) (index_insert env node))).

(** The progress bars of [tqdm] are not part of the model. *)
Definition ingest_documents (env : Env) (documents : list Document) : M bool :=
  try_except
    (print (u8 "開始處理 " ++ len_str documents ++ u8 " 個文檔...") ;;
     print (u8 "正在將文檔轉換為節點...") ;;
     let nodes := map (fun doc => mkTextNode (doc_text doc) (doc_metadata doc))
                      documents in
     print (u8 "✓ 轉換為 " ++ len_str nodes ++ u8 " 個節點") ;;
     print (u8 "正在生成嵌入向量並存儲到 Milvus...") ;;
     store_batches env nodes ;;
     print (u8 "✓ 成功將 " ++ len_str nodes ++ u8 " 個節點存儲到 Milvus") ;;
     ret true)
    (fun e =>
       print (u8 "✗ 文檔入庫失敗: " ++ exn_msg e) ;;
       ret false).

(** Lines 268-281: one file of the directory; [success_count] is the
    loop's counter. *)
Definition ingest_file (env : Env) (host : Host) (file : File)
    (success_count : nat) : M nat :=
  print ([PyStr.LF] ++ u8 "處理文件: " ++ file_name file) ;;
  if PyStr.eqb (lower host (file_suffix file)) (u8 ".pdf") then
    documents <- process_documents_from_pdf env (file_path file) None ;;
    ingested <- match documents with
                | [] => ret false
                | _ :: _ => ingest_documents env documents
                end ;;
    if ingested : bool then
      print (u8 "✓ " ++ file_name file ++ u8 " 處理完成") ;;
      ret (S success_count)
    else
      print (u8 "✗ " ++ file_name file ++ u8 " 處理失敗") ;;
      ret success_count
  else
    print (u8 "跳過不支援的文件格式: " ++ file_suffix file) ;;
    ret success_count.

Fixpoint ingest_files (env : Env) (host : Host) (files : list File)
    (success_count : nat) : M nat :=
  match files with
  | [] => ret success_count
  | file :: rest =>
      success_count' <- ingest_file env host file success_count ;;
      ingest_files env host rest success_count'
  end.

(** Lines 255-284; the existence test and the globbing are outside any
    [try]. *)
Definition ingest_from_directory (env : Env) (host : Host)
    (directory file_pattern : list N) : M bool :=
  found <- (([], path_exists host directory) : M bool) ;;
  if negb found then
    print (u8 "✗ 目錄不存在: " ++ directory) ;;
    ret false
  else
    files <- (([], glob host directory file_pattern) : M (list File)) ;;
    match files with
    | [] =>
        print (u8 "✗ 在 " ++ directory ++ u8 " 中未找到匹配 " ++ file_pattern
               ++ u8 " 的文件") ;;
        ret false
    | _ :: _ =>
        print (u8 "找到 " ++ len_str files ++ u8 " 個文件待處理") ;;
        success_count <- ingest_files env host files 0 ;;
        print ([PyStr.LF] ++ u8 "批次處理完成: "
               ++ PyStr.of_Z (Z.of_nat success_count) ++ u8 "/"
               ++ len_str files ++ u8 " 個文件成功") ;;
        ret (success_count =? length files)%nat
    end.

Definition result_word (success : bool) : list N :=
  if success then u8 "成功" else u8 "失敗".

(** [main], branch [--pdf]. *)
Definition main_pdf (env : Env) (pdf : list N) : M unit :=
  documents <- process_documents_from_pdf env pdf None ;;
  match documents with
  | _ :: _ =>
      success <- ingest_documents env documents ;;
      print (u8 "處理結果: " ++ result_word success)
  | [] => print (u8 "未能處理 PDF 文件")
  end.

(** [main], branch [--text]. *)
Definition main_text (env : Env) (texts : list (list N)) : M unit :=
  documents <- process_documents_from_text texts (u8 "command_line") ;;
  match documents with
  | _ :: _ =>
      success <- ingest_documents env documents ;;
      print (u8 "處理結果: " ++ result_word success)
  | [] => ret tt
  end.

End DocumentIndexing.

(** ** main.py *)

Module Main.

(** Lines 96-98: every text element is appended with a line break. *)
Fixpoint add_page (page : list Element) (full_text : list N) : list N :=
  match page with
  | [] => full_text
  | LTTextContainer text :: rest => add_page rest (full_text ++ text ++ [PyStr.LF])
  | LTOther :: rest => add_page rest full_text
  end.

Fixpoint add_pages (page_numbers : option (list Z)) (i : nat)
    (pages : list (list Element)) (full_text : list N) : list N :=
  match pages with
  | [] => full_text
  | page :: rest =>
      add_pages page_numbers (S i) rest
        (if DocumentIndexing.page_selected page_numbers i
         then add_page page full_text
         else full_text)
  end.

(** Line 104: what one line adds to the buffer. *)
Definition buffer_piece (text : list N) : list N :=
  if negb (PyStr.endswith text [PyStr.HYPHEN])
  then PyStr.SPACE :: text
  else PyStr.strip_chars [PyStr.HYPHEN] text.

(** Lines 102-109: the loop over the lines, with [buffer] and
    [paragraphs] as loop state. *)
Fixpoint collect (min_line_length : nat) (lines : list (list N))
    (buffer : list N) (paragraphs : list (list N)) : list (list N) :=
  match lines with
  | [] => if PyStr.truthy buffer then paragraphs ++ [buffer] else paragraphs
  | text :: rest =>
      if (min_line_length <=? length text)%nat then
        collect min_line_length rest (buffer ++ buffer_piece text) paragraphs
      else if PyStr.truthy buffer then
        collect min_line_length rest [] (paragraphs ++ [buffer])
      else
        collect min_line_length rest buffer paragraphs
  end.

(** The paragraphs of already extracted pages. *)
Definition paragraphs_of (pages : list (list Element))
    (page_numbers : option (list Z)) (min_line_length : nat) : list (list N) :=
  let full_text := add_pages page_numbers 0 pages [] in
  let lines := PyStr.split PyStr.LF full_text in
  collect min_line_length lines [] [].

Definition extract_text_from_pdf (env : Env) (filename : list N)
    (page_numbers : option (list Z)) (min_line_length : nat)
    : M (list (list N)) :=
  pages <- call (EvExtractPages filename) (extract_pages env filename) ;;
  ret (paragraphs_of pages page_numbers min_line_length).

(** [load_documents_from_pdf], lines 124-138; the minimal line length is
    the default of [extract_text_from_pdf]. *)
Definition load_documents_from_pdf (env : Env) (pdf_path : list N)
    (page_numbers : option (list Z)) : M (list Document) :=
  paragraphs <- extract_text_from_pdf env pdf_path page_numbers 1 ;;
  ret (DocumentIndexing.documents_of (enumerate 0 paragraphs)
         (fun i => [(u8 "source", MStr pdf_path);
                    (u8 "paragraph_id", MInt (Z.of_nat i))])).

(** [load_documents_from_text], lines 151-163. *)
Definition load_documents_from_text (texts : list (list N))
    (source : list N) : list Document :=
  DocumentIndexing.documents_of (enumerate 0 texts)
    (fun i => [(u8 "source", MStr source); (u8 "text_id", MInt (Z.of_nat i))]).

(** The fields of a [RAGSystem] that its methods test: whether Milvus is
    in use and connected, and whether [index] and [query_engine] are set. *)
Record RAGSystem : Type := mkRAGSystem {
  use_milvus : bool;
  has_vector_store : bool;
  has_index : bool;
  has_query_engine : bool }.

Definition NOT_BUILT_QUERY : list N := u8 "請先建立索引後再進行查詢".
Definition NOT_BUILT_INDEX : list N := u8 "請先建立索引".

(** [build_index], lines 172-194: the system after the call. An
    exception leaves the fields as they were. *)
Definition build_index (env : Env) (host : Host) (self : RAGSystem)
    (documents : list Document) : M RAGSystem :=
  print (u8 "正在建立索引，共 " ++ len_str documents ++ u8 " 個文檔...") ;;
  nodes <- (([], simple_parse host documents) : M (list TextNode)) ;;
  print (u8 "解析為 " ++ len_str nodes ++ u8 " 個節點") ;;
  (if use_milvus self && has_vector_store self then
     call (EvIndexCreate nodes) (index_create env nodes) ;;
     print (u8 "已使用 Milvus 建立索引")
   else
     call (EvIndexCreate nodes) (index_create env nodes) ;;
     print (u8 "已使用記憶體建立索引")) ;;
  print (u8 "索引建立完成！") ;;
  ret (mkRAGSystem (use_milvus self) (has_vector_store self) true true).

(** [query], lines 206-211. *)
Definition query (env : Env) (self : RAGSystem) (question : list N)
    : M (list N) :=
  if negb (has_query_engine self) then raise (Exn NOT_BUILT_QUERY)
  else
    print (u8 "正在查詢: " ++ question) ;;
    response <- call (EvEngineQuery None 5 question)
                     (engine_query env None 5 question) ;;
    ret (resp_text response).

(** [get_relevant_documents], lines 224-233. *)
Definition get_relevant_documents (env : Env) (self : RAGSystem)
    (question : list N) (top_k : Z) : M (list (list N)) :=
  if negb (has_index self) then raise (Exn NOT_BUILT_INDEX)
  else
    nodes <- call (EvRetrieve top_k question) (retrieve env top_k question) ;;
    ret (map node_text nodes).

End Main.

(** ** logging_config.py *)

Module LoggingConfig.

Definition log_source (entry : nat * SourceInfo) : LogSource :=
  let '(i, source) := entry in
  mkLogSource i (src_score source) (src_metadata source) (src_text source).

Definition log_query_result (env : Env) (result : QueryResult) : M LogData :=
  let log_data :=
    mkLogData (question result) (answer result) (processing_time result)
      (map log_source (enumerate 1 (sources result))) in
  call (EvLogQueryResult log_data) (logger_query_result env log_data) ;;
  ret log_data.

Definition log_info (env : Env) (message : list N) : M unit :=
  call (EvLogInfo message) (logger_info env message).

(** Levels of the [logging] module. *)
Definition NOTSET : Z := 0.
Definition INFO : Z := 20.
Definition WARNING : Z := 30.

(** Line 47. *)
Definition FORMAT : list N :=
  u8 "%(asctime)s - %(name)s - %(levelname)s - %(message)s".

(** A handler of a logger: a file handler with the file name it was made
    with, its level and the format of its formatter, or a handler of
    another kind. *)
Inductive Handler : Type :=
| FileHandler (file : list N) (level : Z) (format : list N)
| OtherHandler.

Record Logger : Type := mkLogger {
  logger_level : Z;
  logger_handlers : list Handler }.

(** The loggers of the [logging] module that have been asked for, by
    the name they are kept under. *)
Abbreviation Loggers := (gmap (list N) Logger).

(** The root logger answers to the empty name and to its own name. *)
Definition ROOT : list N := u8 "root".

Definition logger_key (logger_name : list N) : list N :=
  if negb (PyStr.truthy logger_name) || PyStr.eqb logger_name ROOT
  then ROOT else logger_name.

(** A logger as it is made: no handlers; the root logger at [WARNING],
    every other at [NOTSET]. *)
Definition new_logger (key : list N) : Logger :=
  mkLogger (if PyStr.eqb key ROOT then WARNING else NOTSET) [].

(** [logging.getLogger(logger_name)]. *)
Definition getLogger (loggers : Loggers) (logger_name : list N) : Logger :=
  default (new_logger (logger_key logger_name))
          (loggers !! logger_key logger_name).

(** [os.path.join(log_dir, name)] for a relative [name]. *)
Definition path_join (log_dir name : list N) : list N :=
  if negb (PyStr.truthy log_dir) || PyStr.endswith log_dir (u8 "/")
  then log_dir ++ name
  else log_dir ++ u8 "/" ++ name.

(** Lines 38-41; [today] is [datetime.now().strftime('%Y%m%d')]. *)
Definition log_file (log_dir today : list N) : list N :=
  path_join log_dir (u8 "query_log_" ++ today ++ u8 ".log").

(** [_setup_logging], lines 26-51: the loggers after the call, and
    whether it raised. *)
Definition setup_logging (host : Host) (loggers : Loggers)
    (logger_name log_dir today : list N) : Loggers * (exn + unit) :=
  match makedirs host log_dir with
  | inl e => (loggers, inl e)
  | inr _ =>
      let key := logger_key logger_name in
      let handlers := logger_handlers (getLogger loggers logger_name) in
      let loggers1 := <[key := mkLogger INFO handlers]> loggers in
      match handlers with
      | [] =>
          let file := log_file log_dir today in
          match open_log host file with
          | inl e => (loggers1, inl e)
          | inr _ =>
              (<[key := mkLogger INFO [FileHandler file INFO FORMAT]]> loggers1,
               inr tt)
          end
      | _ :: _ => (loggers1, inr tt)
      end
  end.

(** [get_query_logger], lines 99-111, with [QueryLogger.__init__];
    [enable_console] is stored and not used. *)
Definition get_query_logger (host : Host) (loggers : Loggers)
    (logger_name log_dir : list N) (enable_console : bool) (today : list N)
    : Loggers * (exn + unit) :=
  setup_logging host loggers logger_name log_dir today.

End LoggingConfig.

(** [top_k or default] and the truth value of an optional integer. *)
Definition int_truthy (top_k : option Z) : bool :=
  match top_k with
  | Some k => negb (k =? 0)%Z
  | None => false
  end.

Definition int_or (top_k : option Z) (default : Z) : Z :=
  match top_k with
  | Some k => if (k =? 0)%Z then default else k
  | None => default
  end.

(** [top_k and top_k != Config.SIMILARITY_TOP_K]. *)
Definition overrides_default (top_k : option Z) : bool :=
  match top_k with
  | Some k => negb (k =? 0)%Z && negb (k =? Config.SIMILARITY_TOP_K)%Z
  | None => false
  end.

(** ** local_query.py *)

Module LocalQuery.

(** The text of [custom_template] (lines 42-56), cut at its two
    placeholders and at the quotation marks around the fallback sentence. *)
Definition TEMPLATE_HEAD : list N :=
  (u8 "你是一个问答机器人。
                你的任务是根据下述给定的已知信息回答用户问题。

                已知信息:
                ").

Definition TEMPLATE_MIDDLE : list N :=
  (u8 "

                用户问：
                ").

Definition TEMPLATE_RULE : list N :=
  (u8 "

                如果已知信息不包含用户问题的答案，或者已知信息不足以回答用户的问题，请直接回复").

Definition FALLBACK_SENTENCE : list N := (u8 "我无法回答您的问题").

Definition TEMPLATE_TAIL : list N :=
  (u8 "。
                请不要输出已知信息中不包含的信息或答案。
                请用中文回答用户问题。
                ").

(** A prompt template: literal text and the two placeholders. *)
Inductive Piece : Type :=
| Text (s : list N)
| ContextStr
| QueryStr.

Definition custom_template : list Piece :=
  [Text TEMPLATE_HEAD; ContextStr; Text TEMPLATE_MIDDLE; QueryStr;
   Text (TEMPLATE_RULE ++ [PyStr.DQUOTE] ++ FALLBACK_SENTENCE
         ++ [PyStr.DQUOTE] ++ TEMPLATE_TAIL)].

(** [template.format(context_str=..., query_str=...)]. *)
Definition format (template : list Piece) (context_str query_str : list N)
    : list N :=
  concat (map (fun p => match p with
                        | Text s => s
                        | ContextStr => context_str
                        | QueryStr => query_str
                        end) template).

(** The template as written, placeholders in braces. *)
Definition template_text (template : list Piece) : list N :=
  format template (u8 "{context_str}") (u8 "{query_str}").

(** [node.score = score] on a node object. *)
Definition set_score (node : Node) (score : Q) : Node :=
  mkNode (node_text node) score (node_metadata node).

(** Lines 185-189: the first node whose text is the document, with its
    position in [nodes], which stands for the identity of the object. *)
Definition find_node (nodes : list Node) (document : list N)
    : option (nat * Node) :=
  list_find (fun node => node_text node = document) nodes.

(** Lines 182-189. [nodes] is the store of node objects, mutated in
    place; [reranked_nodes] holds references (positions) into it, so a
    node appended twice is one object. *)
Fixpoint rematch (rerank_results : list RankResult) (nodes : list Node)
    (reranked_nodes : list nat) : list Node * list nat :=
  match rerank_results with
  | [] => (nodes, reranked_nodes)
  | result :: rest =>
      match find_node nodes (rr_document result) with
      | Some (j, node) =>
          rematch rest (<[j := set_score node (rr_score result)]> nodes)
                  (reranked_nodes ++ [j])
      | None => rematch rest nodes reranked_nodes
      end
  end.

(** The objects a list of references points to, read from the store. *)
Definition deref (nodes : list Node) (refs : list nat) : list Node :=
  omap (fun j => nodes !! j) refs.

(** [response.source_nodes] of the rerank path, as read after the loop. *)
Definition reranked_source_nodes (nodes : list Node)
    (rerank_results : list RankResult) : list Node :=
  let '(store, refs) := rematch rerank_results nodes [] in
  deref store refs.

(** Lines 136-191. *)
Definition rerank_response (env : Env) (question : list N)
    (top_k : option Z) : M Response :=
  print (u8 "🔄 使用重排模型進行查詢...") ;;
  let retrieve_count := (int_or top_k Config.SIMILARITY_TOP_K * 2)%Z in
  nodes <- call (EvRetrieve retrieve_count question)
                (retrieve env retrieve_count question) ;;
  let documents := map node_text nodes in
  let k := int_or top_k Config.SIMILARITY_TOP_K in
  rerank_results <- call (EvRank question documents k)
                         (rank env question documents k) ;;
  print (u8 "✓ 重排完成，選出前 " ++ len_str rerank_results
         ++ u8 " 個最相關文檔") ;;
  let reranked_context :=
    PyStr.join [PyStr.LF; PyStr.LF] (map rr_document rerank_results) in
  let prompt := format custom_template reranked_context question in
  response_text <- call (EvComplete prompt) (complete env prompt) ;;
  ret (mkResponse response_text (reranked_source_nodes nodes rerank_results)).

(** Lines 194-204. *)
Definition engine_response (env : Env) (question : list N)
    (top_k : option Z) : M Response :=
  let template := Some (template_text custom_template) in
  if overrides_default top_k then
    let k := int_or top_k Config.SIMILARITY_TOP_K in
    call (EvEngineQuery template k question)
         (engine_query env template k question)
  else
    call (EvEngineQuery template Config.SIMILARITY_TOP_K question)
         (engine_query env template Config.SIMILARITY_TOP_K question).

Definition source_info (node : Node) : SourceInfo :=
  mkSourceInfo (node_text node) (node_score node) (node_metadata node).

Definition meta_line (label key : list N) (metadata : Metadata) : list N :=
  match meta_get key metadata with
  | Some v => label ++ meta_str v ++ [PyStr.LF]
  | None => []
  end.

(** Lines 224-231: what one source adds to the log text. *)
Definition source_log (env : Env) (entry : nat * Node) : list N :=
  let '(i, node) := entry in
  [PyStr.LF] ++ PyStr.of_Z (Z.of_nat i) ++ u8 ". 相似度分數: "
  ++ fmt_float env 4 (node_score node) ++ [PyStr.LF]
  ++ meta_line (u8 "   來源: ") (u8 "source") (node_metadata node)
  ++ meta_line (u8 "   段落 ID: ") (u8 "paragraph_id") (node_metadata node)
  ++ u8 "   內容: " ++ node_text node ++ [PyStr.LF].

(** Lines 215-241. *)
Definition collect_sources (env : Env) (response : Response)
    (show_sources : bool) : M (list SourceInfo) :=
  if show_sources then
    let entries := enumerate 1 (source_nodes response) in
    let sources_log :=
      [PyStr.LF] ++ u8 "📚 參考來源:" ++ [PyStr.LF]
      ++ concat (map (source_log env) entries) in
    let sources := map source_info (source_nodes response) in
    LoggingConfig.log_info env sources_log ;;
    ret sources
  else ret [].

(** Lines 206-253: the result built from the response. *)
Definition finish_query (env : Env) (question : list N) (show_sources : bool)
    (response : Response) : M QueryResult :=
  let answer := resp_text response in
  let processing_time := elapsed env in
  print ([PyStr.LF] ++ u8 "💬 回答:") ;;
  print answer ;;
  print ([PyStr.LF] ++ u8 "⏱️  處理時間: " ++ fmt_float env 2 processing_time
         ++ u8 " 秒") ;;
  sources <- collect_sources env response show_sources ;;
  let result := mkQueryResult question answer sources processing_time in
  LoggingConfig.log_query_result env result ;;
  ret result.

(** The [try] block of [query], lines 134-253. *)
Definition query_body (env : Env) (question : list N) (top_k : option Z)
    (show_sources use_rerank : bool) : M QueryResult :=
  print (u8 "🔍 查詢問題: " ++ question) ;;
  response <- (if use_rerank then rerank_response env question top_k
               else engine_response env question top_k) ;;
  finish_query env question show_sources response.

Definition FAILURE_PREFIX : list N := u8 "查詢失敗: ".

(** The [except] block of [query], lines 255-262. *)
Definition query_failed (question : list N) (e : exn) : M QueryResult :=
  print (u8 "✗ " ++ FAILURE_PREFIX ++ exn_msg e) ;;
  ret (mkQueryResult question (FAILURE_PREFIX ++ exn_msg e) [] 0).

Definition query (env : Env) (question : list N) (top_k : option Z)
    (show_sources use_rerank : bool) : M QueryResult :=
  try_except (query_body env question top_k show_sources use_rerank)
             (query_failed question).

(** Lines 295-314: what is printed for one retrieved node. *)
Definition print_document (env : Env) (entry : nat * Node) : M unit :=
  let '(i, node) := entry in
  print ([PyStr.LF] ++ PyStr.of_Z (Z.of_nat i) ++ u8 ". 相似度分數: "
         ++ fmt_float env 4 (node_score node)) ;;
  match meta_get (u8 "source") (node_metadata node) with
  | Some v => print (u8 "   來源: " ++ meta_str v)
  | None => ret tt
  end ;;
  match meta_get (u8 "paragraph_id") (node_metadata node) with
  | Some v => print (u8 "   段落 ID: " ++ meta_str v)
  | None => ret tt
  end ;;
  print (u8 "   內容: " ++ node_text node) ;;
  print (replicate 80 PyStr.HYPHEN).

(** Lines 279-289: the retriever call of the documents-only path. The
    configured retriever [self.retriever] was built with
    [Config.SIMILARITY_TOP_K]. *)
Definition retrieve_nodes (env : Env) (question : list N)
    (top_k : option Z) : M (list Node) :=
  if overrides_default top_k then
    let k := int_or top_k Config.SIMILARITY_TOP_K in
    call (EvRetrieve k question) (retrieve env k question)
  else
    call (EvRetrieve Config.SIMILARITY_TOP_K question)
         (retrieve env Config.SIMILARITY_TOP_K question).

Definition get_relevant_documents (env : Env) (question : list N)
    (top_k : option Z) : M (list SourceInfo) :=
  try_except
    (print (u8 "🔍 檢索相關文檔: " ++ question) ;;
     nodes <- retrieve_nodes env question top_k ;;
     print ([PyStr.LF] ++ u8 "📄 找到 " ++ len_str nodes ++ u8 " 個相關文檔:") ;;
     for_each (enumerate 1 nodes) (print_document env) ;;
     ret (map source_info nodes))
    (fun e =>
       print (u8 "✗ 文檔檢索失敗: " ++ exn_msg e) ;;
       ret []).

(** Lines 383-387: the loop of [batch_query], [results] as loop state. *)
Fixpoint batch_loop (env : Env) (total : nat) (entries : list (nat * list N))
    (results : list QueryResult) : M (list QueryResult) :=
  match entries with
  | [] => ret results
  | (i, question) :: rest =>
      print ([PyStr.LF] ++ u8 "[" ++ PyStr.of_Z (Z.of_nat i) ++ u8 "/"
             ++ PyStr.of_Z (Z.of_nat total) ++ u8 "] 處理中...") ;;
      result <- query env question None false false ;;
      print (replicate 80 61%N) ;;
      batch_loop env total rest (results ++ [result])
  end.

Definition save_results (env : Env) (output_file : list N)
    (results : list QueryResult) : M unit :=
  try_except
    (call (EvWriteJson output_file results)
          (write_json env output_file results) ;;
     print ([PyStr.LF] ++ u8 "✅ 結果已保存到: " ++ output_file))
    (fun e => print (u8 "❌ 保存文件失敗: " ++ exn_msg e)).

Definition batch_query (env : Env) (questions : list (list N))
    (output_file : option (list N)) : M (list QueryResult) :=
  print (u8 "🔄 開始批次查詢 " ++ len_str questions ++ u8 " 個問題...") ;;
  results <- batch_loop env (length questions) (enumerate 1 questions) [] ;;
  match output_file with
  | Some f => if PyStr.truthy f then save_results env f results else ret tt
  | None => ret tt
  end ;;
  ret results.

(** [_show_help], lines 365-369. *)
Definition show_help : M unit :=
  print ([PyStr.LF] ++ u8 "📖 命令說明:") ;;
  print (u8 "• 直接輸入問題 - 進行問答查詢") ;;
  print (u8 "• docs <問題> - 僅檢索相關文檔，不生成回答") ;;
  print (u8 "• help - 顯示此幫助信息") ;;
  print (u8 "• quit/exit/q - 退出程序").

Definition QUIT_WORDS : list (list N) := [u8 "quit"; u8 "exit"; u8 "q"].

(** Lines 332-355: what the loop does with one line read; the result
    says whether the loop is left. *)
Definition handle_line (env : Env) (host : Host) (text : list N) : M bool :=
  let user_input := PyStr.strip text in
  if negb (PyStr.truthy user_input) then ret false
  else if existsb (PyStr.eqb (lower host user_input)) QUIT_WORDS then
    print (u8 "👋 再見！") ;;
    ret true
  else if PyStr.eqb (lower host user_input) (u8 "help") then
    show_help ;;
    ret false
  else if PyStr.startswith (lower host user_input) (u8 "docs ") then
    let question := PyStr.strip (drop 5 user_input) in
    (if PyStr.truthy question then
       get_relevant_documents env question None ;;
       ret tt
     else print (u8 "❌ 請提供要檢索的問題")) ;;
    ret false
  else
    query env user_input None true false ;;
    ret false.

(** How the loop stands when the inputs at hand are used up: left, or
    waiting at [input()]. *)
Inductive LoopEnd : Type :=
| Exited
| Waiting.

Definition PROMPT : list N := [PyStr.LF] ++ u8 "請輸入您的問題: ".

(** Lines 330-361: the loop over what the console delivers. *)
Fixpoint interactive_loop (env : Env) (host : Host)
    (inputs : list ConsoleInput) : M LoopEnd :=
  match inputs with
  | [] =>
      print PROMPT ;;
      ret Waiting
  | Interrupt :: _ =>
      print PROMPT ;;
      print ([PyStr.LF; PyStr.LF] ++ u8 "👋 再見！") ;;
      ret Exited
  | InputError e :: rest =>
      print PROMPT ;;
      print (u8 "❌ 發生錯誤: " ++ exn_msg e) ;;
      interactive_loop env host rest
  | Line text :: rest =>
      print PROMPT ;;
      leave <- try_except (handle_line env host text)
                 (fun e =>
                    print (u8 "❌ 發生錯誤: " ++ exn_msg e) ;;
                    ret false) ;;
      if leave : bool then ret Exited else interactive_loop env host rest
  end.

Definition interactive_mode (env : Env) (host : Host)
    (inputs : list ConsoleInput) : M LoopEnd :=
  print (u8 "🎯 進入交互式查詢模式") ;;
  print (u8 "輸入 'quit' 或 'exit' 退出") ;;
  print (u8 "輸入 'docs <問題>' 僅檢索相關文檔") ;;
  print (u8 "輸入 'help' 查看命令說明") ;;
  print (replicate 50 PyStr.HYPHEN) ;;
  interactive_loop env host inputs.

End LocalQuery.

(** ** query_service.py *)

Module QueryService.

(** The dict [get_relevant_documents] returns. *)
Record RelevantDocs : Type := mkRelevantDocs {
  rd_question : list N;
  rd_documents : list SourceInfo;
  rd_total_count : nat }.

(** Line 151: the [text] field of a source. *)
Definition source_text (text : list N) : list N :=
  if (200 <? length text)%nat then PyStr.slice_to 200 text ++ u8 "..."
  else text.

(** Lines 150-154. *)
Definition source_info (node : Node) : SourceInfo :=
  mkSourceInfo (source_text (node_text node)) (node_score node)
               (node_metadata node).

(** Lines 133-141: the service's engines carry no template of their own. *)
Definition engine_response (env : Env) (question : list N)
    (top_k : option Z) : M Response :=
  if overrides_default top_k then
    let k := int_or top_k Config.SIMILARITY_TOP_K in
    call (EvEngineQuery None k question) (engine_query env None k question)
  else
    call (EvEngineQuery None Config.SIMILARITY_TOP_K question)
         (engine_query env None Config.SIMILARITY_TOP_K question).

Definition query (env : Env) (question : list N) (top_k : option Z)
    : M QueryResult :=
  try_except
    (response <- engine_response env question top_k ;;
     let answer := resp_text response in
     let sources := map source_info (source_nodes response) in
     let processing_time := elapsed env in
     ret (mkQueryResult question answer sources processing_time))
    (fun e => raise (HTTPException 500 (u8 "查詢處理失敗: " ++ exn_msg e))).

(** Lines 185-192. *)
Definition retrieve_nodes (env : Env) (question : list N)
    (top_k : option Z) : M (list Node) :=
  if overrides_default top_k then
    let k := int_or top_k Config.SIMILARITY_TOP_K in
    call (EvRetrieve k question) (retrieve env k question)
  else
    call (EvRetrieve Config.SIMILARITY_TOP_K question)
         (retrieve env Config.SIMILARITY_TOP_K question).

Definition doc_info (node : Node) : SourceInfo :=
  mkSourceInfo (node_text node) (node_score node) (node_metadata node).

Definition get_relevant_documents (env : Env) (question : list N)
    (top_k : option Z) : M RelevantDocs :=
  try_except
    (nodes <- retrieve_nodes env question top_k ;;
     let documents := map doc_info nodes in
     ret (mkRelevantDocs question documents (length documents)))
    (fun e => raise (HTTPException 500 (u8 "文檔檢索失敗: " ++ exn_msg e))).

(** The [/query] endpoint. *)
Definition query_endpoint (env : Env) (question : list N) (top_k : option Z)
    : M QueryResult :=
  if negb (PyStr.truthy (PyStr.strip question)) then
    raise (HTTPException 400 (u8 "問題不能為空"))
  else query env question top_k.

(** The [/relevant-docs] endpoint. *)
Definition relevant_docs_endpoint (env : Env) (question : list N)
    (top_k : option Z) : M RelevantDocs :=
  if negb (PyStr.truthy (PyStr.strip question)) then
    raise (HTTPException 400 (u8 "問題不能為空"))
  else get_relevant_documents env question top_k.

End QueryService.

(** * Vocabulary of the properties *)

(** A chunk text fit for persistence: not empty, not whitespace-only. *)
Definition chunk_ok (text : list N) : Prop :=
  text <> [] /\ ~ PyStr.blank text.

(** The nodes an event hands to the vector index. *)
Definition indexed_nodes (ev : Event) : list TextNode :=
  match ev with
  | EvIndexCreate nodes => nodes
  | EvIndexInsert node => [node]
  | _ => []
  end.

Definition indexes_ok (ev : Event) : Prop :=
  Forall (fun node => chunk_ok (tn_text node)) (indexed_nodes ev).

(** The text of an element, if it has any. *)
Definition element_texts (page : list Element) : list (list N) :=
  flat_map (fun el => match el with
                      | LTTextContainer text => [text]
                      | LTOther => []
                      end) page.

(** No text content on the selected pages: every text element of a
    selected page is empty or whitespace-only. *)
Definition no_text_content (page_numbers : option (list Z))
    (pages : list (list Element)) : Prop :=
  forall i page text,
    pages !! i = Some page ->
    DocumentIndexing.page_selected page_numbers i = true ->
    In (LTTextContainer text) page ->
    PyStr.blank text.

(** An environment in which nothing is stored and every collaborator
    answers with an empty result. *)
Definition quiet_env : Env :=
  {| extract_pages := fun _ => inr [];
     get_nodes_from_documents := fun _ => inr [];
     index_create := fun _ => inr tt;
     index_insert := fun _ => inr tt;
     retrieve := fun _ _ => inr [];
     rank := fun _ _ _ => inr [];
     complete := fun _ => inr [];
     engine_query := fun _ _ _ => inr (mkResponse [] []);
     logger_info := fun _ => inr tt;
     logger_query_result := fun _ => inr tt;
     write_json := fun _ _ => inr tt;
     elapsed := 0%Q;
     fmt_float := fun _ _ => [] |}.

(** A scanned document: one page, a picture and a text box holding only
    a line break. *)
Definition scanned_env : Env :=
  {| extract_pages := fun _ => inr [[LTOther; LTTextContainer [PyStr.LF]]];
     get_nodes_from_documents := get_nodes_from_documents quiet_env;
     index_create := index_create quiet_env;
     index_insert := index_insert quiet_env;
     retrieve := retrieve quiet_env;
     rank := rank quiet_env;
     complete := complete quiet_env;
     engine_query := engine_query quiet_env;
     logger_info := logger_info quiet_env;
     logger_query_result := logger_query_result quiet_env;
     write_json := write_json quiet_env;
     elapsed := elapsed quiet_env;
     fmt_float := fmt_float quiet_env |}.



(** The rerank results whose document is the text of some node. *)
Definition matched (texts : list (list N)) (results : list RankResult)
    : list RankResult :=
  List.filter (fun r => bool_decide (rr_document r ∈ texts)) results.

(** The retriever and reranker calls of a run. *)
Definition retrieve_calls (t : list Event) : list (Z * list N) :=
  flat_map (fun ev => match ev with
                      | EvRetrieve k q => [(k, q)]
                      | _ => []
                      end) t.

Definition rank_calls (t : list Event) : list (list N * list (list N) * Z) :=
  flat_map (fun ev => match ev with
                      | EvRank q docs k => [(q, docs, k)]
                      | _ => []
                      end) t.

Definition complete_calls (t : list Event) : list (list N) :=
  flat_map (fun ev => match ev with
                      | EvComplete prompt => [prompt]
                      | _ => []
                      end) t.

(** An environment with fixed answers of the retriever, the reranker, the
    generation model and the query engine; logging and saving succeed. *)
Definition fixed_env (nodes : exn + list Node)
    (ranked : exn + list RankResult) (reply : exn + list N)
    (engine : exn + Response) : Env :=
  {| extract_pages := extract_pages quiet_env;
     get_nodes_from_documents := get_nodes_from_documents quiet_env;
     index_create := index_create quiet_env;
     index_insert := index_insert quiet_env;
     retrieve := fun _ _ => nodes;
     rank := fun _ _ _ => ranked;
     complete := fun _ => reply;
     engine_query := fun _ _ _ => engine;
     logger_info := logger_info quiet_env;
     logger_query_result := logger_query_result quiet_env;
     write_json := write_json quiet_env;
     elapsed := elapsed quiet_env;
     fmt_float := fmt_float quiet_env |}.

(** The logger accepts every record. *)
Definition logger_works (env : Env) : Prop :=
  (forall message, logger_info env message = inr tt)
  /\ (forall data, logger_query_result env data = inr tt).

(** One retrieved node, for the examples. *)
Definition sample_node : Node :=
  mkNode (u8 "Machine learning is a subfield of AI.") 0.5
         [(u8 "source", MStr (u8 "demo_data")); (u8 "text_id", MInt 1)].

(** The reranker is down. *)
Definition rerank_down_env : Env :=
  fixed_env (inr [sample_node]) (inl (Exn (u8 "reranker unavailable")))
            (inr (u8 "ML is a subfield of AI.")) (inr (mkResponse [] [])).

(** An empty collection, and a generation model with an answer of its own. *)
Definition empty_index_env : Env :=
  fixed_env (inr []) (inr []) (inr (u8 "Paris."))
            (inr (mkResponse (u8 "Empty Response") [])).

(** A query engine whose generation call fails for one question. *)
Definition flaky_engine_env (bad : list N) : Env :=
  {| extract_pages := extract_pages quiet_env;
     get_nodes_from_documents := get_nodes_from_documents quiet_env;
     index_create := index_create quiet_env;
     index_insert := index_insert quiet_env;
     retrieve := retrieve quiet_env;
     rank := rank quiet_env;
     complete := complete quiet_env;
     engine_query := fun _ _ q =>
       if PyStr.eqb q bad then inl (Exn (u8 "rate limit"))
       else inr (mkResponse (u8 "ok") []);
     logger_info := logger_info quiet_env;
     logger_query_result := logger_query_result quiet_env;
     write_json := write_json quiet_env;
     elapsed := elapsed quiet_env;
     fmt_float := fmt_float quiet_env |}.

(** Printing and logging: the events that call no collaborator of the
    retrieval pipeline. *)
Definition is_report (ev : Event) : Prop :=
  match ev with
  | EvPrint _ | EvLogInfo _ | EvLogQueryResult _ => True
  | _ => False
  end.

(** Two retrieved nodes and a reranker that prefers the second. *)
Definition node_ai : Node :=
  mkNode (u8 "AI is a branch of computer science.") 0.8
         [(u8 "source", MStr (u8 "demo_data")); (u8 "text_id", MInt 0)].

Definition node_ml : Node :=
  mkNode (u8 "Machine learning is a subfield of AI.") 0.7
         [(u8 "source", MStr (u8 "demo_data")); (u8 "text_id", MInt 1)].

Definition ml_first : list RankResult :=
  [mkRankResult (u8 "Machine learning is a subfield of AI.") 0.9].

Definition rerank_env : Env :=
  fixed_env (inr [node_ai; node_ml]) (inr ml_first)
            (inr (u8 "A subfield of AI.")) (inr (mkResponse [] [])).

(** A query engine that answers from one long and one short node. *)
Definition long_text : list N := replicate 201 97%N.

Definition long_node : Node := mkNode long_text 0.9 [].

Definition short_node : Node := mkNode (u8 "short") 0.4 [].

Definition long_source_env : Env :=
  fixed_env (inr [long_node; short_node]) (inr [])
            (inr [])
            (inr (mkResponse (u8 "answer") [long_node; short_node])).

(** All nodes a run hands to the vector index, in order. *)
Definition indexed (t : list Event) : list TextNode :=
  flat_map indexed_nodes t.

(** The node [ingest_documents] builds from a document (lines 206-209). *)
Definition node_of_document (doc : Document) : TextNode :=
  mkTextNode (doc_text doc) (doc_metadata doc).

(** Every call to the vector index succeeds. *)
Definition index_works (env : Env) : Prop :=
  (forall batch, index_create env batch = inr tt)
  /\ (forall node, index_insert env node = inr tt).

(** An index that takes the first batch and refuses every insert. *)
Definition full_index_env : Env :=
  {| extract_pages := extract_pages quiet_env;
     get_nodes_from_documents := get_nodes_from_documents quiet_env;
     index_create := index_create quiet_env;
     index_insert := fun _ => inl (Exn (u8 "collection is full"));
     retrieve := retrieve quiet_env;
     rank := rank quiet_env;
     complete := complete quiet_env;
     engine_query := engine_query quiet_env;
     logger_info := logger_info quiet_env;
     logger_query_result := logger_query_result quiet_env;
     write_json := write_json quiet_env;
     elapsed := elapsed quiet_env;
     fmt_float := fmt_float quiet_env |}.

(** Twelve documents, numbered by their text. *)
Definition twelve_documents : list Document :=
  map (fun i => mkDocument [N.of_nat (65 + i)] []) (seq 0 12).

(** The integer stored under a key of a document's metadata. *)
Definition doc_id (key : list N) (doc : Document) : option Z :=
  match meta_get key (doc_metadata doc) with
  | Some (MInt z) => Some z
  | _ => None
  end.

(** The test of lines 121, 145 and 173: the stripped text is not empty. *)
Definition keeps (text : list N) : bool := PyStr.truthy (PyStr.strip text).

(** The calls to the semantic splitter in a run. *)
Definition split_calls (t : list Event) : list (list N) :=
  flat_map (fun ev => match ev with
                      | EvSplit text => [text]
                      | _ => []
                      end) t.

(** The text elements of the selected pages, in reading order. *)
Definition selected_texts (page_numbers : option (list Z))
    (pages : list (list Element)) : list (list N) :=
  concat (map (fun entry => element_texts (snd entry))
              (List.filter
                 (fun entry =>
                    DocumentIndexing.page_selected page_numbers (fst entry))
                 (enumerate 0 pages))).

(** A splitter that cuts every document into a blank and a real chunk. *)
Definition splitting_env : Env :=
  {| extract_pages := fun _ =>
       inr [[LTTextContainer (u8 "  Deep learning uses neural networks. ")]];
     get_nodes_from_documents := fun text => inr [u8 "  "; text];
     index_create := index_create quiet_env;
     index_insert := index_insert quiet_env;
     retrieve := retrieve quiet_env;
     rank := rank quiet_env;
     complete := complete quiet_env;
     engine_query := engine_query quiet_env;
     logger_info := logger_info quiet_env;
     logger_query_result := logger_query_result quiet_env;
     write_json := write_json quiet_env;
     elapsed := elapsed quiet_env;
     fmt_float := fmt_float quiet_env |}.

(** Position [j] holds the first occurrence of its text. *)
Definition first_at (texts : list (list N)) (j : nat) : Prop :=
  exists t, texts !! j = Some t /\ forall i, i < j -> texts !! i <> Some t.

(** The calls to the retrieval pipeline: retriever, reranker, generation
    model and query engine. *)
Definition is_pipeline_call (ev : Event) : bool :=
  match ev with
  | EvRetrieve _ _ | EvRank _ _ _ | EvComplete _ | EvEngineQuery _ _ _ => true
  | _ => false
  end.

Definition pipeline_calls (t : list Event) : list Event :=
  List.filter is_pipeline_call t.


Definition write_calls (t : list Event) : list (list N * list QueryResult) :=
  flat_map (fun ev => match ev with
                      | EvWriteJson f results => [(f, results)]
                      | _ => []
                      end) t.

(** Two nodes with the same text, from a document ingested twice. *)
Definition twin_nodes : list Node :=
  [mkNode (u8 "Deep learning uses neural networks.") 0.6
          [(u8 "source", MStr (u8 "first.pdf"))];
   mkNode (u8 "Deep learning uses neural networks.") 0.6
          [(u8 "source", MStr (u8 "second.pdf"))]].


(** The PDFs opened in a run. *)
Definition extract_calls (t : list Event) : list (list N) :=
  flat_map (fun ev => match ev with
                      | EvExtractPages pdf_path => [pdf_path]
                      | _ => []
                      end) t.

(** The suffix test of line 271. *)
Definition is_pdf (host : Host) (file : File) : bool :=
  PyStr.eqb (lower host (file_suffix file)) (u8 ".pdf").

(** A file counts as a success: it is a PDF, documents came out of it,
    and storing them returned [True]. *)
Definition file_succeeds (env : Env) (host : Host) (file : File) : bool :=
  is_pdf host file
  && match outcome (DocumentIndexing.process_documents_from_pdf env
                      (file_path file) None) with
     | inr (doc :: documents) =>
         match outcome (DocumentIndexing.ingest_documents env
                          (doc :: documents)) with
         | inr success => success
         | inl _ => false
         end
     | _ => false
     end.

(** Events of storing: printed lines and calls to the vector index. *)
Definition is_store_event (ev : Event) : Prop :=
  match ev with
  | EvPrint _ | EvIndexCreate _ | EvIndexInsert _ => True
  | _ => False
  end.

(** [str.lower] on the letters A-Z, every other character unchanged. *)
Definition ascii_lower (s : list N) : list N :=
  map (fun c => if ((65 <=? c) && (c <=? 90))%N then (c + 32)%N else c) s.

(** A directory with a PDF that has text, a scanned PDF and a note. *)
Definition demo_host : Host :=
  {| path_exists := fun directory => inr (PyStr.eqb directory (u8 "docs"));
     glob := fun _ file_pattern =>
       if PyStr.truthy file_pattern then
         inr [mkFile (u8 "docs/a.PDF") (u8 "a.PDF") (u8 ".PDF");
              mkFile (u8 "docs/scan.pdf") (u8 "scan.pdf") (u8 ".pdf");
              mkFile (u8 "docs/note.txt") (u8 "note.txt") (u8 ".txt")]
       else inl (Exn (u8 "Unacceptable pattern"));
     lower := ascii_lower;
     simple_parse := fun documents => inr (map node_of_document documents);
     makedirs := fun _ => inr tt;
     open_log := fun file =>
       if PyStr.startswith file (u8 "/proc/")
       then inl (Exn (u8 "Permission denied")) else inr tt |}.

(** Pages with text for every PDF but the scanned one; the splitter
    returns the document as one chunk. *)
Definition directory_env : Env :=
  {| extract_pages := fun pdf_path =>
       if PyStr.eqb pdf_path (u8 "docs/scan.pdf") then inr [[LTOther]]
       else inr [[LTTextContainer (u8 "AI is a branch of computer science.")]];
     get_nodes_from_documents := fun text => inr [text];
     index_create := index_create quiet_env;
     index_insert := index_insert quiet_env;
     retrieve := retrieve quiet_env;
     rank := rank quiet_env;
     complete := complete quiet_env;
     engine_query := engine_query quiet_env;
     logger_info := logger_info quiet_env;
     logger_query_result := logger_query_result quiet_env;
     write_json := write_json quiet_env;
     elapsed := elapsed quiet_env;
     fmt_float := fmt_float quiet_env |}.

(** The tests of the interactive loop on a stripped line. *)
Definition is_quit (host : Host) (user_input : list N) : bool :=
  existsb (PyStr.eqb (lower host user_input)) LocalQuery.QUIT_WORDS.

Definition is_help (host : Host) (user_input : list N) : bool :=
  PyStr.eqb (lower host user_input) (u8 "help").

Definition is_docs (host : Host) (user_input : list N) : bool :=
  PyStr.startswith (lower host user_input) (u8 "docs ").

(** What [str.lower] is relied on for here: a text whose lower-case form
    begins with the word docs and a space has a space as its fifth
    character. *)
Definition lower_keeps_docs_space (host : Host) : Prop :=
  forall s, is_docs host s = true -> s !! 4 = Some PyStr.SPACE.

(** The query engine answers; the query log refuses every record (a
    value that cannot be serialised, a full disk). *)
Definition broken_log_env : Env :=
  {| extract_pages := extract_pages quiet_env;
     get_nodes_from_documents := get_nodes_from_documents quiet_env;
     index_create := index_create quiet_env;
     index_insert := index_insert quiet_env;
     retrieve := retrieve quiet_env;
     rank := rank quiet_env;
     complete := complete quiet_env;
     engine_query := fun _ _ _ => inr (mkResponse (u8 "Paris.") [sample_node]);
     logger_info := logger_info quiet_env;
     logger_query_result := fun _ => inl (Exn (u8 "not JSON serializable"));
     write_json := write_json quiet_env;
     elapsed := elapsed quiet_env;
     fmt_float := fmt_float quiet_env |}.



(** The reranker's answer for [twin_nodes]: it was given the one text
    twice and ranks both. *)
Definition twin_results : list RankResult :=
  [mkRankResult (u8 "Deep learning uses neural networks.") 0.9;
   mkRankResult (u8 "Deep learning uses neural networks.") 0.8].

(** A PDF of one page with three lines between empty ones; the middle
    line is a run of spaces. *)
Definition spaced_env : Env :=
  {| extract_pages := fun _ =>
       inr [[LTTextContainer (u8 "one"); LTTextContainer [];
             LTTextContainer (u8 "  "); LTTextContainer [];
             LTTextContainer (u8 "two")]];
     get_nodes_from_documents := get_nodes_from_documents quiet_env;
     index_create := index_create quiet_env;
     index_insert := index_insert quiet_env;
     retrieve := retrieve quiet_env;
     rank := rank quiet_env;
     complete := complete quiet_env;
     engine_query := engine_query quiet_env;
     logger_info := logger_info quiet_env;
     logger_query_result := logger_query_result quiet_env;
     write_json := write_json quiet_env;
     elapsed := elapsed quiet_env;
     fmt_float := fmt_float quiet_env |}.

(** * Properties *)

(** ** Facts about the string methods *)

Section PyStrFacts.

Variable p : N -> bool.

Lemma lstrip_by_nil (s : list N) :
  PyStr.lstrip_by p s = [] <-> Forall (fun c => p c = true) s.
Proof.
  induction s as [|c s IH]; simpl.
  - split; auto.
  - destruct (p c) eqn:Hc.
    + rewrite IH. split; intros H.
      * constructor; assumption.
      * inversion H; assumption.
    + split; intros H; [discriminate|].
      inversion H; congruence.
Qed.

Lemma lstrip_by_head (s : list N) c t :
  PyStr.lstrip_by p s = c :: t -> p c = false.
Proof.
  induction s as [|a s IH]; simpl; [discriminate|].
  destruct (p a) eqn:Ha; [exact IH|].
  intros [= -> _]. exact Ha.
Qed.

(** What is stripped on the left is a run of matching characters. *)
Lemma lstrip_by_split (s : list N) :
  exists pre, s = pre ++ PyStr.lstrip_by p s /\ Forall (fun c => p c = true) pre.
Proof.
  induction s as [|a s (pre & Heq & Hpre)]; simpl.
  - exists []. split; [reflexivity|constructor].
  - destruct (p a) eqn:Ha.
    + exists (a :: pre). simpl. split; [congruence|constructor; assumption].
    + exists []. split; [reflexivity|constructor].
Qed.

(** What is stripped on the right is a run of matching characters. *)
Lemma rstrip_by_split (s : list N) :
  exists post, s = PyStr.rstrip_by p s ++ post
               /\ Forall (fun c => p c = true) post.
Proof.
  unfold PyStr.rstrip_by.
  destruct (lstrip_by_split (rev s)) as (pre & Heq & Hpre).
  exists (rev pre). split.
  - rewrite <- rev_app_distr, <- Heq, rev_involutive. reflexivity.
  - apply List.Forall_rev. exact Hpre.
Qed.

Lemma rstrip_by_nil (s : list N) :
  PyStr.rstrip_by p s = [] <-> Forall (fun c => p c = true) s.
Proof.
  unfold PyStr.rstrip_by. split; intros H.
  - assert (Hr : PyStr.lstrip_by p (rev s) = []).
    { rewrite <- (rev_involutive (PyStr.lstrip_by p (rev s))), H. reflexivity. }
    apply lstrip_by_nil in Hr.
    rewrite <- (rev_involutive s). apply List.Forall_rev. exact Hr.
  - assert (Hr : PyStr.lstrip_by p (rev s) = []).
    { apply lstrip_by_nil. apply List.Forall_rev. exact H. }
    rewrite Hr. reflexivity.
Qed.

(** A right-stripped string does not end in a matching character. *)
Lemma rstrip_by_last (s : list N) u c :
  PyStr.rstrip_by p s = u ++ [c] -> p c = false.
Proof.
  unfold PyStr.rstrip_by. intros H.
  apply (f_equal (@rev N)) in H.
  rewrite rev_involutive, rev_app_distr in H. simpl in H.
  eapply lstrip_by_head. exact H.
Qed.

(** Stripping right of a string that ends in a non-matching character. *)
Lemma rstrip_by_stop (u post : list N) c :
  p c = false -> Forall (fun x => p x = true) post ->
  PyStr.rstrip_by p (u ++ [c] ++ post) = u ++ [c].
Proof.
  intros Hc Hpost. unfold PyStr.rstrip_by.
  rewrite !rev_app_distr. simpl.
  assert (Hgo : forall l r, Forall (fun x => p x = true) l ->
                 PyStr.lstrip_by p (l ++ r) = PyStr.lstrip_by p r).
  { induction l as [|a l IH]; intros r Hl; simpl; [reflexivity|].
    inversion Hl as [|? ? Ha Hl']; subst. rewrite Ha. apply IH. exact Hl'. }
  rewrite <- app_assoc. rewrite Hgo.
  - simpl. rewrite Hc. simpl. rewrite rev_involutive. reflexivity.
  - apply List.Forall_rev. exact Hpost.
Qed.

Lemma strip_by_nil (s : list N) :
  PyStr.strip_by p s = [] <-> Forall (fun c => p c = true) s.
Proof.
  unfold PyStr.strip_by. split; intros H.
  - apply rstrip_by_nil.
    destruct (PyStr.rstrip_by p s) as [|a r] eqn:Hr using rev_ind;
      [reflexivity|].
    apply lstrip_by_nil in H.
    apply rstrip_by_last in Hr.
    apply Forall_app in H as [_ H]. inversion H; congruence.
  - apply rstrip_by_nil in H. rewrite H. reflexivity.
Qed.

End PyStrFacts.

(** [s.strip()] is empty exactly for the empty and the whitespace-only
    strings. *)
Lemma strip_empty_iff_blank (s : list N) :
  PyStr.truthy (PyStr.strip s) = false <-> PyStr.blank s.
Proof.
  unfold PyStr.blank. rewrite <- (strip_by_nil PyStr.is_space).
  unfold PyStr.strip. destruct (PyStr.strip_by PyStr.is_space s); simpl;
    split; congruence.
Qed.

Lemma strip_truthy_nonblank (s : list N) :
  PyStr.truthy (PyStr.strip s) = true -> s <> [] /\ ~ PyStr.blank s.
Proof.
  intros H. split.
  - intros ->. discriminate H.
  - intros Hb. apply strip_empty_iff_blank in Hb. congruence.
Qed.

Lemma blank_app (s t : list N) :
  PyStr.blank s -> PyStr.blank t -> PyStr.blank (s ++ t).
Proof. unfold PyStr.blank. intros. apply Forall_app. split; assumption. Qed.

Lemma blank_rstrip chars (s : list N) :
  PyStr.blank s -> PyStr.blank (PyStr.rstrip chars s).
Proof.
  unfold PyStr.blank, PyStr.rstrip. intros H.
  destruct (rstrip_by_split (PyStr.in_chars chars) s) as (post & Heq & _).
  rewrite Heq in H. apply Forall_app in H as [H _]. exact H.
Qed.

(** ** Facts about traces and outcomes *)

Section EffFacts.

Context {A B : Type}.

Lemma trace_bind (m : M A) (f : A -> M B) :
  trace (bind m f)
  = trace m ++ match outcome m with
               | inr a => trace (f a)
               | inl _ => []
               end.
Proof.
  destruct m as [t [e|a]]; simpl.
  - rewrite app_nil_r. reflexivity.
  - destruct (f a). reflexivity.
Qed.

Lemma outcome_bind (m : M A) (f : A -> M B) :
  outcome (bind m f)
  = match outcome m with
    | inr a => outcome (f a)
    | inl e => inl e
    end.
Proof.
  destruct m as [t [e|a]]; simpl; [reflexivity|].
  destruct (f a). reflexivity.
Qed.

Lemma trace_try_except (body : M A) (handler : exn -> M A) :
  trace (try_except body handler)
  = trace body ++ match outcome body with
                  | inl e => trace (handler e)
                  | inr _ => []
                  end.
Proof.
  destruct body as [t [e|a]]; simpl.
  - destruct (handler e). reflexivity.
  - rewrite app_nil_r. reflexivity.
Qed.

Lemma outcome_try_except (body : M A) (handler : exn -> M A) :
  outcome (try_except body handler)
  = match outcome body with
    | inl e => outcome (handler e)
    | inr a => inr a
    end.
Proof.
  destruct body as [t [e|a]]; simpl; [|reflexivity].
  destruct (handler e). reflexivity.
Qed.

End EffFacts.

Lemma outcome_print_bind {B} (line : list N) (f : unit -> M B) :
  outcome (bind (print line) f) = outcome (f tt).
Proof. rewrite outcome_bind. reflexivity. Qed.

Lemma trace_print_bind {B} (line : list N) (f : unit -> M B) :
  trace (bind (print line) f) = EvPrint line :: trace (f tt).
Proof. rewrite trace_bind. reflexivity. Qed.

Lemma M_eta {A} (m : M A) : m = (trace m, outcome m).
Proof. destruct m; reflexivity. Qed.

(** A property of every event of a computation, piece by piece. *)
Section TraceForall.

Variable P : Event -> Prop.

Lemma all_bind {A B} (m : M A) (f : A -> M B) :
  Forall P (trace m) ->
  (forall a, outcome m = inr a -> Forall P (trace (f a))) ->
  Forall P (trace (bind m f)).
Proof.
  intros Hm Hf. rewrite trace_bind. apply Forall_app. split; [exact Hm|].
  destruct (outcome m) as [e|a]; [constructor|]. apply Hf. reflexivity.
Qed.

Lemma all_try_except {A} (body : M A) (handler : exn -> M A) :
  Forall P (trace body) ->
  (forall e, outcome body = inl e -> Forall P (trace (handler e))) ->
  Forall P (trace (try_except body handler)).
Proof.
  intros Hb Hh. rewrite trace_try_except. apply Forall_app.
  split; [exact Hb|].
  destruct (outcome body) as [e|a]; [|constructor]. apply Hh. reflexivity.
Qed.

Lemma all_call {A} (ev : Event) (r : exn + A) :
  P ev -> Forall P (trace (call ev r)).
Proof. intros H. repeat constructor. exact H. Qed.

Lemma all_print (line : list N) :
  P (EvPrint line) -> Forall P (trace (print line)).
Proof. intros H. repeat constructor. exact H. Qed.

Lemma all_ret {A} (a : A) : Forall P (trace (ret a)).
Proof. constructor. Qed.

Lemma all_for_each {A} (xs : list A) (body : A -> M unit) :
  (forall x, In x xs -> Forall P (trace (body x))) ->
  Forall P (trace (for_each xs body)).
Proof.
  induction xs as [|x xs IH]; intros H; simpl.
  - constructor.
  - apply all_bind.
    + apply H. left. reflexivity.
    + intros _ _. apply IH. intros y Hy. apply H. right. exact Hy.
Qed.

End TraceForall.

(** ** Text extraction and ingest ([document_indexing.py], [main.py]) *)

Lemma endswith_app (u suffix : list N) :
  PyStr.endswith (u ++ suffix) suffix = true.
Proof.
  unfold PyStr.endswith, PyStr.eqb.
  rewrite length_app.
  replace (length u + length suffix - length suffix) with (length u) by lia.
  rewrite drop_app_length.
  apply andb_true_intro. split.
  - apply Nat.leb_le. lia.
  - apply bool_decide_eq_true. reflexivity.
Qed.

(** A fragment that does not end in a hyphen and a line break is appended
    as it is. *)
Lemma dehyphenate_other (text : list N) :
  PyStr.endswith text [PyStr.HYPHEN; PyStr.LF] = false ->
  DocumentIndexing.dehyphenate text = text.
Proof. unfold DocumentIndexing.dehyphenate. intros ->. reflexivity. Qed.

(** When the character before the final hyphen and line break is neither
    a hyphen nor a line break, exactly these two characters go. *)
Lemma dehyphenate_exact (u : list N) (c : N) :
  c <> PyStr.HYPHEN -> c <> PyStr.LF ->
  DocumentIndexing.dehyphenate (u ++ [c] ++ [PyStr.HYPHEN; PyStr.LF])
  = u ++ [c].
Proof.
  intros H1 H2. unfold DocumentIndexing.dehyphenate.
  rewrite (app_assoc u [c]), endswith_app, <- app_assoc.
  unfold PyStr.rstrip. apply rstrip_by_stop.
  - unfold PyStr.in_chars. simpl.
    apply N.eqb_neq in H1, H2. rewrite H1, H2. reflexivity.
  - repeat constructor.
Qed.

(** What is left of a fragment is always a prefix of it: only trailing
    hyphens and line breaks are dropped. *)
Lemma dehyphenate_prefix (text : list N) :
  exists dropped,
    text = DocumentIndexing.dehyphenate text ++ dropped
    /\ Forall (fun c => c = PyStr.HYPHEN \/ c = PyStr.LF) dropped.
Proof.
  unfold DocumentIndexing.dehyphenate.
  destruct (PyStr.endswith text _).
  - destruct (rstrip_by_split (PyStr.in_chars [PyStr.HYPHEN; PyStr.LF]) text)
      as (post & Heq & Hpost).
    exists post. split; [exact Heq|].
    eapply List.Forall_impl; [|exact Hpost].
    intros c Hc. unfold PyStr.in_chars in Hc. simpl in Hc.
    apply orb_true_iff in Hc as [Hc|Hc].
    + left. apply N.eqb_eq. exact Hc.
    + apply orb_true_iff in Hc as [Hc|Hc]; [|discriminate].
      right. apply N.eqb_eq. exact Hc.
  - exists []. split; [rewrite app_nil_r; reflexivity|constructor].
Qed.

(** Fragments are joined with nothing in between. *)
Lemma add_page_concat (page : list Element) (full_text : list N) :
  DocumentIndexing.add_page page full_text
  = full_text
    ++ concat (map DocumentIndexing.dehyphenate (element_texts page)).
Proof.
  revert full_text. induction page as [|[text|] page IH]; intros full_text; simpl.
  - rewrite app_nil_r. reflexivity.
  - rewrite IH, <- app_assoc. reflexivity.
  - apply IH.
Qed.

(** C6, at a fragment that ends in two hyphens and a line break: the code
    drops both hyphens, where only the final hyphen and line break should
    go ([rstrip] takes a set of characters, not a suffix); the joined text
    of the two fragments loses a character of the first. In [main.py] the
    line after a hyphenated line is still joined with a space. *)
Theorem dehyphenate_drops_extra_hyphen :
  DocumentIndexing.dehyphenate (u8 "wait--
") = u8 "wait"
  /\ DocumentIndexing.dehyphenate (u8 "wait--
") <> u8 "wait-"
  /\ DocumentIndexing.add_page
       [LTTextContainer (u8 "wait--
"); LTTextContainer (u8 "what")] []
     = u8 "waitwhat"
  /\ Main.paragraphs_of [[LTTextContainer (u8 "hy-
phen")]] None Config.MIN_LINE_LENGTH
     = [u8 "hy phen"].
Proof.
  repeat split; try (vm_compute; reflexivity).
  vm_compute. discriminate.
Qed.

(** *** Only non-blank chunks reach the index *)

Lemma documents_of_ok (entries : list (nat * list N))
    (metadata : nat -> Metadata) :
  Forall (fun doc => chunk_ok (doc_text doc))
         (DocumentIndexing.documents_of entries metadata).
Proof.
  unfold DocumentIndexing.documents_of.
  induction entries as [|[i text] entries IH]; simpl; [constructor|].
  apply Forall_app. split; [|exact IH].
  destruct (PyStr.truthy (PyStr.strip text)) eqn:Ht; [|constructor].
  constructor; [|constructor]. simpl.
  apply strip_truthy_nonblank. exact Ht.
Qed.

(** [extract_text_from_pdf] never raises. *)
Lemma extract_text_from_pdf_returns (env : Env) pdf_path page_numbers :
  exists chunks,
    outcome (DocumentIndexing.extract_text_from_pdf env pdf_path page_numbers)
    = inr chunks.
Proof.
  unfold DocumentIndexing.extract_text_from_pdf.
  rewrite outcome_bind. simpl outcome at 1. cbv iota.
  rewrite outcome_try_except.
  match goal with |- context [match outcome ?b with _ => _ end] =>
    destruct (outcome b) as [e|chunks] end.
  - rewrite outcome_bind. simpl. eauto.
  - eauto.
Qed.

Lemma process_documents_from_pdf_ok (env : Env) pdf_path page_numbers :
  exists documents,
    outcome (DocumentIndexing.process_documents_from_pdf env pdf_path
               page_numbers) = inr documents
    /\ Forall (fun doc => chunk_ok (doc_text doc)) documents.
Proof.
  unfold DocumentIndexing.process_documents_from_pdf.
  destruct (extract_text_from_pdf_returns env pdf_path page_numbers)
    as (chunks & Hc).
  rewrite outcome_bind, Hc, outcome_bind. simpl.
  eexists. split; [reflexivity|]. apply documents_of_ok.
Qed.

Lemma process_documents_from_text_ok texts source :
  exists documents,
    outcome (DocumentIndexing.process_documents_from_text texts source)
    = inr documents
    /\ Forall (fun doc => chunk_ok (doc_text doc)) documents.
Proof.
  unfold DocumentIndexing.process_documents_from_text.
  rewrite outcome_bind. simpl.
  eexists. split; [reflexivity|]. apply documents_of_ok.
Qed.

Ltac step_trace :=
  first
    [ apply all_ret
    | apply all_print
    | apply all_call
    | apply all_bind; [|intros ? ?]
    | apply all_try_except; [|intros ? ?]
    | apply all_for_each; intros ? ? ].

Lemma silent_indexes_ok (ev : Event) : indexed_nodes ev = [] -> indexes_ok ev.
Proof. unfold indexes_ok. intros ->. constructor. Qed.

Lemma extract_text_from_pdf_trace (env : Env) pdf_path page_numbers :
  Forall indexes_ok
    (trace (DocumentIndexing.extract_text_from_pdf env pdf_path page_numbers)).
Proof.
  unfold DocumentIndexing.extract_text_from_pdf.
  repeat (step_trace; try (apply silent_indexes_ok; reflexivity)).
  destruct (negb _); repeat (step_trace; try (apply silent_indexes_ok; reflexivity)).
Qed.

Lemma process_documents_from_pdf_trace (env : Env) pdf_path page_numbers :
  Forall indexes_ok
    (trace (DocumentIndexing.process_documents_from_pdf env pdf_path
              page_numbers)).
Proof.
  unfold DocumentIndexing.process_documents_from_pdf.
  apply all_bind; [apply extract_text_from_pdf_trace|intros ? ?].
  repeat (step_trace; try (apply silent_indexes_ok; reflexivity)).
Qed.

Lemma store_batches_trace (env : Env) (nodes : list TextNode) :
  Forall (fun node => chunk_ok (tn_text node)) nodes ->
  Forall indexes_ok (trace (DocumentIndexing.store_batches env nodes)).
Proof.
  intros Hn. unfold DocumentIndexing.store_batches.
  apply all_for_each. intros i _.
  assert (Hb : Forall (fun node => chunk_ok (tn_text node))
                      (take 10 (drop i nodes))).
  { apply Forall_take, Forall_drop. exact Hn. }
  destruct (i =? 0)%nat.
  - apply all_call. exact Hb.
  - apply all_for_each. intros node Hin. apply all_call.
    unfold indexes_ok. simpl. constructor; [|constructor].
    rewrite List.Forall_forall in Hb. apply Hb. exact Hin.
Qed.

Lemma ingest_documents_trace (env : Env) (documents : list Document) :
  Forall (fun doc => chunk_ok (doc_text doc)) documents ->
  Forall indexes_ok (trace (DocumentIndexing.ingest_documents env documents)).
Proof.
  intros Hd. unfold DocumentIndexing.ingest_documents.
  apply all_try_except.
  - repeat (apply all_bind;
            [first [apply all_print; apply silent_indexes_ok; reflexivity
                   |idtac]|intros ? ?]).
    + apply store_batches_trace.
      apply Forall_fmap. eapply List.Forall_impl; [|exact Hd].
      intros doc Hdoc. exact Hdoc.
    + apply all_ret.
  - intros e _.
    repeat (step_trace; try (apply silent_indexes_ok; reflexivity)).
Qed.

(** C7: the documents built from a PDF or from a list of texts all have
    text that is neither empty nor whitespace-only, and so has every node
    that the two ingest runs of [main] hand to the vector index. *)
Theorem indexed_chunks_never_blank (env : Env) :
  (forall pdf_path page_numbers,
      exists documents,
        outcome (DocumentIndexing.process_documents_from_pdf env pdf_path
                   page_numbers) = inr documents
        /\ Forall (fun doc => chunk_ok (doc_text doc)) documents)
  /\ (forall texts source,
         exists documents,
           outcome (DocumentIndexing.process_documents_from_text texts source)
           = inr documents
           /\ Forall (fun doc => chunk_ok (doc_text doc)) documents)
  /\ (forall pdf, Forall indexes_ok (trace (DocumentIndexing.main_pdf env pdf)))
  /\ (forall texts,
         Forall indexes_ok (trace (DocumentIndexing.main_text env texts))).
Proof.
  split; [|split; [|split]].
  - intros. apply process_documents_from_pdf_ok.
  - intros. apply process_documents_from_text_ok.
  - intros pdf. unfold DocumentIndexing.main_pdf.
    apply all_bind; [apply process_documents_from_pdf_trace|].
    intros documents Hdocs.
    destruct (process_documents_from_pdf_ok env pdf None) as (d & Hd & Hok).
    rewrite Hd in Hdocs. injection Hdocs as ->.
    destruct documents as [|doc rest].
    + apply all_print. apply silent_indexes_ok. reflexivity.
    + apply all_bind; [apply ingest_documents_trace; exact Hok|].
      intros ? ?. apply all_print. apply silent_indexes_ok. reflexivity.
  - intros texts. unfold DocumentIndexing.main_text.
    apply all_bind.
    { unfold DocumentIndexing.process_documents_from_text.
      repeat (step_trace; try (apply silent_indexes_ok; reflexivity)). }
    intros documents Hdocs.
    destruct (process_documents_from_text_ok texts (u8 "command_line"))
      as (d & Hd & Hok).
    rewrite Hd in Hdocs. injection Hdocs as ->.
    destruct documents as [|doc rest].
    + apply all_ret.
    + apply all_bind; [apply ingest_documents_trace; exact Hok|].
      intros ? ?. apply all_print. apply silent_indexes_ok. reflexivity.
Qed.

(** The invariant is not vacuous: a run over three texts, one of them
    blank, indexes the other two. *)
Example main_text_indexes_two :
  flat_map indexed_nodes
    (trace (DocumentIndexing.main_text quiet_env [u8 "a"; u8 "  "; u8 "b"]))
  = [mkTextNode (u8 "a")
       [(u8 "source", MStr (u8 "command_line")); (u8 "text_id", MInt 0);
        (u8 "source_type", MStr (u8 "text"))];
     mkTextNode (u8 "b")
       [(u8 "source", MStr (u8 "command_line")); (u8 "text_id", MInt 2);
        (u8 "source_type", MStr (u8 "text"))]].
Proof. vm_compute. reflexivity. Qed.

(** *** A source without text *)

Lemma dehyphenate_blank (text : list N) :
  PyStr.blank text -> PyStr.blank (DocumentIndexing.dehyphenate text).
Proof.
  intros H. unfold DocumentIndexing.dehyphenate.
  destruct (PyStr.endswith text _); [apply blank_rstrip|]; exact H.
Qed.

Lemma add_page_blank (page : list Element) (full_text : list N) :
  PyStr.blank full_text ->
  (forall text, In (LTTextContainer text) page -> PyStr.blank text) ->
  PyStr.blank (DocumentIndexing.add_page page full_text).
Proof.
  revert full_text.
  induction page as [|[text|] page IH]; intros full_text Hf Hp; simpl.
  - exact Hf.
  - apply IH.
    + apply blank_app; [exact Hf|]. apply dehyphenate_blank.
      apply Hp. left. reflexivity.
    + intros t Ht. apply Hp. right. exact Ht.
  - apply IH; [exact Hf|]. intros t Ht. apply Hp. right. exact Ht.
Qed.

Lemma add_pages_blank page_numbers (pages : list (list Element)) :
  forall (i0 : nat) (full_text : list N),
    PyStr.blank full_text ->
    (forall i page text,
        pages !! i = Some page ->
        DocumentIndexing.page_selected page_numbers (i0 + i) = true ->
        In (LTTextContainer text) page -> PyStr.blank text) ->
    PyStr.blank (DocumentIndexing.add_pages page_numbers i0 pages full_text).
Proof.
  induction pages as [|page pages IH]; intros i0 full_text Hf Hp; simpl.
  - exact Hf.
  - apply IH.
    + destruct (DocumentIndexing.page_selected page_numbers i0) eqn:Hsel;
        [|exact Hf].
      apply add_page_blank; [exact Hf|].
      intros text Hin. apply (Hp 0 page text); [reflexivity| |exact Hin].
      rewrite Nat.add_0_r. exact Hsel.
    + intros i pg text Hpg Hsel Hin.
      apply (Hp (S i) pg text); [exact Hpg| |exact Hin].
      rewrite Nat.add_succ_r. exact Hsel.
Qed.

(** C8: when no text content exists on the selected pages, extraction
    prints the no-text message and returns the empty list without calling
    the splitter and without raising; the caller
    [process_documents_from_pdf] goes on with an empty document list. *)
Theorem extraction_without_text_is_reported (env : Env) (pdf_path : list N)
    (page_numbers : option (list Z)) (pages : list (list Element)) :
  extract_pages env pdf_path = inr pages ->
  no_text_content page_numbers pages ->
  DocumentIndexing.extract_text_from_pdf env pdf_path page_numbers
  = ([EvPrint (u8 "正在提取 PDF 文字: " ++ pdf_path);
      EvExtractPages pdf_path;
      EvPrint DocumentIndexing.MSG_NO_TEXT],
     inr [])
  /\ outcome (DocumentIndexing.process_documents_from_pdf env pdf_path
                page_numbers) = inr [].
Proof.
  intros Hpages Hno.
  assert (Hblank : PyStr.truthy (PyStr.strip
            (DocumentIndexing.add_pages page_numbers 0 pages [])) = false).
  { apply strip_empty_iff_blank. apply add_pages_blank; [constructor|].
    intros i page text Hpg Hsel Hin. exact (Hno i page text Hpg Hsel Hin). }
  assert (Hex : DocumentIndexing.extract_text_from_pdf env pdf_path
                  page_numbers
                = ([EvPrint (u8 "正在提取 PDF 文字: " ++ pdf_path);
                    EvExtractPages pdf_path;
                    EvPrint DocumentIndexing.MSG_NO_TEXT], inr [])).
  { unfold DocumentIndexing.extract_text_from_pdf.
    rewrite Hpages. unfold call. cbn [bind try_except print ret app].
    rewrite Hblank. reflexivity. }
  split; [exact Hex|].
  unfold DocumentIndexing.process_documents_from_pdf.
  rewrite outcome_bind, Hex. reflexivity.
Qed.

Lemma extraction_without_text_is_reported_witness :
  DocumentIndexing.extract_text_from_pdf scanned_env (u8 "scan.pdf") None
  = ([EvPrint (u8 "正在提取 PDF 文字: " ++ u8 "scan.pdf");
      EvExtractPages (u8 "scan.pdf");
      EvPrint DocumentIndexing.MSG_NO_TEXT],
     inr [])
  /\ outcome (DocumentIndexing.process_documents_from_pdf scanned_env
                (u8 "scan.pdf") None) = inr [].
Proof.
  apply (extraction_without_text_is_reported scanned_env (u8 "scan.pdf") None
           [[LTOther; LTTextContainer [PyStr.LF]]]).
  - reflexivity.
  - intros i page text Hpg _ Hin.
    destruct i as [|i]; [|destruct i; discriminate Hpg].
    injection Hpg as <-.
    destruct Hin as [Hin|[Hin|[]]]; [discriminate Hin|].
    injection Hin as <-. repeat constructor.
Defined.

(** ** Matching rerank results back to nodes ([local_query.py], 182-189) *)

Lemma find_node_Some (nodes : list Node) document j node :
  LocalQuery.find_node nodes document = Some (j, node) ->
  nodes !! j = Some node /\ node_text node = document.
Proof.
  unfold LocalQuery.find_node. intros H.
  apply list_find_Some in H as (H1 & H2 & _). split; assumption.
Qed.

Lemma find_node_None (nodes : list Node) document :
  LocalQuery.find_node nodes document = None ->
  document ∉ map node_text nodes.
Proof.
  unfold LocalQuery.find_node. intros H Hin.
  apply list_find_None in H.
  apply list_elem_of_fmap in Hin as (node & -> & Hnode).
  rewrite Forall_forall in H. exact (H node Hnode eq_refl).
Qed.

Lemma set_score_insert_text (nodes : list Node) j node score :
  nodes !! j = Some node ->
  map node_text (<[j := LocalQuery.set_score node score]> nodes)
  = map node_text nodes.
Proof.
  intros H.
  change (node_text <$> <[j := LocalQuery.set_score node score]> nodes
          = node_text <$> nodes).
  rewrite list_fmap_insert. apply list_insert_id.
  rewrite list_lookup_fmap, H. reflexivity.
Qed.

Lemma set_score_insert_metadata (nodes : list Node) j node score :
  nodes !! j = Some node ->
  map node_metadata (<[j := LocalQuery.set_score node score]> nodes)
  = map node_metadata nodes.
Proof.
  intros H.
  change (node_metadata <$> <[j := LocalQuery.set_score node score]> nodes
          = node_metadata <$> nodes).
  rewrite list_fmap_insert. apply list_insert_id.
  rewrite list_lookup_fmap, H. reflexivity.
Qed.

(** What the loop leaves behind: the store keeps its texts and metadata;
    the new references are valid, one per matched result and in the order of
    the results; a changed node carries the score of a result with its
    text, and every referenced node is a changed one. *)
Lemma rematch_spec (results : list RankResult) :
  forall (nodes : list Node) (refs : list nat),
  exists store new,
    LocalQuery.rematch results nodes refs = (store, refs ++ new)
    /\ map node_text store = map node_text nodes
    /\ map node_metadata store = map node_metadata nodes
    /\ Forall2 (fun j r => map node_text nodes !! j = Some (rr_document r))
               new (matched (map node_text nodes) results)
    /\ (forall j n', store !! j = Some n' ->
          nodes !! j = Some n'
          \/ exists r, r ∈ results /\ rr_document r = node_text n'
                       /\ node_score n' = rr_score r)
    /\ (forall j, j ∈ new ->
          exists n' r, store !! j = Some n' /\ r ∈ results
                       /\ rr_document r = node_text n'
                       /\ node_score n' = rr_score r).
Proof.
  induction results as [|r rest IH]; intros nodes refs; simpl.
  - exists nodes, []. rewrite app_nil_r.
    repeat split; auto using Forall2_nil.
    intros j Hj. inversion Hj.
  - destruct (LocalQuery.find_node nodes (rr_document r)) as [[j0 node]|] eqn:Hfind.
    + apply find_node_Some in Hfind as (Hj0 & Htext).
      pose proof (set_score_insert_text nodes j0 node (rr_score r) Hj0) as Ht.
      pose proof (set_score_insert_metadata nodes j0 node (rr_score r) Hj0) as Hm.
      destruct (IH (<[j0 := LocalQuery.set_score node (rr_score r)]> nodes)
                   (refs ++ [j0]))
        as (store & new & Heq & Hst & Hsm & Hf2 & Hchg & Hnew).
      rewrite Ht in Hst, Hf2. rewrite Hm in Hsm.
      assert (Hin : rr_document r ∈ map node_text nodes).
      { rewrite <- Htext. apply list_elem_of_fmap. exists node.
        split; [reflexivity|]. eapply list_elem_of_lookup_2. exact Hj0. }
      assert (Hchg' : forall j n', store !! j = Some n' ->
                nodes !! j = Some n'
                \/ exists r0, r0 ∈ r :: rest /\ rr_document r0 = node_text n'
                              /\ node_score n' = rr_score r0).
      { intros j n' Hl. destruct (Hchg j n' Hl) as [Hold|(r0 & Hr0 & Hd & Hs)].
        - destruct (decide (j = j0)) as [->|Hne].
          + rewrite list_lookup_insert_eq in Hold
              by (eapply lookup_lt_Some; exact Hj0).
            injection Hold as <-. right. exists r.
            split; [left|]. simpl. split; [congruence|reflexivity].
          + rewrite list_lookup_insert_ne in Hold by congruence.
            left. exact Hold.
        - right. exists r0. split; [right; exact Hr0|]. split; assumption. }
      exists store, (j0 :: new).
      split; [rewrite Heq, <- app_assoc; reflexivity|].
      split; [exact Hst|]. split; [exact Hsm|].
      split; [|split; [exact Hchg'|]].
      * unfold matched. simpl. rewrite bool_decide_eq_true_2 by exact Hin.
        constructor; [|exact Hf2].
        rewrite list_lookup_fmap, Hj0. simpl. congruence.
      * intros j Hj. apply elem_of_cons in Hj as [->|Hj].
        -- assert (Hlen : j0 < length store).
           { rewrite <- (length_map node_text store), Hst, length_map.
             eapply lookup_lt_Some. exact Hj0. }
           apply lookup_lt_is_Some in Hlen as (n' & Hn').
           destruct (Hchg' j0 n' Hn') as [Hold|(r0 & Hr0 & Hd & Hs)].
           ++ (* unchanged since the start: the first step changed it *)
              destruct (Hchg j0 n' Hn') as [Hins|(r0 & Hr0 & Hd & Hs)].
              ** rewrite list_lookup_insert_eq in Hins
                   by (eapply lookup_lt_Some; exact Hj0).
                 injection Hins as <-. exists (LocalQuery.set_score node (rr_score r)), r.
                 split; [exact Hn'|]. split; [left|].
                 simpl. split; [congruence|reflexivity].
              ** exists n', r0. split; [exact Hn'|].
                 split; [right; exact Hr0|]. split; assumption.
           ++ exists n', r0. repeat split; assumption.
        -- destruct (Hnew j Hj) as (n' & r0 & Hn' & Hr0 & Hd & Hs).
           exists n', r0. split; [exact Hn'|].
           split; [right; exact Hr0|]. split; assumption.
    + apply find_node_None in Hfind.
      destruct (IH nodes refs) as (store & new & Heq & Hst & Hsm & Hf2 & Hchg & Hnew).
      exists store, new. split; [exact Heq|]. split; [exact Hst|].
      split; [exact Hsm|]. split; [|split].
      * unfold matched. simpl. rewrite bool_decide_eq_false_2 by exact Hfind.
        exact Hf2.
      * intros j n' Hl. destruct (Hchg j n' Hl) as [Hold|(r0 & Hr0 & Hd & Hs)];
          [left; exact Hold|].
        right. exists r0. split; [right; exact Hr0|]. split; assumption.
      * intros j Hj. destruct (Hnew j Hj) as (n' & r0 & Hn' & Hr0 & Hd & Hs).
        exists n', r0. split; [exact Hn'|].
        split; [right; exact Hr0|]. split; assumption.
Qed.

Lemma matched_length texts (results : list RankResult) :
  length (matched texts results) <= length results.
Proof.
  unfold matched. induction results as [|r rest IH]; simpl; [lia|].
  destruct (bool_decide _); simpl; lia.
Qed.



Lemma NoDup_matched texts (results : list RankResult) :
  NoDup (map rr_document results) ->
  NoDup (map rr_document (matched texts results)).
Proof.
  unfold matched. induction results as [|r rest IH]; simpl; intros H;
    [constructor|].
  apply NoDup_cons in H as [Hr Hrest].
  destruct (bool_decide _); [|apply IH; exact Hrest].
  simpl. apply NoDup_cons. split; [|apply IH; exact Hrest].
  intros Hin. apply Hr.
  apply list_elem_of_fmap in Hin as (r0 & -> & Hr0).
  apply list_elem_of_fmap. exists r0. split; [reflexivity|].
  rewrite list_elem_of_In in Hr0 |- *. apply filter_In in Hr0. tauto.
Qed.

(** Reading valid references from the store. *)
Lemma deref_valid (store : list Node) (refs : list nat) :
  Forall (fun j => is_Some (store !! j)) refs ->
  Forall2 (fun j n => store !! j = Some n) refs (LocalQuery.deref store refs).
Proof.
  unfold LocalQuery.deref.
  induction refs as [|j refs IH]; intros H; simpl; [constructor|].
  apply Forall_cons in H as [[n Hn] Hrest].
  rewrite Hn. simpl. constructor; [exact Hn|]. apply IH. exact Hrest.
Qed.

(** The store read at all its positions. *)
Lemma deref_all (pre store : list Node) :
  LocalQuery.deref (pre ++ store) (seq (length pre) (length store)) = store.
Proof.
  unfold LocalQuery.deref. revert pre.
  induction store as [|n store IH]; intros pre; simpl; [reflexivity|].
  rewrite list_lookup_middle by reflexivity. simpl. f_equal.
  specialize (IH (pre ++ [n])).
  rewrite <- app_assoc, length_app in IH. simpl in IH.
  rewrite Nat.add_1_r in IH. exact IH.
Qed.

(** References without repetition pick a sub-multiset of the store. *)
Lemma deref_submseteq (store : list Node) (refs : list nat) :
  NoDup refs -> Forall (fun j => j < length store) refs ->
  LocalQuery.deref store refs ⊆+ store.
Proof.
  intros Hnd Hlt.
  assert (Hsub : refs ⊆+ seq 0 (length store)).
  { apply NoDup_submseteq; [exact Hnd|]. intros j Hj.
    rewrite Forall_forall in Hlt. apply elem_of_seq. specialize (Hlt j Hj). lia. }
  apply submseteq_Permutation in Hsub as (k & Hk).
  pose proof (deref_all [] store) as Hall. simpl in Hall.
  rewrite <- Hall at 2. unfold LocalQuery.deref in *.
  rewrite Hk. rewrite omap_app. apply submseteq_inserts_r. reflexivity.
Qed.

(** The output of lines 182-189 in terms of the final store. *)
Lemma reranked_source_nodes_spec (nodes : list Node)
    (results : list RankResult) :
  exists store refs,
    LocalQuery.reranked_source_nodes nodes results = LocalQuery.deref store refs
    /\ map node_text store = map node_text nodes
    /\ map node_metadata store = map node_metadata nodes
    /\ Forall2 (fun j n => store !! j = Some n) refs
               (LocalQuery.reranked_source_nodes nodes results)
    /\ Forall2 (fun j r => map node_text nodes !! j = Some (rr_document r))
               refs (matched (map node_text nodes) results)
    /\ (forall j, j ∈ refs ->
          exists n' r, store !! j = Some n' /\ r ∈ results
                       /\ rr_document r = node_text n'
                       /\ node_score n' = rr_score r).
Proof.
  destruct (rematch_spec results nodes [])
    as (store & new & Heq & Hst & Hsm & Hf2 & _ & Hnew).
  simpl in Heq. exists store, new.
  unfold LocalQuery.reranked_source_nodes. rewrite Heq.
  split; [reflexivity|]. split; [exact Hst|]. split; [exact Hsm|].
  split; [|split; [exact Hf2|exact Hnew]].
  apply deref_valid. apply Forall_forall. intros j Hj.
  destruct (Hnew j Hj) as (n' & _ & Hn' & _). eauto.
Qed.

Lemma Forall2_share_left {A B C} (R : A -> B -> Prop) (S : A -> C -> Prop)
    (T : B -> C -> Prop) (xs : list A) (ys : list B) (zs : list C) :
  Forall2 R xs ys -> Forall2 S xs zs ->
  (forall x y z, x ∈ xs -> z ∈ zs -> R x y -> S x z -> T y z) ->
  Forall2 T ys zs.
Proof.
  intros HR. revert zs. induction HR as [|x y xs ys Hxy HR IH]; intros zs HS HT.
  - inversion HS; subst. constructor.
  - inversion HS as [|? z ? zs' Hxz HS']; subst. constructor.
    + apply (HT x); [left|left|exact Hxy|exact Hxz].
    + apply IH; [exact HS'|]. intros x0 y0 z0 Hx0 Hz0.
      apply HT; right; assumption.
Qed.


Section RerankOutput.

Variables (nodes : list Node) (results : list RankResult).

Let out := LocalQuery.reranked_source_nodes nodes results.

(** No more nodes come out than results went in. *)
Lemma rerank_out_length : length out <= length results.
Proof.
  destruct (reranked_source_nodes_spec nodes results)
    as (store & refs & _ & _ & _ & Hout & Hmatched & _).
  apply Forall2_length in Hout, Hmatched. fold out in Hout.
  rewrite <- Hout, Hmatched. apply matched_length.
Qed.

(** Every node that comes out is one of the nodes that went in, with the
    score of a rerank result that has its text. *)
Lemma rerank_out_member (n : Node) :
  n ∈ out ->
  exists j m r,
    nodes !! j = Some m /\ node_text n = node_text m
    /\ node_metadata n = node_metadata m
    /\ r ∈ results /\ rr_document r = node_text n
    /\ node_score n = rr_score r.
Proof.
  intros Hn.
  destruct (reranked_source_nodes_spec nodes results)
    as (store & refs & _ & Hst & Hsm & Hout & _ & Hnew).
  fold out in Hout.
  apply list_elem_of_lookup in Hn as (i & Hi).
  destruct (Forall2_lookup_r _ _ _ _ _ Hout Hi) as (j & Hj & Hstore).
  destruct (Hnew j (list_elem_of_lookup_2 _ _ _ Hj))
    as (n' & r & Hn' & Hr & Hd & Hs).
  rewrite Hstore in Hn'. injection Hn' as <-.
  assert (Ht : (node_text <$> nodes) !! j = Some (node_text n)).
  { change (node_text <$> nodes) with (map node_text nodes).
    rewrite <- Hst. change (map node_text store) with (node_text <$> store).
    rewrite list_lookup_fmap, Hstore. reflexivity. }
  assert (Hm : (node_metadata <$> nodes) !! j = Some (node_metadata n)).
  { change (node_metadata <$> nodes) with (map node_metadata nodes).
    rewrite <- Hsm.
    change (map node_metadata store) with (node_metadata <$> store).
    rewrite list_lookup_fmap, Hstore. reflexivity. }
  rewrite list_lookup_fmap in Ht. rewrite list_lookup_fmap in Hm.
  destruct (nodes !! j) as [m|] eqn:Hnodes; [|discriminate].
  simpl in Ht, Hm. exists j, m, r.
  split; [exact Hnodes|]. repeat split; congruence.
Qed.


(** When the reranker returns no text twice, the output is a
    sub-multiset of the store: a permutation of some of the nodes. *)
Lemma rerank_out_submseteq :
  NoDup (map rr_document results) ->
  exists store,
    out ⊆+ store
    /\ map node_text store = map node_text nodes
    /\ map node_metadata store = map node_metadata nodes.
Proof.
  intros Hnd.
  destruct (reranked_source_nodes_spec nodes results)
    as (store & refs & Heq & Hst & Hsm & Hout & Hmatched & Hnew).
  exists store. split; [|split; assumption].
  unfold out. rewrite Heq. apply deref_submseteq.
  - apply (NoDup_matched (map node_text nodes)) in Hnd.
    clear -Hmatched Hnd.
    induction Hmatched as [|j r refs ms Hjr Hm IH]; [constructor|].
    simpl in Hnd. apply NoDup_cons in Hnd as [Hr Hnd].
    apply NoDup_cons. split; [|apply IH; exact Hnd].
    intros Hj. apply Hr.
    apply list_elem_of_lookup in Hj as (i & Hi).
    destruct (Forall2_lookup_l _ _ _ _ _ Hm Hi) as (r0 & Hr0 & Hjr0).
    apply list_elem_of_fmap. exists r0.
    split; [congruence|]. eapply list_elem_of_lookup_2. exact Hr0.
  - apply Forall_forall. intros j Hj.
    destruct (Hnew j Hj) as (n' & _ & Hn' & _).
    eapply lookup_lt_Some. exact Hn'.
Qed.

End RerankOutput.

(** ** The query paths ([local_query.py]) *)

Ltac run :=
  cbn [bind call print ret raise try_except for_each trace outcome
       fst snd app].

(** The rerank path when the reranker raises: nothing after the rank
    call runs. *)
Lemma rerank_response_rank_raises (env : Env) q top_k nodes e :
  retrieve env (int_or top_k Config.SIMILARITY_TOP_K * 2)%Z q
  = inr nodes ->
  rank env q (map node_text nodes)
       (int_or top_k Config.SIMILARITY_TOP_K) = inl e ->
  LocalQuery.rerank_response env q top_k
  = ([EvPrint (u8 "🔄 使用重排模型進行查詢...");
      EvRetrieve (int_or top_k Config.SIMILARITY_TOP_K * 2)%Z q;
      EvRank q (map node_text nodes)
             (int_or top_k Config.SIMILARITY_TOP_K)],
     inl e).
Proof.
  intros Hret Hrank. unfold LocalQuery.rerank_response.
  rewrite Hret. run. rewrite Hrank. reflexivity.
Qed.

(** The rerank path when all three collaborators answer. *)
Lemma rerank_response_answers (env : Env) q top_k nodes results text :
  retrieve env (int_or top_k Config.SIMILARITY_TOP_K * 2)%Z q
  = inr nodes ->
  rank env q (map node_text nodes)
       (int_or top_k Config.SIMILARITY_TOP_K) = inr results ->
  complete env
    (LocalQuery.format LocalQuery.custom_template
       (PyStr.join [PyStr.LF; PyStr.LF] (map rr_document results)) q)
  = inr text ->
  LocalQuery.rerank_response env q top_k
  = ([EvPrint (u8 "🔄 使用重排模型進行查詢...");
      EvRetrieve (int_or top_k Config.SIMILARITY_TOP_K * 2)%Z q;
      EvRank q (map node_text nodes)
             (int_or top_k Config.SIMILARITY_TOP_K);
      EvPrint (u8 "✓ 重排完成，選出前 " ++ len_str results
               ++ u8 " 個最相關文檔");
      EvComplete
        (LocalQuery.format LocalQuery.custom_template
           (PyStr.join [PyStr.LF; PyStr.LF] (map rr_document results))
           q)],
     inr (mkResponse text (LocalQuery.reranked_source_nodes nodes results))).
Proof.
  intros Hret Hrank Hllm. unfold LocalQuery.rerank_response.
  rewrite Hret. run. rewrite Hrank. run. rewrite Hllm. reflexivity.
Qed.

(** [query] is its [try] block with every exception turned into the
    failure result. *)
Lemma query_outcome (env : Env) q top_k show_sources use_rerank :
  outcome (LocalQuery.query env q top_k show_sources use_rerank)
  = match outcome (LocalQuery.query_body env q top_k show_sources
                     use_rerank) with
    | inr result => inr result
    | inl e =>
        inr (mkQueryResult q (LocalQuery.FAILURE_PREFIX ++ exn_msg e)
                           [] 0)
    end.
Proof.
  unfold LocalQuery.query. rewrite outcome_try_except.
  destruct (outcome _) as [e|result]; reflexivity.
Qed.

(** A result of the [try] block carries the question it was asked. *)
Lemma query_body_question (env : Env) q top_k show_sources use_rerank
    result :
  outcome (LocalQuery.query_body env q top_k show_sources use_rerank)
  = inr result ->
  question result = q.
Proof.
  unfold LocalQuery.query_body, LocalQuery.finish_query.
  repeat (rewrite outcome_bind;
          match goal with
          | |- context [match outcome ?m with _ => _ end] =>
              destruct (outcome m); [discriminate|]
          end).
  simpl. intros [= <-]. reflexivity.
Qed.

Lemma query_returns (env : Env) q top_k show_sources use_rerank :
  exists result,
    outcome (LocalQuery.query env q top_k show_sources use_rerank)
    = inr result
    /\ question result = q.
Proof.
  rewrite query_outcome.
  destruct (outcome (LocalQuery.query_body _ _ _ _ _)) as [e|result] eqn:Hb.
  - eexists. split; reflexivity.
  - exists result. split; [reflexivity|].
    eapply query_body_question. exact Hb.
Qed.

(** *** C1: a failing reranker *)

(** C1 as amended: with reranking requested, when retrieval succeeds and
    the rank call raises, the query goes to its failure result: the answer
    is the failure text with the reranker's message, the sources are
    empty, the generation model is not called; the retrieved nodes are not
    used. *)
Theorem rerank_failure_fails_the_query (env : Env) (q : list N)
    (top_k : option Z) (show_sources : bool) (nodes : list Node) (e : exn) :
  retrieve env (int_or top_k Config.SIMILARITY_TOP_K * 2)%Z q = inr nodes ->
  rank env q (map node_text nodes) (int_or top_k Config.SIMILARITY_TOP_K)
  = inl e ->
  LocalQuery.query env q top_k show_sources true
  = ([EvPrint (u8 "🔍 查詢問題: " ++ q);
      EvPrint (u8 "🔄 使用重排模型進行查詢...");
      EvRetrieve (int_or top_k Config.SIMILARITY_TOP_K * 2)%Z q;
      EvRank q (map node_text nodes) (int_or top_k Config.SIMILARITY_TOP_K);
      EvPrint (u8 "✗ " ++ LocalQuery.FAILURE_PREFIX ++ exn_msg e)],
     inr (mkQueryResult q (LocalQuery.FAILURE_PREFIX ++ exn_msg e) [] 0)).
Proof.
  intros Hret Hrank.
  unfold LocalQuery.query, LocalQuery.query_body.
  rewrite (rerank_response_rank_raises env q top_k nodes e Hret Hrank).
  reflexivity.
Qed.

Lemma rerank_failure_fails_the_query_witness :
  LocalQuery.query rerank_down_env (u8 "What is machine learning?") (Some 1%Z)
    true true
  = ([EvPrint (u8 "🔍 查詢問題: " ++ u8 "What is machine learning?");
      EvPrint (u8 "🔄 使用重排模型進行查詢...");
      EvRetrieve 2%Z (u8 "What is machine learning?");
      EvRank (u8 "What is machine learning?") [node_text sample_node] 1%Z;
      EvPrint (u8 "✗ " ++ LocalQuery.FAILURE_PREFIX
               ++ u8 "reranker unavailable")],
     inr (mkQueryResult (u8 "What is machine learning?")
            (LocalQuery.FAILURE_PREFIX ++ u8 "reranker unavailable") [] 0)).
Proof.
  apply (rerank_failure_fails_the_query rerank_down_env
           (u8 "What is machine learning?") (Some 1%Z) true [sample_node]
           (Exn (u8 "reranker unavailable"))); reflexivity.
Defined.

(** C1 as stated fails: with the reranker down, the query does not come
    back with the retrieved node as its source. *)
Lemma rerank_failure_has_no_fallback :
  ~ (forall (env : Env) (q : list N) (top_k : option Z) (nodes : list Node)
            (e : exn),
        retrieve env (int_or top_k Config.SIMILARITY_TOP_K * 2)%Z q
        = inr nodes ->
        rank env q (map node_text nodes)
             (int_or top_k Config.SIMILARITY_TOP_K) = inl e ->
        exists result,
          outcome (LocalQuery.query env q top_k true true) = inr result
          /\ sources result = map LocalQuery.source_info nodes).
Proof.
  intros H.
  destruct (H rerank_down_env (u8 "What is machine learning?") None
              [sample_node] (Exn (u8 "reranker unavailable"))
              eq_refl eq_refl) as (result & Hres & Hsrc).
  vm_compute in Hres. injection Hres as <-. discriminate Hsrc.
Qed.

(** *** C2: failures at the query boundary, and batches *)

Lemma Forall2_enumerate {A B} (P : A -> B -> Prop) (xs : list A) :
  forall (start : nat) (ys : list B),
    Forall2 (fun entry y => P (snd entry) y) (enumerate start xs) ys ->
    Forall2 P xs ys.
Proof.
  induction xs as [|x xs IH]; intros start ys H; simpl in H.
  - inversion H; subst. constructor.
  - inversion H as [|? y ? ys' Hxy H']; subst. constructor; [exact Hxy|].
    eapply IH. exact H'.
Qed.

Lemma batch_loop_spec (env : Env) (total : nat)
    (entries : list (nat * list N)) :
  forall results0,
  exists results,
    outcome (LocalQuery.batch_loop env total entries results0)
    = inr (results0 ++ results)
    /\ Forall2 (fun entry result =>
                  outcome (LocalQuery.query env (snd entry) None false false)
                  = inr result)
               entries results.
Proof.
  induction entries as [|[i q] entries IH]; intros results0;
    cbn [LocalQuery.batch_loop].
  - exists []. rewrite app_nil_r. split; [reflexivity|constructor].
  - destruct (query_returns env q None false false) as (result & Hq & _).
    destruct (IH (results0 ++ [result])) as (results & Hloop & Hall).
    exists (result :: results). split.
    + rewrite outcome_print_bind, outcome_bind, Hq, outcome_print_bind.
      rewrite Hloop, <- app_assoc. reflexivity.
    + constructor; [exact Hq|exact Hall].
Qed.

Lemma save_results_returns (env : Env) output_file results :
  outcome (LocalQuery.save_results env output_file results) = inr tt.
Proof.
  unfold LocalQuery.save_results. rewrite outcome_try_except, outcome_bind.
  unfold call. simpl.
  destruct (write_json env output_file results) as [e|[]]; reflexivity.
Qed.

(** C2: a query never raises; when its [try] block raises, the caller
    gets the result whose answer is the failure text with the error's
    message and whose sources are empty. A batch of n questions returns n
    results, in the order of the questions, each the result the question
    has on its own: what happens to one question changes no other. *)
Theorem query_failures_become_results (env : Env) :
  (forall q top_k show_sources use_rerank,
      outcome (LocalQuery.query env q top_k show_sources use_rerank)
      = match outcome (LocalQuery.query_body env q top_k show_sources
                         use_rerank) with
        | inr result => inr result
        | inl e =>
            inr (mkQueryResult q (LocalQuery.FAILURE_PREFIX ++ exn_msg e)
                               [] 0)
        end)
  /\ (forall questions output_file,
         exists results,
           outcome (LocalQuery.batch_query env questions output_file)
           = inr results
           /\ length results = length questions
           /\ map question results = questions
           /\ Forall2 (fun q result =>
                         outcome (LocalQuery.query env q None false false)
                         = inr result)
                      questions results).
Proof.
  split; [intros; apply query_outcome|].
  intros questions output_file.
  destruct (batch_loop_spec env (length questions) (enumerate 1 questions) [])
    as (results & Hloop & Hall).
  simpl in Hloop.
  apply (Forall2_enumerate
           (fun q result =>
              outcome (LocalQuery.query env q None false false) = inr result))
    in Hall.
  exists results. split; [|split; [|split; [|exact Hall]]].
  - unfold LocalQuery.batch_query.
    rewrite outcome_print_bind, outcome_bind, Hloop, outcome_bind.
    replace (outcome match output_file with
                     | Some f => if PyStr.truthy f
                                 then LocalQuery.save_results env f results
                                 else ret tt
                     | None => ret tt
                     end) with (@inr exn unit tt); [reflexivity|].
    destruct output_file as [f|]; [|reflexivity].
    destruct (PyStr.truthy f); [|reflexivity].
    symmetry. apply save_results_returns.
  - symmetry. eapply Forall2_length. exact Hall.
  - clear Hloop. induction Hall as [|q result qs rs Hq Hall IH]; simpl;
      [reflexivity|].
    f_equal; [|exact IH].
    destruct (query_returns env q None false false) as (r & Hr & Hrq).
    congruence.
Qed.

(** The scenario of three questions of which the second fails. *)
Example batch_of_three_second_fails :
  match outcome (LocalQuery.batch_query (flaky_engine_env (u8 "q2"))
                   [u8 "q1"; u8 "q2"; u8 "q3"] None) with
  | inr results =>
      map answer results
      = [u8 "ok"; LocalQuery.FAILURE_PREFIX ++ u8 "rate limit"; u8 "ok"]
      /\ map sources results = [[]; []; []]
  | inl _ => False
  end.
Proof. vm_compute. split; reflexivity. Qed.

(** *** The prompt *)

Lemma format_custom_template (context_str q : list N) :
  LocalQuery.format LocalQuery.custom_template context_str q
  = LocalQuery.TEMPLATE_HEAD ++ context_str ++ LocalQuery.TEMPLATE_MIDDLE
    ++ q ++ LocalQuery.TEMPLATE_RULE ++ [PyStr.DQUOTE]
    ++ LocalQuery.FALLBACK_SENTENCE ++ [PyStr.DQUOTE]
    ++ LocalQuery.TEMPLATE_TAIL.
Proof.
  unfold LocalQuery.format, LocalQuery.custom_template.
  cbn [map concat]. rewrite ?app_nil_r, <- ?app_assoc. reflexivity.
Qed.

(** *** The shape of a query run *)

Lemma reports_call_nothing (t : list Event) :
  Forall is_report t ->
  retrieve_calls t = [] /\ rank_calls t = [] /\ complete_calls t = [].
Proof.
  induction 1 as [|ev t Hev _ (IH1 & IH2 & IH3)]; [repeat split|].
  unfold retrieve_calls, rank_calls, complete_calls in *. simpl.
  rewrite IH1, IH2, IH3. destruct ev; try contradiction; repeat split.
Qed.

(** The rerank path once retrieval and reranking have answered. *)
Lemma rerank_response_ranked (env : Env) q top_k nodes results :
  retrieve env (int_or top_k Config.SIMILARITY_TOP_K * 2)%Z q = inr nodes ->
  rank env q (map node_text nodes) (int_or top_k Config.SIMILARITY_TOP_K)
  = inr results ->
  LocalQuery.rerank_response env q top_k
  = ([EvPrint (u8 "🔄 使用重排模型進行查詢...");
      EvRetrieve (int_or top_k Config.SIMILARITY_TOP_K * 2)%Z q;
      EvRank q (map node_text nodes) (int_or top_k Config.SIMILARITY_TOP_K);
      EvPrint (u8 "✓ 重排完成，選出前 " ++ len_str results
               ++ u8 " 個最相關文檔");
      EvComplete
        (LocalQuery.format LocalQuery.custom_template
           (PyStr.join [PyStr.LF; PyStr.LF] (map rr_document results)) q)],
     match complete env
             (LocalQuery.format LocalQuery.custom_template
                (PyStr.join [PyStr.LF; PyStr.LF] (map rr_document results)) q)
     with
     | inl e => inl e
     | inr text =>
         inr (mkResponse text (LocalQuery.reranked_source_nodes nodes results))
     end).
Proof.
  intros Hret Hrank. unfold LocalQuery.rerank_response.
  rewrite Hret. run. rewrite Hrank. run.
  destruct (complete env _); reflexivity.
Qed.


Lemma collect_sources_reports (env : Env) response show_sources :
  Forall is_report
         (trace (LocalQuery.collect_sources env response show_sources)).
Proof.
  unfold LocalQuery.collect_sources, LoggingConfig.log_info.
  destruct show_sources; repeat (step_trace; try exact I).
Qed.

Lemma collect_sources_outcome (env : Env) response show_sources srcs :
  outcome (LocalQuery.collect_sources env response show_sources) = inr srcs ->
  srcs = [] \/ srcs = map LocalQuery.source_info (source_nodes response).
Proof.
  unfold LocalQuery.collect_sources, LoggingConfig.log_info.
  destruct show_sources.
  - rewrite outcome_bind. unfold call. simpl.
    destruct (logger_info env _); [discriminate|]. intros [= <-].
    right. reflexivity.
  - intros [= <-]. left. reflexivity.
Qed.

Lemma finish_query_reports (env : Env) q show_sources response :
  Forall is_report (trace (LocalQuery.finish_query env q show_sources response)).
Proof.
  unfold LocalQuery.finish_query, LoggingConfig.log_query_result.
  repeat (step_trace; try exact I).
  apply collect_sources_reports.
Qed.

Lemma finish_query_outcome (env : Env) q show_sources response result :
  outcome (LocalQuery.finish_query env q show_sources response) = inr result ->
  question result = q
  /\ answer result = resp_text response
  /\ (sources result = []
      \/ sources result
         = map LocalQuery.source_info (source_nodes response)).
Proof.
  unfold LocalQuery.finish_query, LoggingConfig.log_query_result.
  rewrite !outcome_print_bind, outcome_bind.
  destruct (outcome (LocalQuery.collect_sources _ _ _)) as [e|srcs] eqn:Hs;
    [discriminate|].
  apply collect_sources_outcome in Hs.
  rewrite !outcome_bind. unfold call. simpl.
  destruct (logger_query_result env _); [discriminate|].
  intros [= <-]. simpl. repeat split. exact Hs.
Qed.

(** A run with reranking: the opening line, the rerank path, and then
    only printing and logging. *)
Lemma query_rerank_trace (env : Env) q top_k show_sources :
  exists rest,
    trace (LocalQuery.query env q top_k show_sources true)
    = [EvPrint (u8 "🔍 查詢問題: " ++ q)]
      ++ trace (LocalQuery.rerank_response env q top_k) ++ rest
    /\ Forall is_report rest.
Proof.
  unfold LocalQuery.query, LocalQuery.query_body.
  rewrite trace_try_except, trace_bind.
  cbn [outcome print snd trace fst]. rewrite trace_bind.
  eexists. split.
  - rewrite <- !app_assoc. reflexivity.
  - apply Forall_app. split.
    + destruct (outcome (LocalQuery.rerank_response env q top_k));
        [constructor|apply finish_query_reports].
    + destruct (outcome _); [|constructor].
      unfold LocalQuery.query_failed. repeat (step_trace; try exact I).
Qed.

Lemma query_rerank_sources (env : Env) q top_k show_sources nodes results
    result :
  retrieve env (int_or top_k Config.SIMILARITY_TOP_K * 2)%Z q = inr nodes ->
  rank env q (map node_text nodes) (int_or top_k Config.SIMILARITY_TOP_K)
  = inr results ->
  outcome (LocalQuery.query env q top_k show_sources true) = inr result ->
  sources result = []
  \/ sources result
     = map LocalQuery.source_info
           (LocalQuery.reranked_source_nodes nodes results).
Proof.
  intros Hret Hrank. rewrite query_outcome.
  unfold LocalQuery.query_body.
  rewrite outcome_print_bind, outcome_bind.
  rewrite (rerank_response_ranked env q top_k nodes results Hret Hrank).
  cbn [outcome snd].
  destruct (complete env _) as [e|text].
  - intros [= <-]. left. reflexivity.
  - destruct (outcome (LocalQuery.finish_query _ _ _ _)) as [e|r] eqn:Hfin.
    + intros [= <-]. left. reflexivity.
    + intros [= <-]. apply finish_query_outcome in Hfin as (_ & _ & Hs).
      exact Hs.
Qed.


(** With a working logger the result is built from the response. *)
Lemma finish_query_logged (env : Env) q show_sources response :
  logger_works env ->
  outcome (LocalQuery.finish_query env q show_sources response)
  = inr (mkQueryResult q (resp_text response)
           (if show_sources
            then map LocalQuery.source_info (source_nodes response)
            else [])
           (elapsed env)).
Proof.
  intros [Hinfo Hlog].
  unfold LocalQuery.finish_query, LocalQuery.collect_sources,
    LoggingConfig.log_info, LoggingConfig.log_query_result.
  rewrite !outcome_print_bind, outcome_bind.
  destruct show_sources.
  - rewrite outcome_bind. unfold call at 1. cbn [outcome snd].
    rewrite Hinfo. cbn [ret outcome snd].
    rewrite !outcome_bind. unfold call. cbn [outcome snd].
    rewrite Hlog. reflexivity.
  - cbn [ret outcome snd].
    rewrite !outcome_bind. unfold call. cbn [outcome snd].
    rewrite Hlog. reflexivity.
Qed.

(** *** C3: the answer over an empty retrieval *)

(** C3 as amended: on the rerank path, when the retriever returns no
    candidate and the reranker none, the context put into the prompt is
    empty, the generation model is called once with that prompt, and the
    answer returned is the model's text for it, with no sources. The
    prompt is the fixed template around the question; it asks for the
    fallback sentence, in quotation marks, when the context does not
    answer. The code does not put the sentence in place itself. *)
Theorem empty_retrieval_answer_is_the_models (env : Env) (q : list N)
    (top_k : option Z) (show_sources : bool) (text : list N) :
  logger_works env ->
  retrieve env (int_or top_k Config.SIMILARITY_TOP_K * 2)%Z q = inr [] ->
  rank env q [] (int_or top_k Config.SIMILARITY_TOP_K) = inr [] ->
  complete env (LocalQuery.format LocalQuery.custom_template [] q)
  = inr text ->
  complete_calls (trace (LocalQuery.query env q top_k show_sources true))
  = [LocalQuery.format LocalQuery.custom_template [] q]
  /\ outcome (LocalQuery.query env q top_k show_sources true)
     = inr (mkQueryResult q text [] (elapsed env))
  /\ LocalQuery.format LocalQuery.custom_template [] q
     = LocalQuery.TEMPLATE_HEAD ++ LocalQuery.TEMPLATE_MIDDLE ++ q
       ++ LocalQuery.TEMPLATE_RULE ++ [PyStr.DQUOTE]
       ++ LocalQuery.FALLBACK_SENTENCE ++ [PyStr.DQUOTE]
       ++ LocalQuery.TEMPLATE_TAIL.
Proof.
  intros Hlogger Hret Hrank Hllm.
  pose proof (rerank_response_answers env q top_k [] [] text Hret Hrank Hllm)
    as Hresp.
  change (LocalQuery.reranked_source_nodes [] []) with (@nil Node) in Hresp.
  change (PyStr.join [PyStr.LF; PyStr.LF] (map rr_document []))
    with (@nil N) in Hresp.
  split; [|split; [|rewrite (format_custom_template [] q);
                    apply (f_equal (app LocalQuery.TEMPLATE_HEAD));
                    apply app_nil_l]].
  - destruct (query_rerank_trace env q top_k show_sources)
      as (rest & -> & Hrest).
    apply reports_call_nothing in Hrest as (_ & _ & Hrest).
    unfold complete_calls in *. rewrite !flat_map_app, Hrest, Hresp.
    reflexivity.
  - rewrite query_outcome. unfold LocalQuery.query_body.
    rewrite outcome_print_bind, outcome_bind, Hresp. cbn [outcome snd].
    rewrite (finish_query_logged env q show_sources _ Hlogger).
    cbn [resp_text source_nodes map]. destruct show_sources; reflexivity.
Qed.

Lemma empty_retrieval_answer_is_the_models_witness :
  complete_calls
    (trace (LocalQuery.query empty_index_env
              (u8 "What is the capital of France?") None true true))
  = [LocalQuery.format LocalQuery.custom_template []
       (u8 "What is the capital of France?")]
  /\ outcome (LocalQuery.query empty_index_env
                (u8 "What is the capital of France?") None true true)
     = inr (mkQueryResult (u8 "What is the capital of France?")
              (u8 "Paris.") [] (elapsed empty_index_env))
  /\ LocalQuery.format LocalQuery.custom_template []
       (u8 "What is the capital of France?")
     = LocalQuery.TEMPLATE_HEAD ++ LocalQuery.TEMPLATE_MIDDLE
       ++ u8 "What is the capital of France?"
       ++ LocalQuery.TEMPLATE_RULE ++ [PyStr.DQUOTE]
       ++ LocalQuery.FALLBACK_SENTENCE ++ [PyStr.DQUOTE]
       ++ LocalQuery.TEMPLATE_TAIL.
Proof.
  apply (empty_retrieval_answer_is_the_models empty_index_env
           (u8 "What is the capital of France?") None true (u8 "Paris."));
    try reflexivity.
  split; intros; reflexivity.
Defined.

(** C3 as stated fails: over an empty collection the answer is what the
    generation model says, which need not be the fallback sentence, in
    either language. *)
Lemma empty_retrieval_answer_not_fixed :
  ~ (forall (env : Env) (q : list N) (top_k : option Z) (result : QueryResult),
        retrieve env (int_or top_k Config.SIMILARITY_TOP_K * 2)%Z q = inr [] ->
        outcome (LocalQuery.query env q top_k true true) = inr result ->
        answer result = u8 "I cannot answer your question"
        \/ answer result = LocalQuery.FALLBACK_SENTENCE).
Proof.
  intros H.
  destruct (H empty_index_env (u8 "What is the capital of France?") None
              (mkQueryResult (u8 "What is the capital of France?")
                 (u8 "Paris.") [] 0) eq_refl)
    as [Habs|Habs].
  - vm_compute. reflexivity.
  - vm_compute in Habs. discriminate Habs.
  - vm_compute in Habs. discriminate Habs.
Qed.

(** *** C4: over-fetching, and the bound and order of the rerank stage *)



(** The run of the witness, in full: one source, the second node with
    its rerank score. *)
Example rerank_run_sources :
  match outcome (LocalQuery.query rerank_env (u8 "What is machine learning?")
                   (Some 1%Z) true true) with
  | inr result =>
      sources result
      = [mkSourceInfo (node_text node_ml) 0.9 (node_metadata node_ml)]
      /\ answer result = u8 "A subfield of AI."
  | inl _ => False
  end.
Proof. vm_compute. split; reflexivity. Qed.

(** Why equal texts must have equal scores: a node matched twice is one
    object, and the later score overwrites the earlier one in both
    places. *)
Example rematch_twice_is_one_object :
  map node_score
      (LocalQuery.reranked_source_nodes
         [mkNode (u8 "A") 0 []; mkNode (u8 "B") 0 []]
         [mkRankResult (u8 "A") 3; mkRankResult (u8 "B") 2;
          mkRankResult (u8 "A") 1])
  = [1%Q; 2%Q; 1%Q].
Proof. vm_compute. reflexivity. Qed.

(** *** C5: the rerank output stays within the retrieved candidates *)

(** C5 as amended: every node that leaves the rerank stage is one of the
    retrieved nodes, found by equality of its text with the document of a
    rerank result: same text, same metadata, so no candidate whose text is
    not among the retrieved ones appears; there are no more of them than
    rerank results. When the reranker returns no text twice, the output is
    a permutation of a part of the retrieved nodes (scores replaced). The
    same holds for the sources of the query result. *)
Theorem rerank_output_within_retrieved (nodes : list Node)
    (results : list RankResult) :
  Forall (fun n => exists m,
              m ∈ nodes /\ node_text n = node_text m
              /\ node_metadata n = node_metadata m
              /\ node_text n ∈ map rr_document results)
         (LocalQuery.reranked_source_nodes nodes results)
  /\ length (LocalQuery.reranked_source_nodes nodes results) <= length results
  /\ (NoDup (map rr_document results) ->
      exists store,
        LocalQuery.reranked_source_nodes nodes results ⊆+ store
        /\ map node_text store = map node_text nodes
        /\ map node_metadata store = map node_metadata nodes)
  /\ (forall (env : Env) q top_k show_sources result,
         retrieve env (int_or top_k Config.SIMILARITY_TOP_K * 2)%Z q
         = inr nodes ->
         rank env q (map node_text nodes)
              (int_or top_k Config.SIMILARITY_TOP_K) = inr results ->
         outcome (LocalQuery.query env q top_k show_sources true)
         = inr result ->
         Forall (fun s => exists m,
                     m ∈ nodes /\ src_text s = node_text m
                     /\ src_metadata s = node_metadata m)
                (sources result)).
Proof.
  assert (Hmem : Forall (fun n => exists m,
              m ∈ nodes /\ node_text n = node_text m
              /\ node_metadata n = node_metadata m
              /\ node_text n ∈ map rr_document results)
         (LocalQuery.reranked_source_nodes nodes results)).
  { apply Forall_forall. intros n Hn.
    destruct (rerank_out_member nodes results n Hn)
      as (j & m & r & Hj & Ht & Hm & Hr & Hd & _).
    exists m. split; [eapply list_elem_of_lookup_2; exact Hj|].
    split; [exact Ht|]. split; [exact Hm|].
    rewrite <- Hd. apply list_elem_of_fmap. exists r. split; [reflexivity|exact Hr]. }
  split; [exact Hmem|]. split; [apply rerank_out_length|].
  split; [apply rerank_out_submseteq|].
  intros env q top_k show_sources result Hret Hrank Hres.
  destruct (query_rerank_sources env q top_k show_sources nodes results result
              Hret Hrank Hres) as [-> | ->]; [constructor|].
  apply Forall_fmap. eapply List.Forall_impl; [|exact Hmem].
  intros n (m & Hm & Ht & Hmeta & _). exists m.
  split; [exact Hm|]. split; assumption.
Qed.

Lemma rerank_output_within_retrieved_witness :
  (exists store,
      LocalQuery.reranked_source_nodes [node_ai; node_ml] ml_first ⊆+ store
      /\ map node_text store = map node_text [node_ai; node_ml]
      /\ map node_metadata store = map node_metadata [node_ai; node_ml])
  /\ Forall (fun s => exists m,
                 m ∈ [node_ai; node_ml] /\ src_text s = node_text m
                 /\ src_metadata s = node_metadata m)
            [mkSourceInfo (node_text node_ml) 0.9 (node_metadata node_ml)].
Proof.
  destruct (rerank_output_within_retrieved [node_ai; node_ml] ml_first)
    as (_ & _ & Hperm & Hquery).
  split.
  - apply Hperm. repeat constructor. intros H. inversion H.
  - apply (Hquery rerank_env (u8 "What is machine learning?") (Some 1%Z) true
             (mkQueryResult (u8 "What is machine learning?")
                (u8 "A subfield of AI.")
                [mkSourceInfo (node_text node_ml) 0.9 (node_metadata node_ml)]
                (elapsed rerank_env))); vm_compute; reflexivity.
Defined.

(** C5 as stated fails for two retrieved nodes with one text: the
    reranker is given the text twice and ranks both, the loop finds the
    first node for each, and the output holds the first node twice and the
    second not at all, which is no permutation of a part of the retrieved
    nodes. *)
Lemma rerank_output_repeats_a_twin :
  map node_metadata (LocalQuery.reranked_source_nodes twin_nodes twin_results)
  = [[(u8 "source", MStr (u8 "first.pdf"))];
     [(u8 "source", MStr (u8 "first.pdf"))]]
  /\ ~ exists store,
        LocalQuery.reranked_source_nodes twin_nodes twin_results ⊆+ store
        /\ map node_text store = map node_text twin_nodes
        /\ map node_metadata store = map node_metadata twin_nodes.
Proof.
  split; [vm_compute; reflexivity|].
  intros (store & Hsub & _ & Hmeta).
  apply (fmap_submseteq node_metadata) in Hsub.
  change (node_metadata <$> store) with (map node_metadata store) in Hsub.
  rewrite Hmeta in Hsub.
  apply (fmap_submseteq
           (fun metadata : Metadata =>
              match metadata with
              | [(_, MStr source)] => PyStr.eqb source (u8 "first.pdf")
              | _ => false
              end)) in Hsub.
  vm_compute in Hsub.
  apply submseteq_cons_l in Hsub as (rest & Hperm & Hsub).
  apply Permutation_cons_inv in Hperm.
  apply Permutation_singleton_l in Hperm. subst rest.
  apply submseteq_cons_l in Hsub as (rest & Hperm & _).
  apply Permutation_singleton_l in Hperm. discriminate Hperm.
Qed.

(** ** Retrieval counts and source texts ([query_service.py],
    [local_query.py]) *)

Lemma int_or_cases :
  int_or None Config.SIMILARITY_TOP_K = 5%Z
  /\ int_or (Some 0%Z) Config.SIMILARITY_TOP_K = 5%Z
  /\ (forall k, k <> 0%Z -> int_or (Some k) Config.SIMILARITY_TOP_K = k).
Proof.
  repeat split. intros k Hk. unfold int_or.
  apply Z.eqb_neq in Hk. rewrite Hk. reflexivity.
Qed.

(** Both branches of lines 282-289 ask for [top_k or SIMILARITY_TOP_K]. *)
Lemma local_retrieve_nodes_count (env : Env) q top_k :
  LocalQuery.retrieve_nodes env q top_k
  = call (EvRetrieve (int_or top_k Config.SIMILARITY_TOP_K) q)
         (retrieve env (int_or top_k Config.SIMILARITY_TOP_K) q).
Proof.
  unfold LocalQuery.retrieve_nodes, overrides_default, int_or.
  destruct top_k as [k|]; [|reflexivity].
  destruct (k =? 0)%Z eqn:H0; [reflexivity|]. simpl.
  destruct (k =? Config.SIMILARITY_TOP_K)%Z eqn:H5; [|reflexivity].
  apply Z.eqb_eq in H5. subst k. reflexivity.
Qed.

Lemma service_retrieve_nodes_count (env : Env) q top_k :
  QueryService.retrieve_nodes env q top_k
  = call (EvRetrieve (int_or top_k Config.SIMILARITY_TOP_K) q)
         (retrieve env (int_or top_k Config.SIMILARITY_TOP_K) q).
Proof.
  unfold QueryService.retrieve_nodes, overrides_default, int_or.
  destruct top_k as [k|]; [|reflexivity].
  destruct (k =? 0)%Z eqn:H0; [reflexivity|]. simpl.
  destruct (k =? Config.SIMILARITY_TOP_K)%Z eqn:H5; [|reflexivity].
  apply Z.eqb_eq in H5. subst k. reflexivity.
Qed.

Lemma print_document_reports (env : Env) entry :
  Forall is_report (trace (LocalQuery.print_document env entry)).
Proof.
  destruct entry as [i node]. unfold LocalQuery.print_document.
  apply all_bind; [apply all_print; exact I|intros _ _].
  apply all_bind;
    [destruct (meta_get _ _); [apply all_print; exact I|apply all_ret]
    |intros _ _].
  apply all_bind;
    [destruct (meta_get _ _); [apply all_print; exact I|apply all_ret]
    |intros _ _].
  apply all_bind; [apply all_print; exact I|intros _ _].
  apply all_print. exact I.
Qed.

Lemma local_documents_retrieve_calls (env : Env) q top_k :
  retrieve_calls (trace (LocalQuery.get_relevant_documents env q top_k))
  = [(int_or top_k Config.SIMILARITY_TOP_K, q)].
Proof.
  unfold LocalQuery.get_relevant_documents.
  rewrite trace_try_except, trace_bind. cbn [outcome print snd trace fst].
  rewrite trace_bind, local_retrieve_nodes_count.
  cbn [call trace fst outcome snd].
  unfold retrieve_calls. rewrite !flat_map_app. cbn [flat_map app].
  match goal with
  | |- (?k, ?q') :: flat_map ?f ?t1 ++ flat_map ?f ?t2 = _ =>
      assert (H1 : Forall is_report t1); [|assert (H2 : Forall is_report t2)]
  end.
  - destruct (retrieve env _ q) as [e|nodes]; [constructor|].
    repeat (step_trace; try exact I). apply print_document_reports.
  - match goal with |- Forall _ match ?o with _ => _ end => destruct o end;
      [|constructor].
    repeat (step_trace; try exact I).
  - apply reports_call_nothing in H1 as (H1 & _).
    apply reports_call_nothing in H2 as (H2 & _).
    unfold retrieve_calls in H1, H2. rewrite H1, H2. reflexivity.
Qed.

Lemma service_documents_retrieve_calls (env : Env) q top_k :
  retrieve_calls (trace (QueryService.get_relevant_documents env q top_k))
  = [(int_or top_k Config.SIMILARITY_TOP_K, q)].
Proof.
  unfold QueryService.get_relevant_documents.
  rewrite service_retrieve_nodes_count.
  rewrite trace_try_except, trace_bind, outcome_bind.
  cbn [call trace fst outcome snd].
  destruct (retrieve env _ q) as [e|nodes]; reflexivity.
Qed.

(** *** C9: the retrieval count *)

(** C9 as amended: the documents-only paths ask the retriever once, for
    [top_k] or, when [top_k] is unset or 0, for the configured default 5.
    A [top_k] other than 0 is passed on as it is, without a check: the
    count is positive whenever [top_k] is unset or not negative. *)
Theorem retrieval_count_is_top_k_or_default (env : Env) (q : list N)
    (top_k : option Z) :
  retrieve_calls (trace (LocalQuery.get_relevant_documents env q top_k))
  = [(int_or top_k Config.SIMILARITY_TOP_K, q)]
  /\ retrieve_calls (trace (QueryService.get_relevant_documents env q top_k))
     = [(int_or top_k Config.SIMILARITY_TOP_K, q)]
  /\ int_or None Config.SIMILARITY_TOP_K = 5%Z
  /\ int_or (Some 0%Z) Config.SIMILARITY_TOP_K = 5%Z
  /\ (forall k, k <> 0%Z -> int_or (Some k) Config.SIMILARITY_TOP_K = k)
  /\ ((forall k, top_k = Some k -> (0 <= k)%Z) ->
      (0 < int_or top_k Config.SIMILARITY_TOP_K)%Z).
Proof.
  split; [apply local_documents_retrieve_calls|].
  split; [apply service_documents_retrieve_calls|].
  destruct int_or_cases as (H1 & H2 & H3).
  split; [exact H1|]. split; [exact H2|]. split; [exact H3|].
  intros Hpos. destruct top_k as [k|]; [|reflexivity].
  specialize (Hpos k eq_refl). unfold int_or.
  destruct (k =? 0)%Z eqn:H0; [reflexivity|].
  apply Z.eqb_neq in H0. lia.
Qed.

Lemma retrieval_count_is_top_k_or_default_witness :
  retrieve_calls
    (trace (LocalQuery.get_relevant_documents quiet_env (u8 "q") (Some 3%Z)))
  = [(3%Z, u8 "q")]
  /\ (0 < int_or (Some 3%Z) Config.SIMILARITY_TOP_K)%Z.
Proof.
  destruct (retrieval_count_is_top_k_or_default quiet_env (u8 "q") (Some 3%Z))
    as (H1 & _ & _ & _ & _ & H6).
  split; [exact H1|]. apply H6. intros k [= <-]. lia.
Defined.

(** C9 as stated fails: a negative [top_k] reaches the retriever. *)
Lemma negative_top_k_reaches_retriever :
  ~ (forall (env : Env) (q : list N) (top_k : option Z) (k : Z) (q' : list N),
        In (k, q')
           (retrieve_calls
              (trace (LocalQuery.get_relevant_documents env q top_k))) ->
        (0 < k)%Z).
Proof.
  intros H.
  specialize (H quiet_env (u8 "q") (Some (-1)%Z) (-1)%Z (u8 "q")).
  assert (Hin : In ((-1)%Z, u8 "q")
                   (retrieve_calls
                      (trace (LocalQuery.get_relevant_documents quiet_env
                                (u8 "q") (Some (-1)%Z))))).
  { vm_compute. left. reflexivity. }
  specialize (H Hin). lia.
Qed.

(** *** C10: source texts of the service and of the local paths *)

Lemma source_text_long (text : list N) :
  200 < length text ->
  QueryService.source_text text = take 200 text ++ u8 "..."
  /\ length (QueryService.source_text text) = 203.
Proof.
  intros H. unfold QueryService.source_text, PyStr.slice_to.
  apply Nat.ltb_lt in H as Hb. rewrite Hb. split; [reflexivity|].
  rewrite length_app, length_take. change (length (u8 "...")) with 3. lia.
Qed.

Lemma source_text_short (text : list N) :
  length text <= 200 -> QueryService.source_text text = text.
Proof.
  intros H. unfold QueryService.source_text.
  apply Nat.ltb_ge in H. rewrite H. reflexivity.
Qed.

Lemma service_query_sources (env : Env) q top_k result :
  outcome (QueryService.query env q top_k) = inr result ->
  exists response,
    outcome (QueryService.engine_response env q top_k) = inr response
    /\ answer result = resp_text response
    /\ sources result
       = map QueryService.source_info (source_nodes response).
Proof.
  unfold QueryService.query.
  rewrite outcome_try_except, outcome_bind.
  destruct (outcome (QueryService.engine_response env q top_k))
    as [e|response]; [discriminate|].
  simpl. intros [= <-]. exists response. repeat split.
Qed.

Lemma log_query_result_full_content (env : Env) (result : QueryResult) :
  exists data,
    trace (LoggingConfig.log_query_result env result) = [EvLogQueryResult data]
    /\ map ls_full_content (ld_sources data) = map src_text (sources result)
    /\ map ls_rank (ld_sources data) = seq 1 (length (sources result)).
Proof.
  unfold LoggingConfig.log_query_result. eexists. split.
  - rewrite trace_bind. cbn [call trace fst outcome snd].
    destruct (logger_query_result env _); cbn [ret trace fst app]; reflexivity.
  - cbn [ld_sources]. generalize 1.
    induction (sources result) as [|s rest IH]; intros start; simpl;
      [split; reflexivity|].
    destruct (IH (S start)) as (IH1 & IH2). rewrite IH1, IH2.
    split; reflexivity.
Qed.

(** C10: in a result of the service's [query], the text of a source is
    the first 200 characters of the node's text followed by three dots
    when the text is longer than 200 characters, and the text itself
    otherwise. The documents-only paths return the full text of every
    node, the local query result carries the full text of its sources, and
    the query log records that text in full. *)
Theorem service_truncates_source_text (env : Env) (q : list N)
    (top_k : option Z) :
  (forall result,
      outcome (QueryService.query env q top_k) = inr result ->
      exists response,
        outcome (QueryService.engine_response env q top_k) = inr response
        /\ Forall2 (fun node s =>
                      (200 < length (node_text node) ->
                       src_text s = take 200 (node_text node) ++ u8 "..."
                       /\ length (src_text s) = 203)
                      /\ (length (node_text node) <= 200 ->
                          src_text s = node_text node))
                   (source_nodes response) (sources result))
  /\ (forall docs,
         outcome (QueryService.get_relevant_documents env q top_k) = inr docs ->
         exists nodes,
           retrieve env (int_or top_k Config.SIMILARITY_TOP_K) q = inr nodes
           /\ map src_text (QueryService.rd_documents docs)
              = map node_text nodes)
  /\ (forall nodes,
         retrieve env (int_or top_k Config.SIMILARITY_TOP_K) q = inr nodes ->
         exists docs,
           outcome (LocalQuery.get_relevant_documents env q top_k) = inr docs
           /\ map src_text docs = map node_text nodes)
  /\ (forall show_sources response result,
         outcome (LocalQuery.finish_query env q show_sources response)
         = inr result ->
         sources result = []
         \/ map src_text (sources result)
            = map node_text (source_nodes response))
  /\ (forall result,
         exists data,
           trace (LoggingConfig.log_query_result env result)
           = [EvLogQueryResult data]
           /\ map ls_full_content (ld_sources data)
              = map src_text (sources result)).
Proof.
  split; [|split; [|split; [|split]]].
  - intros result Hres.
    destruct (service_query_sources env q top_k result Hres)
      as (response & Hresp & _ & Hsrc).
    exists response. split; [exact Hresp|]. rewrite Hsrc.
    apply Forall2_fmap_r. apply Forall_Forall2_diag.
    apply Forall_forall. intros node _. simpl. split.
    + apply source_text_long.
    + apply source_text_short.
  - intros docs. unfold QueryService.get_relevant_documents.
    rewrite outcome_try_except, outcome_bind, service_retrieve_nodes_count.
    cbn [call outcome snd].
    destruct (retrieve env _ q) as [e|nodes]; [discriminate|].
    simpl. intros [= <-]. exists nodes. split; [reflexivity|].
    simpl. rewrite map_map. reflexivity.
  - intros nodes Hret. unfold LocalQuery.get_relevant_documents.
    rewrite outcome_try_except, outcome_print_bind, outcome_bind.
    rewrite local_retrieve_nodes_count. cbn [call outcome snd].
    rewrite Hret, outcome_print_bind, outcome_bind.
    assert (Hloop : forall entries,
               outcome (for_each entries (LocalQuery.print_document env))
               = inr tt).
    { induction entries as [|[i node] entries IH]; [reflexivity|].
      cbn [for_each]. rewrite outcome_bind.
      assert (Hdoc : outcome (LocalQuery.print_document env (i, node))
                     = inr tt).
      { unfold LocalQuery.print_document.
        rewrite outcome_print_bind, outcome_bind.
        destruct (meta_get _ _); cbn [print ret outcome snd];
          rewrite outcome_bind;
          destruct (meta_get _ _); reflexivity. }
      rewrite Hdoc. exact IH. }
    rewrite Hloop. eexists. split; [reflexivity|].
    rewrite map_map. reflexivity.
  - intros show_sources response result Hres.
    apply finish_query_outcome in Hres as (_ & _ & [Hs|Hs]); [left; exact Hs|].
    right. rewrite Hs, map_map. reflexivity.
  - intros result.
    destruct (log_query_result_full_content env result) as (data & H1 & H2 & _).
    exists data. split; assumption.
Qed.

Lemma service_truncates_source_text_witness :
  exists response,
    outcome (QueryService.engine_response long_source_env (u8 "q") None)
    = inr response
    /\ Forall2 (fun node s =>
                  (200 < length (node_text node) ->
                   src_text s = take 200 (node_text node) ++ u8 "..."
                   /\ length (src_text s) = 203)
                  /\ (length (node_text node) <= 200 ->
                      src_text s = node_text node))
               (source_nodes response)
               [mkSourceInfo (replicate 200 97%N ++ u8 "...") 0.9 [];
                mkSourceInfo (u8 "short") 0.4 []].
Proof.
  apply (proj1 (service_truncates_source_text long_source_env (u8 "q") None)
           (mkQueryResult (u8 "q") (u8 "answer")
              [mkSourceInfo (replicate 200 97%N ++ u8 "...") 0.9 [];
               mkSourceInfo (u8 "short") 0.4 []]
              (elapsed long_source_env))).
  vm_compute. reflexivity.
Defined.

(** The service does not catch into a result: a failing engine surfaces
    as an HTTP error with status 500. *)
Example service_query_raises :
  outcome (QueryService.query
             (fixed_env (inr []) (inr []) (inr [])
                        (inl (Exn (u8 "timeout"))))
             (u8 "q") None)
  = inl (HTTPException 500 (u8 "查詢處理失敗: " ++ u8 "timeout")).
Proof. vm_compute. reflexivity. Qed.

(** * Further properties of the code *)

(** ** Storing nodes ([document_indexing.py], [ingest_documents]) *)

Lemma indexed_app (t1 t2 : list Event) :
  indexed (t1 ++ t2) = indexed t1 ++ indexed t2.
Proof. apply flat_map_app. Qed.

Lemma unit_outcome_eta (m : M unit) u : outcome m = inr u -> outcome m = inr tt.
Proof. destruct u. exact id. Qed.

(** A loop hands over a prefix of what its rounds would hand over, and all
    of it when no round raises. *)
Section LoopPrefix.

Context {A : Type}.
Variables (f : A -> list TextNode) (body : A -> M unit).
Hypothesis body_prefix : forall x, indexed (trace (body x)) `prefix_of` f x.
Hypothesis body_done :
  forall x, outcome (body x) = inr tt -> indexed (trace (body x)) = f x.

Lemma for_each_indexed (xs : list A) :
  indexed (trace (for_each xs body)) `prefix_of` concat (map f xs)
  /\ (outcome (for_each xs body) = inr tt ->
      indexed (trace (for_each xs body)) = concat (map f xs)).
Proof.
  induction xs as [|x xs [IHp IHd]]; cbn [for_each map concat].
  - split; [apply prefix_nil|reflexivity].
  - rewrite trace_bind, outcome_bind, indexed_app.
    destruct (outcome (body x)) as [e|[]] eqn:Hx.
    + split; [|discriminate].
      change (indexed []) with (@nil TextNode). rewrite app_nil_r.
      apply prefix_app_r, body_prefix.
    + rewrite (body_done x Hx). split.
      * apply prefix_app, IHp.
      * intros Hrest. rewrite (IHd Hrest). reflexivity.
Qed.

End LoopPrefix.

Lemma concat_singletons {A} (xs : list A) : concat (map (fun x => [x]) xs) = xs.
Proof. induction xs as [|x xs IH]; simpl; [reflexivity|]. rewrite IH. reflexivity. Qed.

(** The batches of ten, one after the other, are the list. *)
Lemma batches_take {A} (l : list A) (c a : nat) :
  concat (map (fun j => take 10 (drop (0 + j * 10) l)) (seq a c))
  = take (c * 10) (drop (a * 10) l).
Proof.
  revert a. induction c as [|c IH]; intros a; cbn [seq map concat].
  - reflexivity.
  - rewrite IH. cbn [Nat.add].
    replace (S a * 10) with (a * 10 + 10) by lia.
    rewrite <- drop_drop.
    replace (S c * 10) with (10 + c * 10) by lia.
    apply take_take_drop.
Qed.

Lemma batches_cover {A} (l : list A) :
  concat (map (fun i => take 10 (drop i l)) (range_step 0 (length l) 10)) = l.
Proof.
  unfold range_step. rewrite map_map, batches_take.
  cbn [Nat.mul]. rewrite drop_0. apply take_ge.
  pose proof (Nat.div_mod_eq (length l - 0 + (10 - 1)) 10) as Hd.
  pose proof (Nat.mod_upper_bound (length l - 0 + (10 - 1)) 10) as Hm.
  lia.
Qed.

Lemma insert_loop_indexed (env : Env) (batch : list TextNode) :
  indexed (trace (for_each batch
                    (fun node => call (EvIndexInsert node)
                                      (index_insert env node))))
    `prefix_of` batch
  /\ (outcome (for_each batch
                 (fun node => call (EvIndexInsert node)
                                   (index_insert env node))) = inr tt ->
      indexed (trace (for_each batch
                        (fun node => call (EvIndexInsert node)
                                          (index_insert env node))))
      = batch).
Proof.
  pose proof (for_each_indexed (fun node => [node])
                (fun node => call (EvIndexInsert node) (index_insert env node)))
    as H.
  rewrite <- (concat_singletons batch) at 2 5.
  apply H; intros node; try intros _; reflexivity.
Qed.

Lemma store_batches_indexed (env : Env) (nodes : list TextNode) :
  indexed (trace (DocumentIndexing.store_batches env nodes)) `prefix_of` nodes
  /\ (outcome (DocumentIndexing.store_batches env nodes) = inr tt ->
      indexed (trace (DocumentIndexing.store_batches env nodes)) = nodes).
Proof.
  unfold DocumentIndexing.store_batches.
  pose proof (for_each_indexed (fun i => take 10 (drop i nodes))
                (fun i =>
                   if (i =? 0)%nat
                   then call (EvIndexCreate (take 10 (drop i nodes)))
                             (index_create env (take 10 (drop i nodes)))
                   else for_each (take 10 (drop i nodes))
                          (fun node => call (EvIndexInsert node)
                                            (index_insert env node))))
    as H.
  specialize (fun Hp Hd => H Hp Hd (range_step 0 (length nodes) 10)).
  rewrite batches_cover in H. apply H.
  - intros i. destruct (i =? 0)%nat.
    + unfold call, indexed. cbn [trace fst flat_map indexed_nodes].
      rewrite app_nil_r. reflexivity.
    + apply insert_loop_indexed.
  - intros i. destruct (i =? 0)%nat.
    + intros _. unfold call, indexed. cbn [trace fst flat_map indexed_nodes].
      apply app_nil_r.
    + apply insert_loop_indexed.
Qed.

Lemma ingest_documents_shape (env : Env) (documents : list Document) :
  indexed (trace (DocumentIndexing.ingest_documents env documents))
  = indexed (trace (DocumentIndexing.store_batches env
                      (map node_of_document documents)))
  /\ outcome (DocumentIndexing.ingest_documents env documents)
     = inr (match outcome (DocumentIndexing.store_batches env
                             (map node_of_document documents)) with
            | inr _ => true
            | inl _ => false
            end).
Proof.
  unfold DocumentIndexing.ingest_documents.
  fold node_of_document.
  rewrite trace_try_except, outcome_try_except.
  rewrite !outcome_print_bind, outcome_bind, !trace_print_bind, trace_bind.
  destruct (outcome (DocumentIndexing.store_batches env _)) as [e|[]].
  - split; [|reflexivity].
    unfold indexed. cbn [flat_map indexed_nodes app].
    rewrite !flat_map_app. cbn. rewrite !app_nil_r. reflexivity.
  - split; [|reflexivity].
    unfold indexed. cbn [flat_map indexed_nodes app].
    rewrite !flat_map_app. cbn. rewrite !app_nil_r. reflexivity.
Qed.

(** X1: [ingest_documents] never raises. The nodes it hands to the vector
    index are a prefix of the documents, one node per document with its
    text and metadata, in order and none twice; it returns [True] exactly
    when no index call raised, and then every document was handed over. *)
Theorem ingest_documents_stores_a_prefix (env : Env)
    (documents : list Document) :
  indexed (trace (DocumentIndexing.ingest_documents env documents))
    `prefix_of` map node_of_document documents
  /\ exists success,
       outcome (DocumentIndexing.ingest_documents env documents) = inr success
       /\ (success = true <->
           outcome (DocumentIndexing.store_batches env
                      (map node_of_document documents)) = inr tt)
       /\ (success = true ->
           indexed (trace (DocumentIndexing.ingest_documents env documents))
           = map node_of_document documents).
Proof.
  destruct (ingest_documents_shape env documents) as [Ht Ho].
  destruct (store_batches_indexed env (map node_of_document documents))
    as [Hp Hd].
  rewrite Ht. split; [exact Hp|].
  eexists. split; [exact Ho|].
  destruct (outcome (DocumentIndexing.store_batches env _)) as [e|[]].
  - split; [split; discriminate|discriminate].
  - split; [split; reflexivity|]. intros _. apply Hd. reflexivity.
Qed.

Lemma insert_loop_works (env : Env) (batch : list TextNode) :
  (forall node, index_insert env node = inr tt) ->
  for_each batch (fun node => call (EvIndexInsert node) (index_insert env node))
  = (map EvIndexInsert batch, inr tt).
Proof.
  intros Hins. induction batch as [|node batch IH]; [reflexivity|].
  cbn [for_each]. rewrite IH. unfold call. rewrite Hins. reflexivity.
Qed.

Lemma later_batches_work (env : Env) (nodes : list TextNode) :
  (forall node, index_insert env node = inr tt) ->
  forall c a,
    for_each (map (fun j => 0 + j * 10) (seq (S a) c))
      (fun i =>
         if (i =? 0)%nat
         then call (EvIndexCreate (take 10 (drop i nodes)))
                   (index_create env (take 10 (drop i nodes)))
         else for_each (take 10 (drop i nodes))
                (fun node => call (EvIndexInsert node) (index_insert env node)))
    = (map EvIndexInsert (take (c * 10) (drop (S a * 10) nodes)), inr tt).
Proof.
  intros Hins. induction c as [|c IH]; intros a; [reflexivity|].
  cbn [seq map for_each].
  replace (0 + S a * 10 =? 0)%nat with false
    by (symmetry; apply Nat.eqb_neq; lia).
  rewrite (insert_loop_works env _ Hins), IH.
  cbn [bind app Nat.add]. f_equal.
  rewrite <- map_app. f_equal.
  replace (S (S a) * 10) with (S a * 10 + 10) by lia.
  rewrite <- drop_drop.
  replace (S c * 10) with (10 + c * 10) by lia.
  apply take_take_drop.
Qed.

(** X2: when the vector index accepts every call, the first ten nodes
    are stored by the one call that creates the index and every later
    node by an insert call of its own, in order; for an empty list no
    index call is made at all. *)
Theorem store_batches_creates_then_inserts (env : Env)
    (nodes : list TextNode) :
  index_works env ->
  DocumentIndexing.store_batches env nodes
  = (match nodes with
     | [] => []
     | _ :: _ =>
         EvIndexCreate (take 10 nodes) :: map EvIndexInsert (drop 10 nodes)
     end, inr tt).
Proof.
  intros [Hcreate Hins]. unfold DocumentIndexing.store_batches, range_step.
  destruct nodes as [|node nodes]; [reflexivity|].
  set (all := node :: nodes).
  assert (Hc : exists c, (length all - 0 + (10 - 1)) / 10 = S c
                         /\ length all <= 10 + c * 10).
  { pose proof (Nat.div_mod_eq (length all - 0 + (10 - 1)) 10) as Hd.
    pose proof (Nat.mod_upper_bound (length all - 0 + (10 - 1)) 10) as Hm.
    destruct ((length all - 0 + (10 - 1)) / 10) as [|c] eqn:Hq.
    - subst all. cbn [length] in *. lia.
    - exists c. split; [reflexivity|]. lia. }
  destruct Hc as (c & -> & Hlen).
  cbn [seq map for_each Nat.mul Nat.add Nat.eqb].
  change (fun j : nat => j * 10) with (fun j : nat => 0 + j * 10).
  rewrite (later_batches_work env all Hins c 0).
  unfold call. rewrite Hcreate. cbn [bind app]. rewrite drop_0.
  do 3 f_equal. cbn [Nat.mul Nat.add].
  apply take_ge. rewrite length_drop. lia.
Qed.

Lemma store_batches_creates_then_inserts_witness :
  DocumentIndexing.store_batches quiet_env
    (map node_of_document twelve_documents)
  = (EvIndexCreate (take 10 (map node_of_document twelve_documents))
       :: map EvIndexInsert (drop 10 (map node_of_document twelve_documents)),
     inr tt).
Proof.
  apply (store_batches_creates_then_inserts quiet_env
           (map node_of_document twelve_documents)).
  split; intros; reflexivity.
Defined.

(** The prefix of X1 can be proper: an index that refuses inserts keeps
    the first ten of twelve documents, and the run reports failure. *)
Example ingest_stops_at_first_refusal :
  indexed (trace (DocumentIndexing.ingest_documents full_index_env
                    twelve_documents))
  = take 11 (map node_of_document twelve_documents)
  /\ outcome (DocumentIndexing.ingest_documents full_index_env
                twelve_documents) = inr false.
Proof. vm_compute. split; reflexivity. Qed.

(** ** Documents and their ids ([document_indexing.py], 130-185) *)

Lemma keeps_iff_not_blank (text : list N) :
  keeps text = true <-> ~ PyStr.blank text.
Proof.
  unfold keeps. rewrite <- strip_empty_iff_blank.
  destruct (PyStr.truthy (PyStr.strip text)); split; congruence.
Qed.

(** The entries that pass the test: their numbers are positions of the
    input, they rise strictly, and no entry that passes is left out. *)
Lemma kept_entries (texts : list (list N)) :
  forall start,
    Forall (fun entry => start <= fst entry
                         /\ texts !! (fst entry - start) = Some (snd entry)
                         /\ keeps (snd entry) = true)
           (List.filter (fun entry => keeps (snd entry))
                        (enumerate start texts))
    /\ StronglySorted lt
         (map fst (List.filter (fun entry => keeps (snd entry))
                               (enumerate start texts)))
    /\ (forall j t, texts !! j = Some t -> keeps t = true ->
          In (start + j, t)
             (List.filter (fun entry => keeps (snd entry))
                          (enumerate start texts))).
Proof.
  induction texts as [|t texts IH]; intros start; cbn [enumerate List.filter].
  - split; [constructor|]. split; [constructor|]. intros j t0 Hj. discriminate.
  - destruct (IH (S start)) as (Hall & Hsorted & Hin).
    assert (Hall' : Forall (fun entry =>
                start <= fst entry
                /\ (t :: texts) !! (fst entry - start) = Some (snd entry)
                /\ keeps (snd entry) = true)
              (List.filter (fun entry => keeps (snd entry))
                           (enumerate (S start) texts))).
    { eapply List.Forall_impl; [|exact Hall].
      intros [i u] (Hi & Hu & Hk). cbn [fst snd] in *.
      split; [lia|]. split; [|exact Hk].
      replace (i - start) with (S (i - S start)) by lia. exact Hu. }
    assert (Hin' : forall j u, (t :: texts) !! j = Some u -> keeps u = true ->
               j <> 0 ->
               In (start + j, u)
                  (List.filter (fun entry => keeps (snd entry))
                               (enumerate (S start) texts))).
    { intros [|j] u Hj Hk Hne; [congruence|].
      replace (start + S j) with (S start + j) by lia.
      apply Hin; assumption. }
    cbn [snd]. destruct (keeps t) eqn:Ht.
    + split; [|split].
      * constructor; [|exact Hall'].
        cbn [fst snd]. rewrite Nat.sub_diag. repeat split; [lia|exact Ht].
      * cbn [map fst]. constructor; [exact Hsorted|].
        apply List.Forall_map. eapply List.Forall_impl; [|exact Hall].
        intros [i u] (Hi & _). cbn [fst] in *. lia.
      * intros [|j] u Hj Hk.
        -- injection Hj as <-. left. f_equal. lia.
        -- right. apply Hin'; [exact Hj|exact Hk|discriminate].
    + split; [exact Hall'|]. split; [exact Hsorted|].
      intros [|j] u Hj Hk.
      * injection Hj as <-. congruence.
      * apply Hin'; [exact Hj|exact Hk|discriminate].
Qed.

Lemma documents_of_kept (entries : list (nat * list N))
    (metadata : nat -> Metadata) :
  DocumentIndexing.documents_of entries metadata
  = map (fun entry => mkDocument (snd entry) (metadata (fst entry)))
        (List.filter (fun entry => keeps (snd entry)) entries).
Proof.
  unfold DocumentIndexing.documents_of, keeps.
  induction entries as [|[i t] entries IH]; cbn [flat_map List.filter snd];
    [reflexivity|].
  rewrite IH. destruct (PyStr.truthy (PyStr.strip t)); reflexivity.
Qed.

Lemma text_metadata_id (source : list N) (i : Z) :
  meta_get (u8 "text_id")
    [(u8 "source", MStr source); (u8 "text_id", MInt i);
     (u8 "source_type", MStr (u8 "text"))]
  = Some (MInt i)
  /\ meta_get (u8 "source")
       [(u8 "source", MStr source); (u8 "text_id", MInt i);
        (u8 "source_type", MStr (u8 "text"))]
     = Some (MStr source).
Proof. split; vm_compute; reflexivity. Qed.

Lemma pdf_metadata_id (source : list N) (i : Z) :
  meta_get (u8 "paragraph_id")
    [(u8 "source", MStr source); (u8 "paragraph_id", MInt i);
     (u8 "source_type", MStr (u8 "pdf"))]
  = Some (MInt i)
  /\ meta_get (u8 "source")
       [(u8 "source", MStr source); (u8 "paragraph_id", MInt i);
        (u8 "source_type", MStr (u8 "pdf"))]
     = Some (MStr source).
Proof. split; vm_compute; reflexivity. Qed.

(** X3: the documents built from a list of texts are the texts that are
    not blank, in order; the [text_id] of a document is the position of its
    text in the list given, so the ids rise strictly and leave gaps where
    blank texts were dropped; every document carries the source tag. *)
Theorem text_ids_are_input_positions (texts : list (list N))
    (source : list N) :
  exists documents ids,
    outcome (DocumentIndexing.process_documents_from_text texts source)
    = inr documents
    /\ Forall2 (fun i doc =>
                  texts !! i = Some (doc_text doc)
                  /\ doc_id (u8 "text_id") doc = Some (Z.of_nat i)
                  /\ meta_get (u8 "source") (doc_metadata doc)
                     = Some (MStr source))
               ids documents
    /\ StronglySorted lt ids
    /\ (forall i t, texts !! i = Some t -> (In i ids <-> ~ PyStr.blank t)).
Proof.
  destruct (kept_entries texts 0) as (Hall & Hsorted & Hin).
  set (kept := List.filter (fun entry => keeps (snd entry))
                           (enumerate 0 texts)) in *.
  eexists. exists (map fst kept). split; [|split; [|split; [exact Hsorted|]]].
  - unfold DocumentIndexing.process_documents_from_text.
    rewrite outcome_print_bind. cbn [ret outcome snd].
    rewrite documents_of_kept. reflexivity.
  - fold kept. apply Forall2_fmap. apply Forall_Forall2_diag.
    eapply List.Forall_impl; [|exact Hall].
    intros [i t] (_ & Ht & _). cbn [fst snd doc_text doc_metadata] in *.
    rewrite Nat.sub_0_r in Ht.
    destruct (text_metadata_id source (Z.of_nat i)) as [Hid Hsrc].
    unfold doc_id. cbn [doc_metadata]. rewrite Hid. repeat split; assumption.
  - intros i t Hi. rewrite <- keeps_iff_not_blank. split.
    + intros Hini. apply in_map_iff in Hini as ([i' t'] & Hfst & Hkept).
      cbn [fst] in Hfst. subst i'.
      rewrite List.Forall_forall in Hall.
      destruct (Hall _ Hkept) as (_ & Ht' & Hk). cbn [fst snd] in *.
      rewrite Nat.sub_0_r in Ht'. congruence.
    + intros Hk. apply in_map_iff. exists (i, t). split; [reflexivity|].
      apply (Hin i t Hi Hk).
Qed.

Lemma text_ids_are_input_positions_witness :
  exists documents ids,
    outcome (DocumentIndexing.process_documents_from_text
               [u8 "a"; u8 "  "; u8 "b"] (u8 "demo_data"))
    = inr documents
    /\ Forall2 (fun i doc =>
                  [u8 "a"; u8 "  "; u8 "b"] !! i = Some (doc_text doc)
                  /\ doc_id (u8 "text_id") doc = Some (Z.of_nat i)
                  /\ meta_get (u8 "source") (doc_metadata doc)
                     = Some (MStr (u8 "demo_data")))
               ids documents
    /\ StronglySorted lt ids
    /\ (forall i t, [u8 "a"; u8 "  "; u8 "b"] !! i = Some t ->
                    (In i ids <-> ~ PyStr.blank t)).
Proof.
  exact (text_ids_are_input_positions [u8 "a"; u8 "  "; u8 "b"]
           (u8 "demo_data")).
Defined.

(** ** Extraction ([document_indexing.py], 82-128) *)

Section StripShape.

Variable p : N -> bool.

Lemma lstrip_by_fixed (s : list N) c t :
  s = c :: t -> p c = false -> PyStr.lstrip_by p s = s.
Proof. intros -> Hc. simpl. rewrite Hc. reflexivity. Qed.

Lemma lstrip_by_keeps_last (s : list N) c :
  p c = false -> exists u, PyStr.lstrip_by p (s ++ [c]) = u ++ [c].
Proof.
  intros Hc. induction s as [|a s (u & IH)]; simpl.
  - rewrite Hc. exists []. reflexivity.
  - destruct (p a); [exists u; exact IH|]. exists (a :: s). reflexivity.
Qed.

Lemma strip_by_idempotent (s : list N) :
  PyStr.strip_by p (PyStr.strip_by p s) = PyStr.strip_by p s.
Proof.
  unfold PyStr.strip_by at 2 3.
  destruct (PyStr.rstrip_by p s) as [|c r _] eqn:Hr using rev_ind;
    [reflexivity|].
  pose proof (rstrip_by_last p s r c Hr) as Hc.
  destruct (lstrip_by_keeps_last r c Hc) as (u & Hu).
  rewrite Hu. unfold PyStr.strip_by.
  assert (Hrs : PyStr.rstrip_by p (u ++ [c]) = u ++ [c]).
  { apply (rstrip_by_stop p u [] c Hc). constructor. }
  rewrite Hrs.
  destruct (PyStr.lstrip_by p (r ++ [c])) as [|a w] eqn:Hl.
  - destruct u; discriminate Hu.
  - rewrite <- Hu. apply (lstrip_by_fixed _ a w eq_refl).
    eapply lstrip_by_head. exact Hl.
Qed.

(** What [strip] removes at the two ends. *)
Lemma strip_by_split (s : list N) :
  exists pre post,
    s = pre ++ PyStr.strip_by p s ++ post
    /\ Forall (fun c => p c = true) pre /\ Forall (fun c => p c = true) post.
Proof.
  destruct (rstrip_by_split p s) as (post & Hs & Hpost).
  destruct (lstrip_by_split p (PyStr.rstrip_by p s)) as (pre & Hr & Hpre).
  exists pre, post. split; [|split; assumption].
  unfold PyStr.strip_by. transitivity (PyStr.rstrip_by p s ++ post);
    [exact Hs|].
  rewrite Hr at 1. rewrite <- app_assoc. reflexivity.
Qed.

End StripShape.

Lemma strip_idempotent (s : list N) :
  PyStr.strip (PyStr.strip s) = PyStr.strip s.
Proof. apply strip_by_idempotent. Qed.

Lemma filter_keeps_ok (nodes : list (list N)) :
  Forall chunk_ok (List.filter keeps nodes)
  /\ Forall (fun t => keeps t = true) (List.filter keeps nodes).
Proof.
  split; apply List.Forall_forall; intros t Ht; apply filter_In in Ht as [_ Ht].
  - apply strip_truthy_nonblank. exact Ht.
  - exact Ht.
Qed.

(** The run of extraction, case by case. *)
Lemma extract_text_from_pdf_run (env : Env) (pdf_path : list N)
    (page_numbers : option (list Z)) :
  DocumentIndexing.extract_text_from_pdf env pdf_path page_numbers
  = let start := EvPrint (u8 "正在提取 PDF 文字: " ++ pdf_path) in
    match extract_pages env pdf_path with
    | inl e =>
        ([start; EvExtractPages pdf_path;
          EvPrint (u8 "✗ PDF 提取失敗: " ++ exn_msg e)], inr [])
    | inr pages =>
        match PyStr.strip (DocumentIndexing.add_pages page_numbers 0 pages [])
        with
        | [] =>
            ([start; EvExtractPages pdf_path;
              EvPrint DocumentIndexing.MSG_NO_TEXT], inr [])
        | c :: rest =>
            match get_nodes_from_documents env (c :: rest) with
            | inl e =>
                ([start; EvExtractPages pdf_path; EvSplit (c :: rest);
                  EvPrint (u8 "✗ PDF 提取失敗: " ++ exn_msg e)], inr [])
            | inr nodes =>
                ([start; EvExtractPages pdf_path; EvSplit (c :: rest);
                  EvPrint (u8 "✓ 語意分割為 "
                           ++ len_str (List.filter keeps nodes)
                           ++ u8 " 個文字片段")],
                 inr (List.filter keeps nodes))
            end
        end
    end.
Proof.
  cbv zeta. unfold DocumentIndexing.extract_text_from_pdf.
  destruct (extract_pages env pdf_path) as [e|pages]; [reflexivity|].
  unfold call. cbn [bind try_except print ret app].
  destruct (PyStr.strip (DocumentIndexing.add_pages page_numbers 0 pages []))
    as [|c document]; [reflexivity|].
  cbn [PyStr.truthy negb].
  destruct (get_nodes_from_documents env (c :: document)); reflexivity.
Qed.

(** X4: extraction never raises and has four ways to end. When pdfminer
    raises, or the splitter raises, the error is printed and the result is
    the empty list; when the selected pages hold no text the no-text line
    is printed, the splitter is not called, and the result is empty;
    otherwise the splitter is called once, with the whole text stripped of
    leading and trailing whitespace (which is not empty and stays the same
    when stripped again), and the result is the splitter's chunks without
    the blank ones, in order. *)
Theorem extract_text_from_pdf_contract (env : Env) (pdf_path : list N)
    (page_numbers : option (list Z)) :
  let start := EvPrint (u8 "正在提取 PDF 文字: " ++ pdf_path) in
  let run := DocumentIndexing.extract_text_from_pdf env pdf_path page_numbers in
  (exists e,
      extract_pages env pdf_path = inl e
      /\ run = ([start; EvExtractPages pdf_path;
                 EvPrint (u8 "✗ PDF 提取失敗: " ++ exn_msg e)], inr []))
  \/ (exists pages,
         extract_pages env pdf_path = inr pages
         /\ PyStr.strip (DocumentIndexing.add_pages page_numbers 0 pages [])
            = []
         /\ run = ([start; EvExtractPages pdf_path;
                    EvPrint DocumentIndexing.MSG_NO_TEXT], inr []))
  \/ (exists pages document,
         extract_pages env pdf_path = inr pages
         /\ document
            = PyStr.strip (DocumentIndexing.add_pages page_numbers 0 pages [])
         /\ document <> [] /\ PyStr.strip document = document
         /\ ((exists e,
                 get_nodes_from_documents env document = inl e
                 /\ run = ([start; EvExtractPages pdf_path; EvSplit document;
                            EvPrint (u8 "✗ PDF 提取失敗: " ++ exn_msg e)],
                           inr []))
             \/ (exists nodes,
                    get_nodes_from_documents env document = inr nodes
                    /\ run = ([start; EvExtractPages pdf_path;
                               EvSplit document;
                               EvPrint (u8 "✓ 語意分割為 "
                                        ++ len_str (List.filter keeps nodes)
                                        ++ u8 " 個文字片段")],
                              inr (List.filter keeps nodes))
                    /\ Forall chunk_ok (List.filter keeps nodes)))).
Proof.
  intros start run. subst start run.
  rewrite extract_text_from_pdf_run. cbv zeta.
  destruct (extract_pages env pdf_path) as [e|pages].
  - left. exists e. split; reflexivity.
  - right.
    destruct (PyStr.strip (DocumentIndexing.add_pages page_numbers 0 pages []))
      as [|c document] eqn:Hdoc.
    + left. exists pages. split; [reflexivity|]. split; [exact Hdoc|].
      reflexivity.
    + right. exists pages, (c :: document).
      split; [reflexivity|]. split; [symmetry; exact Hdoc|].
      split; [discriminate|].
      split; [rewrite <- Hdoc; apply strip_idempotent|].
      destruct (get_nodes_from_documents env (c :: document)) as [e|nodes].
      * left. exists e. split; reflexivity.
      * right. exists nodes. split; [reflexivity|].
        split; [reflexivity|]. apply filter_keeps_ok.
Qed.

Lemma extract_text_from_pdf_chunks (env : Env) pdf_path page_numbers :
  exists chunks,
    outcome (DocumentIndexing.extract_text_from_pdf env pdf_path page_numbers)
    = inr chunks
    /\ Forall (fun t => keeps t = true) chunks.
Proof.
  rewrite extract_text_from_pdf_run. cbv zeta.
  destruct (extract_pages env pdf_path) as [e|pages];
    [eexists; split; [reflexivity|constructor]|].
  destruct (PyStr.strip (DocumentIndexing.add_pages page_numbers 0 pages []))
    as [|c document];
    [eexists; split; [reflexivity|constructor]|].
  destruct (get_nodes_from_documents env (c :: document)) as [e|nodes];
    (eexists; split; [reflexivity|]); [constructor|].
  apply List.Forall_forall. intros t Ht.
  apply filter_In in Ht as [_ Ht]. exact Ht.
Qed.

Lemma filter_all {A} (f : A -> bool) (l : list A) :
  Forall (fun x => f x = true) l -> List.filter f l = l.
Proof.
  induction 1 as [|x l Hx _ IH]; simpl; [reflexivity|].
  rewrite Hx, IH. reflexivity.
Qed.

Lemma enumerate_fst {A} (l : list A) :
  forall start, map fst (enumerate start l) = seq start (length l).
Proof.
  induction l as [|x l IH]; intros start; simpl; [reflexivity|].
  rewrite IH. reflexivity.
Qed.

Lemma enumerate_snd {A} (l : list A) :
  forall start, map snd (enumerate start l) = l.
Proof.
  induction l as [|x l IH]; intros start; simpl; [reflexivity|].
  rewrite IH. reflexivity.
Qed.

(** X5: for a PDF, extraction has already dropped the blank chunks, so
    the test in [process_documents_from_pdf] drops nothing: there is one
    document per chunk, in order, and the [paragraph_id]s are 0, 1, 2, ...
    without gaps; every document names the PDF as its source. *)
Theorem paragraph_ids_are_consecutive (env : Env) (pdf_path : list N)
    (page_numbers : option (list Z)) :
  exists chunks documents,
    outcome (DocumentIndexing.extract_text_from_pdf env pdf_path page_numbers)
    = inr chunks
    /\ outcome (DocumentIndexing.process_documents_from_pdf env pdf_path
                  page_numbers) = inr documents
    /\ map doc_text documents = chunks
    /\ map (doc_id (u8 "paragraph_id")) documents
       = map (fun i => Some (Z.of_nat i)) (seq 0 (length chunks))
    /\ Forall (fun doc => meta_get (u8 "source") (doc_metadata doc)
                          = Some (MStr pdf_path)) documents.
Proof.
  destruct (extract_text_from_pdf_chunks env pdf_path page_numbers)
    as (chunks & Hout & Hkeep).
  exists chunks. eexists. split; [exact Hout|].
  split; [|split; [|split]].
  - unfold DocumentIndexing.process_documents_from_pdf.
    rewrite outcome_bind, Hout, outcome_print_bind. cbn [ret outcome snd].
    rewrite documents_of_kept, filter_all; [reflexivity|].
    apply List.Forall_forall. intros [i t] Hin. cbn [snd].
    rewrite List.Forall_forall in Hkeep. apply Hkeep.
    rewrite <- (enumerate_snd chunks 0). apply (in_map snd _ _ Hin).
  - rewrite map_map. cbn [doc_text]. apply enumerate_snd.
  - rewrite map_map. rewrite <- (enumerate_fst chunks 0), map_map.
    apply map_ext. intros [i t]. cbn [fst snd]. unfold doc_id.
    cbn [doc_metadata].
    destruct (pdf_metadata_id pdf_path (Z.of_nat i)) as [-> _]. reflexivity.
  - apply List.Forall_forall. intros doc Hdoc.
    apply in_map_iff in Hdoc as ([i t] & <- & _). cbn [doc_metadata fst].
    destruct (pdf_metadata_id pdf_path (Z.of_nat i)) as [_ ->]. reflexivity.
Qed.

(** A run of X4 and X5 with a splitter that returns a blank chunk. *)
Example pdf_blank_chunk_is_dropped :
  outcome (DocumentIndexing.process_documents_from_pdf splitting_env
             (u8 "dl.pdf") None)
  = inr [mkDocument (u8 "Deep learning uses neural networks.")
           [(u8 "source", MStr (u8 "dl.pdf")); (u8 "paragraph_id", MInt 0);
            (u8 "source_type", MStr (u8 "pdf"))]].
Proof. vm_compute. reflexivity. Qed.

(** ** Pages, fragments and paragraphs ([document_indexing.py] 98-108,
    [main.py] 87-111) *)

Lemma page_texts_app (page : list Element) (rest : list (list N)) :
  concat (map DocumentIndexing.dehyphenate (element_texts page ++ rest))
  = concat (map DocumentIndexing.dehyphenate (element_texts page))
    ++ concat (map DocumentIndexing.dehyphenate rest).
Proof. rewrite map_app, concat_app. reflexivity. Qed.

Lemma indexing_add_pages_concat page_numbers (pages : list (list Element)) :
  forall i0 full_text,
    DocumentIndexing.add_pages page_numbers i0 pages full_text
    = full_text
      ++ concat (map DocumentIndexing.dehyphenate
                   (concat (map (fun entry => element_texts (snd entry))
                      (List.filter
                         (fun entry =>
                            DocumentIndexing.page_selected page_numbers
                              (fst entry))
                         (enumerate i0 pages))))).
Proof.
  induction pages as [|page pages IH]; intros i0 full_text;
    cbn [DocumentIndexing.add_pages enumerate List.filter fst].
  - cbn. rewrite app_nil_r. reflexivity.
  - rewrite IH. destruct (DocumentIndexing.page_selected page_numbers i0).
    + cbn [map concat snd]. rewrite add_page_concat, page_texts_app.
      rewrite <- app_assoc. reflexivity.
    + reflexivity.
Qed.

Lemma main_add_page_concat (page : list Element) (full_text : list N) :
  Main.add_page page full_text
  = full_text ++ concat (map (fun t => t ++ [PyStr.LF]) (element_texts page)).
Proof.
  revert full_text.
  induction page as [|[text|] page IH]; intros full_text; simpl.
  - rewrite app_nil_r. reflexivity.
  - rewrite IH, <- !app_assoc. reflexivity.
  - apply IH.
Qed.

Lemma main_add_pages_concat page_numbers (pages : list (list Element)) :
  forall i0 full_text,
    Main.add_pages page_numbers i0 pages full_text
    = full_text
      ++ concat (map (fun t => t ++ [PyStr.LF])
                   (concat (map (fun entry => element_texts (snd entry))
                      (List.filter
                         (fun entry =>
                            DocumentIndexing.page_selected page_numbers
                              (fst entry))
                         (enumerate i0 pages))))).
Proof.
  induction pages as [|page pages IH]; intros i0 full_text;
    cbn [Main.add_pages enumerate List.filter fst].
  - cbn. rewrite app_nil_r. reflexivity.
  - rewrite IH. destruct (DocumentIndexing.page_selected page_numbers i0).
    + cbn [map concat snd]. rewrite main_add_page_concat.
      rewrite map_app, concat_app, <- app_assoc. reflexivity.
    + reflexivity.
Qed.

Lemma page_not_selected (l : list Z) (n i : nat) :
  Forall (fun z => (z < 0)%Z \/ (Z.of_nat n <= z)%Z) l -> i < n ->
  DocumentIndexing.page_selected (Some l) i = false.
Proof.
  intros Hl Hi. cbn [DocumentIndexing.page_selected].
  induction Hl as [|z l Hz _ IH]; [reflexivity|].
  cbn [existsb]. rewrite IH, orb_false_r. apply Z.eqb_neq. lia.
Qed.

(** X6: both extractors read the text elements of the selected pages in
    page order and element order; elements without text and pages that are
    not selected add nothing. [document_indexing.py] joins the
    de-hyphenated fragments with nothing in between, [main.py] ends every
    fragment with a line break. Without page numbers every page is
    selected; page numbers that are negative or beyond the last page
    select nothing. *)
Theorem selected_pages_are_read_in_order (page_numbers : option (list Z))
    (pages : list (list Element)) :
  DocumentIndexing.add_pages page_numbers 0 pages []
  = concat (map DocumentIndexing.dehyphenate
                (selected_texts page_numbers pages))
  /\ Main.add_pages page_numbers 0 pages []
     = concat (map (fun t => t ++ [PyStr.LF])
                   (selected_texts page_numbers pages))
  /\ selected_texts None pages = concat (map element_texts pages)
  /\ (forall l,
         Forall (fun z => (z < 0)%Z \/ (Z.of_nat (length pages) <= z)%Z) l ->
         selected_texts (Some l) pages = []).
Proof.
  split; [apply (indexing_add_pages_concat page_numbers pages 0 [])|].
  split; [apply (main_add_pages_concat page_numbers pages 0 [])|].
  unfold selected_texts. split.
  - cbn [DocumentIndexing.page_selected].
    rewrite filter_all by (apply List.Forall_forall; reflexivity).
    rewrite <- (enumerate_snd pages 0) at 2. rewrite map_map. reflexivity.
  - intros l Hl.
    assert (Hnone : List.filter
              (fun entry => DocumentIndexing.page_selected (Some l) (fst entry))
              (enumerate 0 pages) = []).
    { assert (Hgen : forall i0 (ps : list (list Element)),
                 i0 + length ps <= length pages ->
                 List.filter
                   (fun entry =>
                      DocumentIndexing.page_selected (Some l) (fst entry))
                   (enumerate i0 ps) = []).
      { intros i0 ps. revert i0.
        induction ps as [|pg ps IH]; intros i0 Hle; [reflexivity|].
        cbn [enumerate List.filter fst length] in *.
        rewrite (page_not_selected l (length pages) i0 Hl) by lia.
        apply IH. lia. }
      apply Hgen. simpl. lia. }
    rewrite Hnone. reflexivity.
Qed.

Lemma selected_pages_are_read_in_order_witness :
  selected_texts (Some [(-1)%Z; 7%Z])
    [[LTTextContainer (u8 "a")]; [LTOther; LTTextContainer (u8 "b")]]
  = [].
Proof.
  apply (selected_pages_are_read_in_order (Some [(-1)%Z; 7%Z])
           [[LTTextContainer (u8 "a")]; [LTOther; LTTextContainer (u8 "b")]]).
  repeat constructor; simpl; lia.
Defined.

Lemma endswith_split (text suffix : list N) :
  PyStr.endswith text suffix = true -> exists u, text = u ++ suffix.
Proof.
  unfold PyStr.endswith, PyStr.eqb. intros H.
  apply andb_prop in H as [_ H]. apply bool_decide_eq_true in H.
  exists (take (length text - length suffix) text).
  rewrite <- H at 2. symmetry. apply take_drop.
Qed.

(** X7: de-hyphenation only ever trims the end of a fragment: what is
    left is a prefix, what is dropped are hyphens and line breaks. Nothing
    is dropped exactly when the fragment does not end in a hyphen and a
    line break; otherwise at least these two characters go, and what is
    left does not end in a hyphen or a line break. *)
Theorem dehyphenate_only_trims_the_end (text : list N) :
  exists dropped,
    text = DocumentIndexing.dehyphenate text ++ dropped
    /\ Forall (fun c => c = PyStr.HYPHEN \/ c = PyStr.LF) dropped
    /\ (PyStr.endswith text [PyStr.HYPHEN; PyStr.LF] = false
        <-> dropped = [])
    /\ (PyStr.endswith text [PyStr.HYPHEN; PyStr.LF] = true ->
        2 <= length dropped
        /\ forall u c, DocumentIndexing.dehyphenate text = u ++ [c] ->
                       c <> PyStr.HYPHEN /\ c <> PyStr.LF).
Proof.
  destruct (dehyphenate_prefix text) as (dropped & Heq & Hdropped).
  exists dropped. split; [exact Heq|]. split; [exact Hdropped|].
  assert (Hlast : PyStr.endswith text [PyStr.HYPHEN; PyStr.LF] = true ->
                  forall u c, DocumentIndexing.dehyphenate text = u ++ [c] ->
                              c <> PyStr.HYPHEN /\ c <> PyStr.LF).
  { intros Hend u c Hu. unfold DocumentIndexing.dehyphenate in Hu.
    rewrite Hend in Hu. unfold PyStr.rstrip in Hu.
    apply rstrip_by_last in Hu. unfold PyStr.in_chars in Hu. simpl in Hu.
    apply orb_false_elim in Hu as [H1 Hu].
    apply orb_false_elim in Hu as [H2 _].
    apply N.eqb_neq in H1, H2. split; assumption. }
  assert (Hlen : PyStr.endswith text [PyStr.HYPHEN; PyStr.LF] = true ->
                 2 <= length dropped).
  { intros Hend. destruct (endswith_split _ _ Hend) as (v & Hv).
    specialize (Hlast Hend).
    destruct dropped as [|d1 [|d2 dropped]]; [| |simpl; lia].
    - rewrite app_nil_r in Heq. rewrite <- Heq, Hv in Hlast.
      destruct (Hlast (v ++ [PyStr.HYPHEN]) PyStr.LF) as [_ Habs];
        [rewrite <- app_assoc; reflexivity|congruence].
    - assert (Heq' : (v ++ [PyStr.HYPHEN]) ++ [PyStr.LF]
                     = DocumentIndexing.dehyphenate text ++ [d1]).
      { rewrite <- Heq, Hv, <- app_assoc. reflexivity. }
      apply app_inj_tail in Heq' as [Heq' _].
      destruct (Hlast v PyStr.HYPHEN) as [Habs _];
        [symmetry; exact Heq'|congruence]. }
  split; [|intros Hend; split; [apply Hlen; exact Hend|apply Hlast; exact Hend]].
  split.
  - intros Hend. rewrite (dehyphenate_other text Hend) in Heq.
    rewrite <- (app_nil_r text) in Heq at 1.
    apply app_inv_head in Heq. congruence.
  - intros ->.
    destruct (PyStr.endswith text [PyStr.HYPHEN; PyStr.LF]) eqn:Hend;
      [|reflexivity].
    specialize (Hlen eq_refl). simpl in Hlen. lia.
Qed.

Lemma dehyphenate_only_trims_the_end_witness :
  exists dropped,
    u8 "wait--
" = DocumentIndexing.dehyphenate (u8 "wait--
") ++ dropped
    /\ Forall (fun c => c = PyStr.HYPHEN \/ c = PyStr.LF) dropped
    /\ (PyStr.endswith (u8 "wait--
") [PyStr.HYPHEN; PyStr.LF] = false <-> dropped = [])
    /\ (PyStr.endswith (u8 "wait--
") [PyStr.HYPHEN; PyStr.LF] = true ->
        2 <= length dropped
        /\ forall u c, DocumentIndexing.dehyphenate (u8 "wait--
") = u ++ [c] -> c <> PyStr.HYPHEN /\ c <> PyStr.LF).
Proof.
  exact (dehyphenate_only_trims_the_end (u8 "wait--
")).
Defined.

(** *** Paragraphs of [main.py] *)

Lemma split_no_sep (sep : N) (s : list N) :
  Forall (fun line => ~ In sep line) (PyStr.split sep s)
  /\ PyStr.split sep s <> [].
Proof.
  induction s as [|c s [IH Hne]]; simpl.
  - split; [repeat constructor; auto|discriminate].
  - destruct (c =? sep)%N eqn:Hc.
    + split; [constructor; [auto|exact IH]|discriminate].
    + destruct (PyStr.split sep s) as [|h t]; [congruence|].
      split; [|discriminate].
      apply List.Forall_cons_iff in IH as [Hh Ht].
      constructor; [|exact Ht].
      intros [->|Hin]; [|exact (Hh Hin)].
      rewrite N.eqb_refl in Hc. discriminate.
Qed.

Lemma strip_by_incl (p : N -> bool) (s : list N) c :
  In c (PyStr.strip_by p s) -> In c s.
Proof.
  intros Hc. destruct (strip_by_split p s) as (pre & post & Hs & _).
  rewrite Hs. apply in_or_app. right. apply in_or_app. left. exact Hc.
Qed.

Lemma buffer_piece_no_break (text : list N) :
  ~ In PyStr.LF text -> ~ In PyStr.LF (Main.buffer_piece text).
Proof.
  intros Ht. unfold Main.buffer_piece.
  destruct (negb (PyStr.endswith text [PyStr.HYPHEN])).
  - intros [Habs|Hin]; [discriminate Habs|exact (Ht Hin)].
  - intros Hin. apply Ht. eapply strip_by_incl. exact Hin.
Qed.

Lemma collect_paragraphs (min_line_length : nat) (lines : list (list N)) :
  forall buffer paragraphs,
    Forall (fun line => ~ In PyStr.LF line) lines ->
    ~ In PyStr.LF buffer ->
    Forall (fun par => par <> [] /\ ~ In PyStr.LF par) paragraphs ->
    Forall (fun par => par <> [] /\ ~ In PyStr.LF par)
           (Main.collect min_line_length lines buffer paragraphs).
Proof.
  induction lines as [|text lines IH]; intros buffer paragraphs Hl Hb Hp;
    cbn [Main.collect].
  - destruct buffer as [|c buffer]; cbn [PyStr.truthy]; [exact Hp|].
    apply Forall_app. split; [exact Hp|].
    constructor; [|constructor]. split; [discriminate|exact Hb].
  - apply List.Forall_cons_iff in Hl as [Ht Hl].
    destruct (min_line_length <=? length text)%nat.
    + apply IH; [exact Hl| |exact Hp].
      intros Hin. apply in_app_or in Hin as [Hin|Hin]; [exact (Hb Hin)|].
      exact (buffer_piece_no_break text Ht Hin).
    + destruct buffer as [|c buffer]; cbn [PyStr.truthy].
      * apply IH; [exact Hl|exact Hb|exact Hp].
      * apply IH; [exact Hl|intros []|].
        apply Forall_app. split; [exact Hp|].
        constructor; [|constructor]. split; [discriminate|exact Hb].
Qed.

(** X8: a paragraph returned by [RAGSystem.extract_text_from_pdf] is
    never empty and holds no line break, whatever the pages, the page
    filter and the minimal line length. *)
Theorem paragraphs_are_nonempty_single_lines (pages : list (list Element))
    (page_numbers : option (list Z)) (min_line_length : nat) :
  Forall (fun par => par <> [] /\ ~ In PyStr.LF par)
         (Main.paragraphs_of pages page_numbers min_line_length).
Proof.
  unfold Main.paragraphs_of.
  apply collect_paragraphs; [|intros []|constructor].
  apply split_no_sep.
Qed.

(** A paragraph can still be blank: a line of spaces is long enough to
    be kept. *)
Example paragraph_of_spaces :
  Main.paragraphs_of [[LTTextContainer (u8 "  ")]] None Config.MIN_LINE_LENGTH
  = [u8 "   "].
Proof. vm_compute. reflexivity. Qed.

(** ** The matching loop again ([local_query.py], 182-189) *)

Lemma find_node_first (nodes : list Node) document j node :
  LocalQuery.find_node nodes document = Some (j, node) ->
  first_at (map node_text nodes) j.
Proof.
  unfold LocalQuery.find_node. intros H.
  apply list_find_Some in H as (Hj & Htext & Hmin).
  exists document. split.
  - change (map node_text nodes) with (node_text <$> nodes).
    rewrite list_lookup_fmap, Hj. simpl. congruence.
  - intros i Hi Habs.
    change (map node_text nodes) with (node_text <$> nodes) in Habs.
    rewrite list_lookup_fmap in Habs.
    destruct (nodes !! i) as [m|] eqn:Hm; [|discriminate].
    injection Habs as Habs. exact (Hmin i m Hm Hi Habs).
Qed.

Lemma rematch_refs_first (results : list RankResult) :
  forall (nodes : list Node) (refs : list nat),
    Forall (first_at (map node_text nodes)) refs ->
    Forall (first_at (map node_text nodes))
           (snd (LocalQuery.rematch results nodes refs)).
Proof.
  induction results as [|r rest IH]; intros nodes refs Hrefs;
    cbn [LocalQuery.rematch]; [exact Hrefs|].
  destruct (LocalQuery.find_node nodes (rr_document r)) as [[j0 node]|]
    eqn:Hfind; [|apply IH; exact Hrefs].
  pose proof (find_node_first nodes _ _ _ Hfind) as Hfirst.
  apply find_node_Some in Hfind as (Hj0 & _).
  rewrite <- (set_score_insert_text nodes j0 node (rr_score r) Hj0).
  apply IH. rewrite (set_score_insert_text nodes j0 node (rr_score r) Hj0).
  apply Forall_app. split; [exact Hrefs|]. constructor; [exact Hfirst|constructor].
Qed.

Lemma Forall2_eq_map {A B C} (f : A -> C) (g : B -> C) (xs : list A)
    (ys : list B) :
  Forall2 (fun x y => f x = g y) xs ys -> map f xs = map g ys.
Proof.
  induction 1 as [|x y xs ys Hxy _ IH]; simpl; [reflexivity|].
  rewrite Hxy, IH. reflexivity.
Qed.

(** X9: the texts of the nodes that leave the rerank stage are exactly
    the documents of the rerank results that are the text of some retrieved
    node, in the reranker's order; a result whose document is the text of
    no node is dropped. Every node that leaves is the first retrieved node
    with its text: of several nodes with one text only the first can appear,
    and its metadata stands for all of them. *)
Theorem rerank_keeps_first_node_per_text (nodes : list Node)
    (results : list RankResult) :
  map node_text (LocalQuery.reranked_source_nodes nodes results)
  = map rr_document (matched (map node_text nodes) results)
  /\ Forall (fun n => exists j m,
                 nodes !! j = Some m
                 /\ node_text m = node_text n
                 /\ node_metadata m = node_metadata n
                 /\ forall i m', i < j -> nodes !! i = Some m' ->
                                 node_text m' <> node_text n)
            (LocalQuery.reranked_source_nodes nodes results).
Proof.
  destruct (rematch_spec results nodes [])
    as (store & refs & Heq & Hst & Hsm & Hmatched & _ & Hnew).
  cbn [app] in Heq.
  pose proof (rematch_refs_first results nodes [] (Forall_nil_2 _)) as Hfirst.
  rewrite Heq in Hfirst. cbn [snd] in Hfirst.
  assert (Hout : Forall2 (fun j n => store !! j = Some n) refs
                   (LocalQuery.reranked_source_nodes nodes results)).
  { unfold LocalQuery.reranked_source_nodes. rewrite Heq.
    apply deref_valid. apply Forall_forall. intros j Hj.
    destruct (Hnew j Hj) as (n' & _ & Hn' & _). eauto. }
  assert (Htext : forall j n, store !! j = Some n ->
                    map node_text nodes !! j = Some (node_text n)).
  { intros j n Hn. rewrite <- Hst.
    change (map node_text store) with (node_text <$> store).
    rewrite list_lookup_fmap, Hn. reflexivity. }
  split.
  - apply Forall2_eq_map.
    apply (Forall2_share_left _ _ _ refs _ _ Hout Hmatched).
    intros j n r _ _ Hn Hr. apply Htext in Hn. congruence.
  - apply Forall_forall. intros n Hn.
    apply list_elem_of_lookup in Hn as (k & Hk).
    destruct (Forall2_lookup_r _ _ _ _ _ Hout Hk) as (j & Hj & Hstore).
    rewrite Forall_forall in Hfirst.
    destruct (Hfirst j (list_elem_of_lookup_2 _ _ _ Hj)) as (t & Ht & Hmin).
    pose proof (Htext j n Hstore) as Htn.
    assert (t = node_text n) by congruence. subst t.
    assert (Hmeta : map node_metadata nodes !! j = Some (node_metadata n)).
    { rewrite <- Hsm. change (map node_metadata store)
        with (node_metadata <$> store).
      rewrite list_lookup_fmap, Hstore. reflexivity. }
    change (map node_text nodes) with (node_text <$> nodes) in Htn.
    change (map node_metadata nodes) with (node_metadata <$> nodes) in Hmeta.
    rewrite list_lookup_fmap in Htn. rewrite list_lookup_fmap in Hmeta.
    destruct (nodes !! j) as [m|] eqn:Hm; [|discriminate].
    injection Htn as Htn. injection Hmeta as Hmeta.
    exists j, m. split; [exact Hm|]. split; [exact Htn|].
    split; [exact Hmeta|].
    intros i m' Hi Hm' Habs. apply (Hmin i Hi).
    change (map node_text nodes) with (node_text <$> nodes).
    rewrite list_lookup_fmap, Hm'. simpl. congruence.
Qed.

(** Two retrieved nodes with one text: whatever the reranker returns for
    them, the source shown twice is the first node. *)
Example twin_nodes_show_the_first :
  map node_metadata
      (LocalQuery.reranked_source_nodes twin_nodes
         [mkRankResult (u8 "Deep learning uses neural networks.") 0.9;
          mkRankResult (u8 "Deep learning uses neural networks.") 0.9])
  = [[(u8 "source", MStr (u8 "first.pdf"))];
     [(u8 "source", MStr (u8 "first.pdf"))]].
Proof. vm_compute. reflexivity. Qed.

(** ** The order of the pipeline ([local_query.py], [query_service.py]) *)

Lemma pipeline_calls_app (t1 t2 : list Event) :
  pipeline_calls (t1 ++ t2) = pipeline_calls t1 ++ pipeline_calls t2.
Proof. apply List.filter_app. Qed.

Lemma reports_no_pipeline (t : list Event) :
  Forall is_report t -> pipeline_calls t = [] /\ write_calls t = [].
Proof.
  induction 1 as [|ev t Hev _ [IH1 IH2]]; [split; reflexivity|].
  unfold pipeline_calls, write_calls in *. cbn [List.filter flat_map].
  rewrite IH1, IH2. destruct ev; try contradiction; split; reflexivity.
Qed.


Lemma local_engine_response_count (env : Env) q top_k :
  LocalQuery.engine_response env q top_k
  = call (EvEngineQuery (Some (LocalQuery.template_text
                                 LocalQuery.custom_template))
                        (int_or top_k Config.SIMILARITY_TOP_K) q)
         (engine_query env
            (Some (LocalQuery.template_text LocalQuery.custom_template))
            (int_or top_k Config.SIMILARITY_TOP_K) q).
Proof.
  unfold LocalQuery.engine_response, overrides_default, int_or.
  destruct top_k as [k|]; [|reflexivity].
  destruct (k =? 0)%Z eqn:H0; [reflexivity|]. cbn [negb andb].
  destruct (k =? Config.SIMILARITY_TOP_K)%Z eqn:H5; [|reflexivity].
  apply Z.eqb_eq in H5. subst k. reflexivity.
Qed.

Lemma service_engine_response_count (env : Env) q top_k :
  QueryService.engine_response env q top_k
  = call (EvEngineQuery None (int_or top_k Config.SIMILARITY_TOP_K) q)
         (engine_query env None (int_or top_k Config.SIMILARITY_TOP_K) q).
Proof.
  unfold QueryService.engine_response, overrides_default, int_or.
  destruct top_k as [k|]; [|reflexivity].
  destruct (k =? 0)%Z eqn:H0; [reflexivity|]. cbn [negb andb].
  destruct (k =? Config.SIMILARITY_TOP_K)%Z eqn:H5; [|reflexivity].
  apply Z.eqb_eq in H5. subst k. reflexivity.
Qed.

(** The rerank path in full, whatever the collaborators do. *)
Lemma rerank_response_cases (env : Env) q top_k :
  let k := int_or top_k Config.SIMILARITY_TOP_K in
  LocalQuery.rerank_response env q top_k
  = match retrieve env (k * 2)%Z q with
    | inl e =>
        ([EvPrint (u8 "🔄 使用重排模型進行查詢..."); EvRetrieve (k * 2)%Z q],
         inl e)
    | inr nodes =>
        match rank env q (map node_text nodes) k with
        | inl e =>
            ([EvPrint (u8 "🔄 使用重排模型進行查詢...");
              EvRetrieve (k * 2)%Z q; EvRank q (map node_text nodes) k],
             inl e)
        | inr results =>
            ([EvPrint (u8 "🔄 使用重排模型進行查詢...");
              EvRetrieve (k * 2)%Z q; EvRank q (map node_text nodes) k;
              EvPrint (u8 "✓ 重排完成，選出前 " ++ len_str results
                       ++ u8 " 個最相關文檔");
              EvComplete
                (LocalQuery.format LocalQuery.custom_template
                   (PyStr.join [PyStr.LF; PyStr.LF]
                      (map rr_document results)) q)],
             match complete env
                     (LocalQuery.format LocalQuery.custom_template
                        (PyStr.join [PyStr.LF; PyStr.LF]
                           (map rr_document results)) q) with
             | inl e => inl e
             | inr text =>
                 inr (mkResponse text
                        (LocalQuery.reranked_source_nodes nodes results))
             end)
        end
    end.
Proof.
  intros k. subst k.
  destruct (retrieve env _ q) as [e|nodes] eqn:Hret.
  - unfold LocalQuery.rerank_response. rewrite Hret. reflexivity.
  - destruct (rank env q _ _) as [e|results] eqn:Hrank.
    + apply (rerank_response_rank_raises env q top_k nodes e Hret Hrank).
    + apply (rerank_response_ranked env q top_k nodes results Hret Hrank).
Qed.


(** A run of [query]: the opening line, the stage, the result being
    built, and the failure line when something raised. *)
Lemma query_trace (env : Env) q top_k show_sources use_rerank :
  trace (LocalQuery.query env q top_k show_sources use_rerank)
  = [EvPrint (u8 "🔍 查詢問題: " ++ q)]
    ++ trace (if use_rerank then LocalQuery.rerank_response env q top_k
              else LocalQuery.engine_response env q top_k)
    ++ match outcome (if use_rerank
                      then LocalQuery.rerank_response env q top_k
                      else LocalQuery.engine_response env q top_k) with
       | inr response =>
           trace (LocalQuery.finish_query env q show_sources response)
       | inl _ => []
       end
    ++ match outcome (LocalQuery.query_body env q top_k show_sources
                        use_rerank) with
       | inl e => [EvPrint (u8 "✗ " ++ LocalQuery.FAILURE_PREFIX ++ exn_msg e)]
       | inr _ => []
       end.
Proof.
  unfold LocalQuery.query. rewrite trace_try_except.
  unfold LocalQuery.query_body at 1.
  rewrite trace_print_bind, trace_bind. cbn [app]. rewrite <- !app_assoc.
  do 3 f_equal.
Qed.

Lemma query_trace_tail_reports (env : Env) q top_k
    (show_sources use_rerank : bool) :
  Forall is_report
    (match outcome (if use_rerank
                    then LocalQuery.rerank_response env q top_k
                    else LocalQuery.engine_response env q top_k) with
     | inr response =>
         trace (LocalQuery.finish_query env q show_sources response)
     | inl _ => []
     end
     ++ match outcome (LocalQuery.query_body env q top_k show_sources
                         use_rerank) with
        | inl e =>
            [EvPrint (u8 "✗ " ++ LocalQuery.FAILURE_PREFIX ++ exn_msg e)]
        | inr _ => []
        end).
Proof.
  apply Forall_app. split.
  - destruct (outcome (if use_rerank then _ else _));
      [constructor|apply finish_query_reports].
  - destruct (outcome (LocalQuery.query_body _ _ _ _ _));
      repeat constructor.
Qed.

(** Without reranking a query is one call to the query engine. *)
Lemma engine_query_calls (env : Env) (q : list N) (top_k : option Z)
    (show_sources : bool) :
  pipeline_calls (trace (LocalQuery.query env q top_k show_sources false))
  = [EvEngineQuery
       (Some (LocalQuery.template_text LocalQuery.custom_template))
       (int_or top_k Config.SIMILARITY_TOP_K) q].
Proof.
  rewrite query_trace, !pipeline_calls_app.
  rewrite <- pipeline_calls_app.
  destruct (reports_no_pipeline _
              (query_trace_tail_reports env q top_k show_sources false))
    as [-> _].
  rewrite local_engine_response_count. reflexivity.
Qed.

(** X10: the calls a query makes to the retrieval pipeline. Without
    reranking it is one call to the query engine, with the custom template
    and with [top_k], or the default 5 when [top_k] is unset or 0; the
    service does the same without a template. With reranking the calls
    are, in this order, the retriever for 2k, the reranker for k on the
    texts retrieved, and the generation model on the template filled with
    all documents of the rerank results joined by blank lines; the first
    call that raises is the last. *)
Theorem query_pipeline_calls (env : Env) (q : list N) (top_k : option Z)
    (show_sources : bool) :
  let k := int_or top_k Config.SIMILARITY_TOP_K in
  pipeline_calls (trace (LocalQuery.query env q top_k show_sources false))
  = [EvEngineQuery
       (Some (LocalQuery.template_text LocalQuery.custom_template)) k q]
  /\ pipeline_calls (trace (QueryService.query env q top_k))
     = [EvEngineQuery None k q]
  /\ pipeline_calls (trace (LocalQuery.query env q top_k show_sources true))
     = EvRetrieve (k * 2)%Z q
       :: match retrieve env (k * 2)%Z q with
          | inl _ => []
          | inr nodes =>
              EvRank q (map node_text nodes) k
              :: match rank env q (map node_text nodes) k with
                 | inl _ => []
                 | inr results =>
                     [EvComplete
                        (LocalQuery.format LocalQuery.custom_template
                           (PyStr.join [PyStr.LF; PyStr.LF]
                              (map rr_document results)) q)]
                 end
          end.
Proof.
  intros k. subst k. split; [|split].
  - apply engine_query_calls.
  - unfold QueryService.query.
    rewrite trace_try_except, trace_bind, outcome_bind.
    rewrite service_engine_response_count. cbn [call trace fst outcome snd].
    destruct (engine_query env None _ q); reflexivity.
  - rewrite query_trace, !pipeline_calls_app.
    rewrite <- pipeline_calls_app.
    destruct (reports_no_pipeline _
                (query_trace_tail_reports env q top_k show_sources true))
      as [-> _].
    pose proof (rerank_response_cases env q top_k) as H. cbv zeta in H.
    rewrite H.
    destruct (retrieve env _ q) as [e|nodes]; [reflexivity|].
    destruct (rank env q _ _) as [e|results]; reflexivity.
Qed.

(** ** The query log ([local_query.py] 243-251, [logging_config.py]) *)








(** ** Batches ([local_query.py], 371-398) *)






(** ** The documents-only paths and the service's errors *)

Lemma print_document_returns (env : Env) entry :
  outcome (LocalQuery.print_document env entry) = inr tt.
Proof.
  destruct entry as [i node]. unfold LocalQuery.print_document.
  rewrite outcome_print_bind, outcome_bind.
  destruct (meta_get _ _); cbn [print ret outcome snd];
    rewrite outcome_bind; destruct (meta_get _ _); reflexivity.
Qed.

Lemma print_documents_return (env : Env) entries :
  outcome (for_each entries (LocalQuery.print_document env)) = inr tt.
Proof.
  induction entries as [|entry entries IH]; [reflexivity|].
  cbn [for_each]. rewrite outcome_bind, print_document_returns. exact IH.
Qed.

Lemma local_documents_outcome (env : Env) (q : list N) (top_k : option Z) :
  outcome (LocalQuery.get_relevant_documents env q top_k)
  = inr (match retrieve env (int_or top_k Config.SIMILARITY_TOP_K) q with
         | inr nodes => map LocalQuery.source_info nodes
         | inl _ => []
         end).
Proof.
  unfold LocalQuery.get_relevant_documents.
  rewrite outcome_try_except, outcome_print_bind, outcome_bind.
  rewrite local_retrieve_nodes_count. cbn [call outcome snd].
  destruct (retrieve env _ q) as [e|nodes]; [reflexivity|].
  rewrite outcome_print_bind, outcome_bind, print_documents_return.
  reflexivity.
Qed.

Lemma local_documents_calls (env : Env) (q : list N) (top_k : option Z) :
  pipeline_calls (trace (LocalQuery.get_relevant_documents env q top_k))
  = [EvRetrieve (int_or top_k Config.SIMILARITY_TOP_K) q].
Proof.
  unfold LocalQuery.get_relevant_documents.
  rewrite trace_try_except, trace_print_bind, trace_bind.
  rewrite local_retrieve_nodes_count. cbn [call trace fst outcome snd].
  match goal with
  | |- pipeline_calls ((?p :: [?r] ++ ?t1) ++ ?t2) = _ =>
      assert (H1 : Forall is_report t1);
        [|assert (H2 : Forall is_report t2)]
  end.
  - destruct (retrieve env _ q) as [e|nodes]; [constructor|].
    repeat (step_trace; try exact I). apply print_document_reports.
  - match goal with |- Forall _ match ?o with _ => _ end => destruct o end;
      [|constructor].
    repeat (step_trace; try exact I).
  - apply reports_no_pipeline in H1 as [H1 _].
    apply reports_no_pipeline in H2 as [H2 _].
    rewrite pipeline_calls_app, H2, app_nil_r.
    match goal with
    | |- pipeline_calls (?p :: [?r] ++ ?t1) = _ =>
        change (p :: [r] ++ t1) with ([p; r] ++ t1)
    end.
    rewrite pipeline_calls_app, H1. reflexivity.
Qed.

(** X13: the local documents-only path never raises. It asks the
    retriever once, for [top_k] or the default; when the retriever raises
    the error is printed and the result is the empty list, as for a search
    without hits; otherwise the result has one entry per node, in order,
    with the node's full text, score and metadata. *)
Theorem local_documents_never_raise (env : Env) (q : list N)
    (top_k : option Z) :
  let k := int_or top_k Config.SIMILARITY_TOP_K in
  outcome (LocalQuery.get_relevant_documents env q top_k)
  = inr (match retrieve env k q with
         | inr nodes => map LocalQuery.source_info nodes
         | inl _ => []
         end)
  /\ pipeline_calls (trace (LocalQuery.get_relevant_documents env q top_k))
     = [EvRetrieve k q]
  /\ match retrieve env k q with
     | inl e =>
         trace (LocalQuery.get_relevant_documents env q top_k)
         = [EvPrint (u8 "🔍 檢索相關文檔: " ++ q); EvRetrieve k q;
            EvPrint (u8 "✗ 文檔檢索失敗: " ++ exn_msg e)]
     | inr nodes =>
         map src_text
             (map LocalQuery.source_info nodes) = map node_text nodes
     end.
Proof.
  intros k. subst k. split; [|split].
  - apply local_documents_outcome.
  - apply local_documents_calls.
  - destruct (retrieve env _ q) as [e|nodes] eqn:Hret.
    + unfold LocalQuery.get_relevant_documents.
      rewrite local_retrieve_nodes_count. unfold call. rewrite Hret.
      reflexivity.
    + rewrite map_map. reflexivity.
Qed.

Lemma strip_blank (s : list N) : PyStr.blank s -> PyStr.strip s = [].
Proof.
  intros H. apply strip_empty_iff_blank in H.
  destruct (PyStr.strip s); [reflexivity|discriminate H].
Qed.

(** X14: the service turns every failure of its collaborators into an
    HTTP error with status 500 whose detail is a fixed prefix and the
    error's message; a successful documents request reports as
    [total_count] the number of nodes retrieved. The two endpoints refuse a
    question that is empty or whitespace-only with status 400 before any
    collaborator is called, and hand every other question on unchanged. *)
Theorem service_failures_are_http_errors (env : Env) (q : list N)
    (top_k : option Z) :
  let k := int_or top_k Config.SIMILARITY_TOP_K in
  QueryService.query env q top_k
  = ([EvEngineQuery None k q],
     match engine_query env None k q with
     | inr response =>
         inr (mkQueryResult q (resp_text response)
                (map QueryService.source_info (source_nodes response))
                (elapsed env))
     | inl e => inl (HTTPException 500 (u8 "查詢處理失敗: " ++ exn_msg e))
     end)
  /\ QueryService.get_relevant_documents env q top_k
     = ([EvRetrieve k q],
        match retrieve env k q with
        | inr nodes =>
            inr (QueryService.mkRelevantDocs q
                   (map QueryService.doc_info nodes) (length nodes))
        | inl e => inl (HTTPException 500 (u8 "文檔檢索失敗: " ++ exn_msg e))
        end)
  /\ (PyStr.blank q ->
      QueryService.query_endpoint env q top_k
      = ([], inl (HTTPException 400 (u8 "問題不能為空")))
      /\ QueryService.relevant_docs_endpoint env q top_k
         = ([], inl (HTTPException 400 (u8 "問題不能為空"))))
  /\ (~ PyStr.blank q ->
      QueryService.query_endpoint env q top_k
      = QueryService.query env q top_k
      /\ QueryService.relevant_docs_endpoint env q top_k
         = QueryService.get_relevant_documents env q top_k).
Proof.
  intros k. subst k. split; [|split; [|split]].
  - unfold QueryService.query.
    rewrite service_engine_response_count. unfold call.
    destruct (engine_query env None _ q) as [e|response]; reflexivity.
  - unfold QueryService.get_relevant_documents.
    rewrite service_retrieve_nodes_count. unfold call.
    destruct (retrieve env _ q) as [e|nodes]; [reflexivity|].
    cbn [bind try_except ret app]. rewrite length_map. reflexivity.
  - intros Hb. unfold QueryService.query_endpoint,
      QueryService.relevant_docs_endpoint.
    rewrite (strip_blank q Hb). split; reflexivity.
  - intros Hb. unfold QueryService.query_endpoint,
      QueryService.relevant_docs_endpoint.
    apply keeps_iff_not_blank in Hb. unfold keeps in Hb. rewrite Hb.
    split; reflexivity.
Qed.

Lemma service_failures_are_http_errors_witness :
  (QueryService.query_endpoint quiet_env (u8 "  ") None
   = ([], inl (HTTPException 400 (u8 "問題不能為空")))
   /\ QueryService.relevant_docs_endpoint quiet_env (u8 "  ") None
      = ([], inl (HTTPException 400 (u8 "問題不能為空"))))
  /\ (QueryService.query_endpoint quiet_env (u8 "q") None
      = QueryService.query quiet_env (u8 "q") None
      /\ QueryService.relevant_docs_endpoint quiet_env (u8 "q") None
         = QueryService.get_relevant_documents quiet_env (u8 "q") None).
Proof.
  split.
  - apply (service_failures_are_http_errors quiet_env (u8 "  ") None).
    vm_compute. repeat constructor.
  - apply (service_failures_are_http_errors quiet_env (u8 "q") None).
    apply keeps_iff_not_blank. vm_compute. reflexivity.
Defined.

(** ** A directory of files ([document_indexing.py], 243-284) *)

Lemma extract_calls_app (t1 t2 : list Event) :
  extract_calls (t1 ++ t2) = extract_calls t1 ++ extract_calls t2.
Proof. apply flat_map_app. Qed.

Lemma store_events_extract_nothing (t : list Event) :
  Forall is_store_event t -> extract_calls t = [].
Proof.
  induction 1 as [|ev t Hev _ IH]; [reflexivity|].
  unfold extract_calls in *. cbn [flat_map]. rewrite IH.
  destruct ev; try contradiction; reflexivity.
Qed.

Lemma ingest_documents_store_events (env : Env) (documents : list Document) :
  Forall is_store_event
         (trace (DocumentIndexing.ingest_documents env documents)).
Proof.
  unfold DocumentIndexing.ingest_documents, DocumentIndexing.store_batches.
  apply all_try_except.
  - repeat (apply all_bind; [|intros ? ?]);
      try (apply all_print; exact I); try apply all_ret.
    apply all_for_each. intros i _. destruct (i =? 0)%nat.
    + apply all_call. exact I.
    + apply all_for_each. intros node _. apply all_call. exact I.
  - intros e _. repeat (step_trace; try exact I).
Qed.

(** Every run of extraction opens the PDF once. *)
Lemma process_documents_from_pdf_opens_once (env : Env) pdf_path page_numbers :
  extract_calls
    (trace (DocumentIndexing.process_documents_from_pdf env pdf_path
              page_numbers))
  = [pdf_path].
Proof.
  unfold DocumentIndexing.process_documents_from_pdf.
  rewrite trace_bind, extract_calls_app.
  rewrite extract_text_from_pdf_run. cbv zeta.
  destruct (extract_pages env pdf_path) as [e|pages]; [reflexivity|].
  destruct (PyStr.strip (DocumentIndexing.add_pages page_numbers 0 pages []))
    as [|c document]; [reflexivity|].
  destruct (get_nodes_from_documents env (c :: document)); reflexivity.
Qed.

Lemma ingest_file_run (env : Env) (host : Host) (file : File) (count : nat) :
  outcome (DocumentIndexing.ingest_file env host file count)
  = inr (if file_succeeds env host file then S count else count)
  /\ extract_calls (trace (DocumentIndexing.ingest_file env host file count))
     = if is_pdf host file then [file_path file] else [].
Proof.
  unfold DocumentIndexing.ingest_file, file_succeeds.
  fold (is_pdf host file).
  rewrite outcome_print_bind, trace_print_bind.
  destruct (is_pdf host file); [|split; reflexivity].
  cbn [andb].
  rewrite outcome_bind, trace_bind.
  destruct (process_documents_from_pdf_ok env (file_path file) None)
    as (documents & Hdocs & _).
  rewrite Hdocs.
  change (extract_calls (EvPrint ?l :: ?t)) with (extract_calls t).
  rewrite extract_calls_app, process_documents_from_pdf_opens_once.
  destruct documents as [|doc documents].
  - split; reflexivity.
  - rewrite outcome_bind, trace_bind, extract_calls_app.
    rewrite (store_events_extract_nothing _
               (ingest_documents_store_events env (doc :: documents))).
    destruct (ingest_documents_shape env (doc :: documents)) as [_ Hsuccess].
    rewrite Hsuccess.
    destruct (outcome (DocumentIndexing.store_batches env _)) as [e|[]];
      split; reflexivity.
Qed.

Lemma ingest_files_run (env : Env) (host : Host) (files : list File) :
  forall count,
    outcome (DocumentIndexing.ingest_files env host files count)
    = inr (count + length (List.filter (file_succeeds env host) files))
    /\ extract_calls
         (trace (DocumentIndexing.ingest_files env host files count))
       = map file_path (List.filter (is_pdf host) files).
Proof.
  induction files as [|file files IH]; intros count;
    cbn [DocumentIndexing.ingest_files List.filter].
  - split; [cbn; f_equal; lia|reflexivity].
  - destruct (ingest_file_run env host file count) as [Ho Ht].
    rewrite outcome_bind, trace_bind, extract_calls_app, Ho, Ht.
    destruct (IH (if file_succeeds env host file then S count else count))
      as [IHo IHt].
    rewrite IHo, IHt. split.
    + destruct (file_succeeds env host file); cbn [length]; f_equal; lia.
    + destruct (is_pdf host file); reflexivity.
Qed.

Lemma filter_length_all {A} (f : A -> bool) (l : list A) :
  (length (List.filter f l) =? length l)%nat = forallb f l.
Proof.
  assert (Hle : forall l', length (List.filter f l') <= length l').
  { induction l' as [|x l' IH]; simpl; [lia|].
    destruct (f x); simpl; lia. }
  induction l as [|x l IH]; [reflexivity|]. cbn [List.filter forallb length].
  destruct (f x); cbn [length andb].
  - exact IH.
  - apply Nat.eqb_neq. specialize (Hle l). lia.
Qed.

Lemma bind_silent {A B} (a : A) (f : A -> M B) :
  bind (([], inr a) : M A) f = f a.
Proof. unfold bind. destruct (f a) as [t r]. reflexivity. Qed.

(** X15: [ingest_from_directory] raises exactly when the existence
    test or the globbing raises (as [Path.glob] does for an empty or an
    absolute pattern): neither is inside a [try], and no file has been
    opened then. Otherwise it returns [True] exactly when the directory
    exists, the pattern matches at least one file, and every matched file
    is a success (a PDF that yields documents which are then stored): one
    file that is skipped for its suffix, or one PDF without text, makes
    the whole run report [False]. Every PDF among the matched files is
    opened once, in the order found, whatever happened to the files before
    it. *)
Theorem directory_run_succeeds_iff_every_file_does (env : Env) (host : Host)
    (directory file_pattern : list N) :
  let run :=
    DocumentIndexing.ingest_from_directory env host directory file_pattern in
  match path_exists host directory with
  | inl e => run = ([], inl e)
  | inr false =>
      run = ([EvPrint (u8 "✗ 目錄不存在: " ++ directory)], inr false)
  | inr true =>
      match glob host directory file_pattern with
      | inl e => run = ([], inl e)
      | inr files =>
          outcome run
          = inr (match files with
                 | [] => false
                 | _ :: _ => forallb (file_succeeds env host) files
                 end)
          /\ extract_calls (trace run)
             = map file_path (List.filter (is_pdf host) files)
      end
  end.
Proof.
  intros run. subst run.
  unfold DocumentIndexing.ingest_from_directory.
  destruct (path_exists host directory) as [e|[|]];
    [reflexivity| |rewrite bind_silent; reflexivity].
  rewrite bind_silent. cbn [negb].
  destruct (glob host directory file_pattern) as [e|[|file files]];
    [reflexivity|rewrite bind_silent; split; reflexivity|].
  rewrite bind_silent.
  destruct (ingest_files_run env host (file :: files) 0) as [Ho Ht].
  rewrite outcome_print_bind, trace_print_bind, outcome_bind, trace_bind.
  rewrite Ho. cbn [Nat.add].
  rewrite outcome_print_bind, trace_print_bind. cbn [ret outcome snd trace fst].
  split.
  - rewrite filter_length_all. reflexivity.
  - change (extract_calls (EvPrint ?l :: ?t)) with (extract_calls t).
    rewrite extract_calls_app, Ht. cbn [extract_calls flat_map].
    apply app_nil_r.
Qed.

(** A run over three files: the PDF with text is stored, the scanned
    PDF and the note are not, and the run reports failure; both PDFs were
    opened. *)
Example directory_with_a_note_fails :
  outcome (DocumentIndexing.ingest_from_directory directory_env demo_host
             (u8 "docs") (u8 "*"))
  = inr false
  /\ extract_calls
       (trace (DocumentIndexing.ingest_from_directory directory_env demo_host
                 (u8 "docs") (u8 "*")))
     = [u8 "docs/a.PDF"; u8 "docs/scan.pdf"]
  /\ match glob demo_host (u8 "docs") (u8 "*") with
     | inr files => map (file_succeeds directory_env demo_host) files
     | inl _ => []
     end
     = [true; false; false].
Proof. vm_compute. repeat split; reflexivity. Qed.

(** An empty pattern: the error of the globbing reaches the caller. *)
Example directory_with_empty_pattern_raises :
  DocumentIndexing.ingest_from_directory directory_env demo_host
    (u8 "docs") []
  = ([], inl (Exn (u8 "Unacceptable pattern"))).
Proof. vm_compute. reflexivity. Qed.

(** ** The interactive loop ([local_query.py], 322-369) *)

Lemma local_documents_return (env : Env) q top_k :
  exists documents,
    outcome (LocalQuery.get_relevant_documents env q top_k) = inr documents.
Proof.
  rewrite local_documents_outcome. eauto.
Qed.

Lemma show_help_run :
  outcome LocalQuery.show_help = inr tt
  /\ pipeline_calls (trace LocalQuery.show_help) = [].
Proof. split; reflexivity. Qed.

(** What one line does, test by test. *)
Lemma handle_line_run (env : Env) (host : Host) (text : list N) :
  outcome (LocalQuery.handle_line env host text)
  = inr (PyStr.truthy (PyStr.strip text) && is_quit host (PyStr.strip text))
  /\ pipeline_calls (trace (LocalQuery.handle_line env host text))
     = if negb (PyStr.truthy (PyStr.strip text))
          || is_quit host (PyStr.strip text)
          || is_help host (PyStr.strip text)
       then []
       else if is_docs host (PyStr.strip text) then
         if PyStr.truthy (PyStr.strip (drop 5 (PyStr.strip text)))
         then [EvRetrieve Config.SIMILARITY_TOP_K
                 (PyStr.strip (drop 5 (PyStr.strip text)))]
         else []
       else [EvEngineQuery
               (Some (LocalQuery.template_text LocalQuery.custom_template))
               Config.SIMILARITY_TOP_K (PyStr.strip text)].
Proof.
  unfold LocalQuery.handle_line.
  fold (is_quit host (PyStr.strip text)) (is_help host (PyStr.strip text))
    (is_docs host (PyStr.strip text)).
  destruct (PyStr.truthy (PyStr.strip text)); [|split; reflexivity].
  cbn [negb andb orb].
  destruct (is_quit host (PyStr.strip text)); [split; reflexivity|].
  destruct (is_help host (PyStr.strip text)); [split; reflexivity|].
  cbn [orb].
  destruct (is_docs host (PyStr.strip text)).
  - rewrite outcome_bind, trace_bind.
    destruct (PyStr.truthy (PyStr.strip (drop 5 (PyStr.strip text)))).
    + destruct (local_documents_return env
                  (PyStr.strip (drop 5 (PyStr.strip text))) None)
        as (documents & Hd).
      rewrite outcome_bind, trace_bind, Hd. cbn [ret outcome snd trace fst].
      rewrite !app_nil_r.
      split; [reflexivity|].
      exact (local_documents_calls env
               (PyStr.strip (drop 5 (PyStr.strip text))) None).
    + split; reflexivity.
  - rewrite outcome_bind, trace_bind.
    destruct (query_returns env (PyStr.strip text) None true false)
      as (result & Hq & _).
    rewrite Hq. cbn [ret outcome snd trace fst]. rewrite app_nil_r.
    split; [reflexivity|].
    exact (engine_query_calls env (PyStr.strip text) None true).
Qed.

Lemma interactive_loop_returns (env : Env) (host : Host)
    (inputs : list ConsoleInput) :
  exists ending,
    outcome (LocalQuery.interactive_loop env host inputs) = inr ending.
Proof.
  induction inputs as [|[text| |e] inputs (ending & IH)];
    cbn [LocalQuery.interactive_loop]; rewrite ?outcome_print_bind.
  - eexists. reflexivity.
  - rewrite outcome_bind, outcome_try_except.
    destruct (handle_line_run env host text) as [-> _].
    destruct (_ && _); eexists; [reflexivity|exact IH].
  - eexists. reflexivity.
  - exists ending. exact IH.
Qed.

(** X16: the interactive mode never raises, whatever is typed and
    whatever the collaborators do. A line that is empty after stripping, a
    quit word and the help word call nothing; a line that begins with the
    word docs and a space asks the retriever alone, with the default top-k,
    for the rest of the line; every other line is asked of the query engine
    as it is after stripping, with the default top-k and without
    reranking. After a quit word or an interrupt nothing typed later is
    read. *)
Theorem interactive_lines_and_their_calls (env : Env) (host : Host) :
  (forall inputs, exists ending,
      outcome (LocalQuery.interactive_mode env host inputs) = inr ending)
  /\ (forall text,
         pipeline_calls (trace (LocalQuery.handle_line env host text))
         = if negb (PyStr.truthy (PyStr.strip text))
              || is_quit host (PyStr.strip text)
              || is_help host (PyStr.strip text)
           then []
           else if is_docs host (PyStr.strip text) then
             if PyStr.truthy (PyStr.strip (drop 5 (PyStr.strip text)))
             then [EvRetrieve Config.SIMILARITY_TOP_K
                     (PyStr.strip (drop 5 (PyStr.strip text)))]
             else []
           else [EvEngineQuery
                   (Some (LocalQuery.template_text
                            LocalQuery.custom_template))
                   Config.SIMILARITY_TOP_K (PyStr.strip text)])
  /\ (forall text rest,
         PyStr.truthy (PyStr.strip text) = true ->
         is_quit host (PyStr.strip text) = true ->
         LocalQuery.interactive_loop env host (Line text :: rest)
         = ([EvPrint LocalQuery.PROMPT; EvPrint (u8 "👋 再見！")], inr LocalQuery.Exited))
  /\ (forall rest,
         outcome (LocalQuery.interactive_loop env host (Interrupt :: rest))
         = inr LocalQuery.Exited
         /\ pipeline_calls
              (trace (LocalQuery.interactive_loop env host (Interrupt :: rest)))
            = []).
Proof.
  split; [|split; [|split]].
  - intros inputs. unfold LocalQuery.interactive_mode.
    rewrite !outcome_print_bind. apply interactive_loop_returns.
  - intros text. apply handle_line_run.
  - intros text rest Ht Hq. cbn [LocalQuery.interactive_loop].
    unfold LocalQuery.handle_line.
    fold (is_quit host (PyStr.strip text)). rewrite Ht, Hq. reflexivity.
  - intros rest. split; reflexivity.
Qed.

Lemma interactive_lines_and_their_calls_witness :
  LocalQuery.interactive_loop quiet_env demo_host
    [Line (u8 " QUIT "); Line (u8 "What is machine learning?")]
  = ([EvPrint LocalQuery.PROMPT; EvPrint (u8 "👋 再見！")],
     inr LocalQuery.Exited).
Proof.
  apply (proj1 (proj2 (proj2
           (interactive_lines_and_their_calls quiet_env demo_host))));
    vm_compute; reflexivity.
Defined.

(** A stripped text that is not empty ends in a character that is not
    whitespace. *)
Lemma strip_last (s u : list N) (c : N) :
  PyStr.strip s = u ++ [c] -> PyStr.is_space c = false.
Proof.
  unfold PyStr.strip, PyStr.strip_by. intros H.
  destruct (PyStr.rstrip_by PyStr.is_space s) as [|c' r _] eqn:Hr
    using rev_ind.
  - destruct u; discriminate H.
  - pose proof (rstrip_by_last PyStr.is_space s r c' Hr) as Hc'.
    destruct (lstrip_by_keeps_last PyStr.is_space r c' Hc') as (w & Hw).
    rewrite Hw in H. apply app_inj_tail in H as [_ <-]. exact Hc'.
Qed.

(** X17: when the lower-case form of a line can begin with the word docs
    and a space only if the line has a space in that place, the branch for
    a docs command without a question is never taken: a stripped line
    that passes the docs test always has a question after the command. The
    word docs alone is not a command but a question for the query
    engine. *)
Theorem docs_command_always_has_a_question (host : Host) (text : list N) :
  lower_keeps_docs_space host ->
  PyStr.truthy (PyStr.strip text) = true ->
  is_docs host (PyStr.strip text) = true ->
  PyStr.truthy (PyStr.strip (drop 5 (PyStr.strip text))) = true.
Proof.
  intros Hlower Hne Hdocs.
  pose proof (Hlower _ Hdocs) as Hspace.
  destruct (PyStr.strip text) as [|c u _] eqn:Hs using rev_ind;
    [discriminate Hne|].
  pose proof (strip_last text u c Hs) as Hc.
  assert (Hlen : 5 <= length u).
  { destruct (Nat.le_gt_cases 5 (length u)) as [H|H]; [exact H|].
    apply lookup_lt_Some in Hspace as Hlt. rewrite length_app in Hlt.
    cbn [length] in Hlt.
    assert (Hu : length u = 4) by lia.
    rewrite lookup_app_r in Hspace by lia. rewrite Hu in Hspace.
    cbn in Hspace. injection Hspace as ->. discriminate Hc. }
  rewrite drop_app_le by exact Hlen.
  apply keeps_iff_not_blank. intros Hblank.
  unfold PyStr.blank in Hblank. apply Forall_app in Hblank as [_ Hblank].
  apply Forall_cons in Hblank as [Hblank _]. congruence.
Qed.

Lemma docs_literal : u8 "docs " = [100; 111; 99; 115; 32]%N.
Proof. vm_compute. reflexivity. Qed.

Lemma ascii_lower_keeps_docs_space : lower_keeps_docs_space demo_host.
Proof.
  intros s Hs. unfold is_docs, PyStr.startswith, PyStr.eqb in Hs.
  apply bool_decide_eq_true in Hs. rewrite docs_literal in Hs.
  cbn [demo_host lower length] in Hs. unfold ascii_lower in Hs.
  destruct s as [|c0 [|c1 [|c2 [|c3 [|c4 rest]]]]]; try discriminate Hs.
  cbn [map take] in Hs. injection Hs as _ _ _ _ H4. cbn.
  f_equal. unfold PyStr.SPACE.
  destruct ((65 <=? c4) && (c4 <=? 90))%N eqn:Hup; [|exact H4].
  apply andb_prop in Hup as [Hup _]. apply N.leb_le in Hup. lia.
Qed.

Lemma docs_command_always_has_a_question_witness :
  PyStr.truthy
    (PyStr.strip (drop 5 (PyStr.strip (u8 " Docs deep learning "))))
  = true.
Proof.
  apply (docs_command_always_has_a_question demo_host
           (u8 " Docs deep learning ")).
  - exact ascii_lower_keeps_docs_space.
  - vm_compute. reflexivity.
  - vm_compute. reflexivity.
Defined.

(** The word docs alone goes to the query engine. *)
Example docs_alone_is_a_question :
  pipeline_calls (trace (LocalQuery.handle_line quiet_env demo_host
                           (u8 "docs ")))
  = [EvEngineQuery
       (Some (LocalQuery.template_text LocalQuery.custom_template))
       Config.SIMILARITY_TOP_K (u8 "docs")].
Proof. vm_compute. reflexivity. Qed.

(** ** The in-memory system of [main.py] *)

Lemma two_key_metadata_id (key source : list N) (i : Z) :
  key = u8 "paragraph_id" \/ key = u8 "text_id" ->
  meta_get key [(u8 "source", MStr source); (key, MInt i)] = Some (MInt i).
Proof.
  intros [-> | ->]; vm_compute; reflexivity.
Qed.

(** X18: [RAGSystem.load_documents_from_pdf] lets an error of pdfminer
    pass to its caller (there is no handler, unlike in [DataIngestion]).
    Otherwise its documents are exactly the paragraphs of the extraction
    that are not blank, in order: a paragraph is loaded if and only if it
    is not blank. No document text is empty, whitespace-only or holds a
    line break; the [paragraph_id] of a document is the position of its
    paragraph among all paragraphs, so the ids rise strictly; every
    document names the PDF as its source. *)
Theorem loaded_paragraphs_keep_their_positions (env : Env)
    (pdf_path : list N) (page_numbers : option (list Z)) :
  match extract_pages env pdf_path with
  | inl e =>
      outcome (Main.load_documents_from_pdf env pdf_path page_numbers) = inl e
  | inr pages =>
      exists documents ids,
        outcome (Main.load_documents_from_pdf env pdf_path page_numbers)
        = inr documents
        /\ Forall (fun doc => chunk_ok (doc_text doc)
                              /\ ~ In PyStr.LF (doc_text doc)) documents
        /\ Forall2 (fun i doc =>
                      Main.paragraphs_of pages page_numbers 1 !! i
                      = Some (doc_text doc)
                      /\ doc_id (u8 "paragraph_id") doc = Some (Z.of_nat i)
                      /\ meta_get (u8 "source") (doc_metadata doc)
                         = Some (MStr pdf_path))
                   ids documents
        /\ StronglySorted lt ids
        /\ (forall i paragraph,
               Main.paragraphs_of pages page_numbers 1 !! i = Some paragraph ->
               (In i ids <-> ~ PyStr.blank paragraph))
  end.
Proof.
  unfold Main.load_documents_from_pdf, Main.extract_text_from_pdf.
  destruct (extract_pages env pdf_path) as [e|pages]; [reflexivity|].
  set (paragraphs := Main.paragraphs_of pages page_numbers 1).
  destruct (kept_entries paragraphs 0) as (Hall & Hsorted & Hin).
  assert (Hpar : Forall (fun par => par <> [] /\ ~ In PyStr.LF par)
                        paragraphs).
  { unfold paragraphs, Main.paragraphs_of.
    apply collect_paragraphs; [|intros []|constructor].
    apply split_no_sep. }
  set (kept := List.filter (fun entry => keeps (snd entry))
                           (enumerate 0 paragraphs)) in *.
  eexists. exists (map fst kept).
  split; [|split; [|split; [|split; [exact Hsorted|]]]].
  - unfold call. cbn [bind ret outcome snd]. fold paragraphs.
    rewrite documents_of_kept. reflexivity.
  - fold kept. apply List.Forall_forall. intros doc Hdoc.
    apply in_map_iff in Hdoc as ([i t] & <- & Hint). cbn [doc_text snd].
    rewrite List.Forall_forall in Hall.
    destruct (Hall _ Hint) as (_ & Ht & Hk). cbn [fst snd] in Ht, Hk.
    split.
    + apply strip_truthy_nonblank. exact Hk.
    + rewrite List.Forall_forall in Hpar.
      apply (Hpar t). apply list_elem_of_In.
      eapply list_elem_of_lookup_2. exact Ht.
  - fold kept. apply Forall2_fmap. apply Forall_Forall2_diag.
    eapply List.Forall_impl; [|exact Hall].
    intros [i t] (_ & Ht & _). cbn [fst snd doc_text doc_metadata] in *.
    rewrite Nat.sub_0_r in Ht. split; [exact Ht|].
    unfold doc_id. cbn [doc_metadata].
    rewrite two_key_metadata_id by (left; reflexivity).
    split; [reflexivity|]. vm_compute. reflexivity.
  - intros i t Hi. rewrite <- keeps_iff_not_blank. split.
    + intros Hini. apply in_map_iff in Hini as ([i' t'] & Hfst & Hkept).
      cbn [fst] in Hfst. subst i'.
      rewrite List.Forall_forall in Hall.
      destruct (Hall _ Hkept) as (_ & Ht' & Hk). cbn [fst snd] in *.
      rewrite Nat.sub_0_r in Ht'. congruence.
    + intros Hk. apply in_map_iff. exists (i, t). split; [reflexivity|].
      apply (Hin i t Hi Hk).
Qed.

(** A page whose middle line is a run of spaces: the paragraph of spaces
    is extracted and not loaded, and the ids show the gap. *)
Example blank_paragraph_leaves_a_gap :
  outcome (Main.extract_text_from_pdf spaced_env (u8 "a.pdf") None 1)
  = inr [u8 " one"; u8 "   "; u8 " two"]
  /\ match outcome (Main.load_documents_from_pdf spaced_env (u8 "a.pdf")
                      None) with
     | inr documents =>
         map (fun doc => (doc_text doc, doc_id (u8 "paragraph_id") doc))
             documents
     | inl _ => []
     end
     = [(u8 " one", Some 0%Z); (u8 " two", Some 2%Z)].
Proof. vm_compute. split; reflexivity. Qed.

(** X19: a [RAGSystem] whose index has not been built refuses a query
    and a retrieval with an error and calls nothing. [build_index] raises
    exactly when the node parser or the creation of the index raises; when
    it returns, the index was created by one call with the nodes of the
    parser, and from then on a query asks the engine once with top-k 5 and
    returns its text (or its error), and a retrieval returns the texts of
    the nodes found, in order. *)
Theorem rag_system_needs_its_index (env : Env) (host : Host)
    (self : Main.RAGSystem) (documents : list Document) (q : list N)
    (top_k : Z) :
  (Main.has_query_engine self = false ->
   Main.query env self q = ([], inl (Exn Main.NOT_BUILT_QUERY)))
  /\ (Main.has_index self = false ->
      Main.get_relevant_documents env self q top_k
      = ([], inl (Exn Main.NOT_BUILT_INDEX)))
  /\ outcome (Main.build_index env host self documents)
     = match simple_parse host documents with
       | inl e => inl e
       | inr nodes =>
           match index_create env nodes with
           | inl e => inl e
           | inr _ =>
               inr (Main.mkRAGSystem (Main.use_milvus self)
                      (Main.has_vector_store self) true true)
           end
       end
  /\ (forall self',
         outcome (Main.build_index env host self documents) = inr self' ->
         (exists nodes,
             simple_parse host documents = inr nodes
             /\ List.filter
                  (fun ev => match ev with
                             | EvPrint _ => false
                             | _ => true
                             end)
                  (trace (Main.build_index env host self documents))
                = [EvIndexCreate nodes])
         /\ Main.query env self' q
            = ([EvPrint (u8 "正在查詢: " ++ q); EvEngineQuery None 5 q],
               match engine_query env None 5 q with
               | inr response => inr (resp_text response)
               | inl e => inl e
               end)
         /\ Main.get_relevant_documents env self' q top_k
            = ([EvRetrieve top_k q],
               match retrieve env top_k q with
               | inr nodes => inr (map node_text nodes)
               | inl e => inl e
               end)).
Proof.
  assert (Hbuild :
    Main.build_index env host self documents
    = match simple_parse host documents with
      | inl e =>
          ([EvPrint (u8 "正在建立索引，共 " ++ len_str documents
                     ++ u8 " 個文檔...")], inl e)
      | inr nodes =>
          match index_create env nodes with
          | inl e =>
              ([EvPrint (u8 "正在建立索引，共 " ++ len_str documents
                         ++ u8 " 個文檔...");
                EvPrint (u8 "解析為 " ++ len_str nodes ++ u8 " 個節點");
                EvIndexCreate nodes], inl e)
          | inr _ =>
              ([EvPrint (u8 "正在建立索引，共 " ++ len_str documents
                         ++ u8 " 個文檔...");
                EvPrint (u8 "解析為 " ++ len_str nodes ++ u8 " 個節點");
                EvIndexCreate nodes;
                EvPrint (if Main.use_milvus self && Main.has_vector_store self
                         then u8 "已使用 Milvus 建立索引"
                         else u8 "已使用記憶體建立索引");
                EvPrint (u8 "索引建立完成！")],
               inr (Main.mkRAGSystem (Main.use_milvus self)
                      (Main.has_vector_store self) true true))
          end
      end).
  { unfold Main.build_index.
    destruct (simple_parse host documents) as [e|nodes]; [reflexivity|].
    unfold call. cbn [bind print].
    destruct (Main.use_milvus self && Main.has_vector_store self);
      destruct (index_create env nodes) as [e|[]]; reflexivity. }
  split; [|split; [|split]].
  - intros H. unfold Main.query. rewrite H. reflexivity.
  - intros H. unfold Main.get_relevant_documents. rewrite H. reflexivity.
  - rewrite Hbuild.
    destruct (simple_parse host documents) as [e|nodes]; [reflexivity|].
    destruct (index_create env nodes) as [e|[]]; reflexivity.
  - intros self'. rewrite Hbuild.
    destruct (simple_parse host documents) as [e|nodes]; [discriminate|].
    destruct (index_create env nodes) as [e|[]]; [discriminate|].
    intros [= <-]. split; [|split].
    + exists nodes. split; reflexivity.
    + unfold Main.query, call. cbn [Main.has_query_engine negb].
      destruct (engine_query env None 5 q); reflexivity.
    + unfold Main.get_relevant_documents, call. cbn [Main.has_index negb].
      destruct (retrieve env top_k q); reflexivity.
Qed.

Lemma rag_system_needs_its_index_witness :
  Main.query quiet_env (Main.mkRAGSystem false false false false) (u8 "q")
  = ([], inl (Exn Main.NOT_BUILT_QUERY))
  /\ Main.query quiet_env (Main.mkRAGSystem false false true true) (u8 "q")
     = ([EvPrint (u8 "正在查詢: " ++ u8 "q"); EvEngineQuery None 5 (u8 "q")],
        match engine_query quiet_env None 5 (u8 "q") with
        | inr response => inr (resp_text response)
        | inl e => inl e
        end).
Proof.
  destruct (rag_system_needs_its_index quiet_env demo_host
              (Main.mkRAGSystem false false false false)
              (Main.load_documents_from_text [u8 "a"] (u8 "demo"))
              (u8 "q") 5%Z) as (H1 & _ & _ & H4).
  split; [apply H1; reflexivity|].
  apply (H4 (Main.mkRAGSystem false false true true)). reflexivity.
Defined.

(** ** The result of a query and the query log *)

Lemma answer_is_printed (env : Env) q top_k show_sources
    (use_rerank : bool) response :
  outcome (if use_rerank then LocalQuery.rerank_response env q top_k
           else LocalQuery.engine_response env q top_k) = inr response ->
  In (EvPrint (resp_text response))
     (trace (LocalQuery.query env q top_k show_sources use_rerank)).
Proof.
  intros Hstage.
  unfold LocalQuery.query. rewrite trace_try_except.
  apply in_or_app. left.
  unfold LocalQuery.query_body.
  rewrite trace_print_bind. right.
  rewrite trace_bind. apply in_or_app. right.
  rewrite Hstage.
  unfold LocalQuery.finish_query.
  rewrite trace_print_bind. right.
  rewrite trace_print_bind. left. reflexivity.
Qed.

(** X20: the result of a query whose stage (engine, or retriever,
    reranker and generation model) answered, when messages can be logged.
    The record for the query log is built from the question, the answer,
    the processing time and the sources; if the log takes it, the result
    is these; if the log raises, the caller gets the failure result with
    the log's error, no sources and a processing time of 0, although the
    answer had been printed. *)
Theorem query_result_depends_on_the_log (env : Env) (q : list N)
    (top_k : option Z) (show_sources use_rerank : bool)
    (response : Response) :
  (forall message, logger_info env message = inr tt) ->
  outcome (if use_rerank then LocalQuery.rerank_response env q top_k
           else LocalQuery.engine_response env q top_k) = inr response ->
  let result :=
    mkQueryResult q (resp_text response)
      (if show_sources
       then map LocalQuery.source_info (source_nodes response) else [])
      (elapsed env) in
  let record :=
    mkLogData q (resp_text response) (elapsed env)
      (map LoggingConfig.log_source (enumerate 1 (sources result))) in
  outcome (LocalQuery.query env q top_k show_sources use_rerank)
  = inr (match logger_query_result env record with
         | inr _ => result
         | inl e =>
             mkQueryResult q (LocalQuery.FAILURE_PREFIX ++ exn_msg e) [] 0
         end)
  /\ In (EvPrint (resp_text response))
        (trace (LocalQuery.query env q top_k show_sources use_rerank)).
Proof.
  intros Hinfo Hstage result record. split.
  - rewrite query_outcome. unfold LocalQuery.query_body.
    rewrite outcome_print_bind, outcome_bind, Hstage.
    unfold LocalQuery.finish_query, LocalQuery.collect_sources,
      LoggingConfig.log_info, LoggingConfig.log_query_result.
    rewrite !outcome_print_bind, outcome_bind.
    subst record result.
    destruct show_sources.
    + rewrite outcome_bind. unfold call at 1. cbn [outcome snd].
      rewrite Hinfo. cbn [ret outcome snd].
      rewrite !outcome_bind. unfold call.
      cbn [outcome snd question answer sources processing_time].
      destruct (logger_query_result env _); reflexivity.
    + cbn [ret outcome snd].
      rewrite !outcome_bind. unfold call.
      cbn [outcome snd question answer sources processing_time].
      destruct (logger_query_result env _); reflexivity.
  - apply answer_is_printed. exact Hstage.
Qed.

Lemma query_result_depends_on_the_log_witness :
  outcome (LocalQuery.query broken_log_env (u8 "capital?") None true false)
  = inr (mkQueryResult (u8 "capital?")
           (LocalQuery.FAILURE_PREFIX ++ u8 "not JSON serializable") [] 0)
  /\ In (EvPrint (u8 "Paris."))
        (trace (LocalQuery.query broken_log_env (u8 "capital?") None true
                  false)).
Proof.
  apply (query_result_depends_on_the_log broken_log_env (u8 "capital?") None
           true false (mkResponse (u8 "Paris.") [sample_node])).
  - intros message. reflexivity.
  - reflexivity.
Defined.

(** ** The query logger's handlers *)

Lemma getLogger_insert (loggers : LoggingConfig.Loggers)
    (logger_name : list N) (logger : LoggingConfig.Logger) :
  LoggingConfig.getLogger
    (<[LoggingConfig.logger_key logger_name := logger]> loggers) logger_name
  = logger.
Proof.
  unfold LoggingConfig.getLogger. rewrite lookup_insert_eq. reflexivity.
Qed.

Lemma getLogger_insert_ne (loggers : LoggingConfig.Loggers)
    (logger_name other : list N) (logger : LoggingConfig.Logger) :
  LoggingConfig.logger_key other <> LoggingConfig.logger_key logger_name ->
  LoggingConfig.getLogger
    (<[LoggingConfig.logger_key logger_name := logger]> loggers) other
  = LoggingConfig.getLogger loggers other.
Proof.
  intros Hne. unfold LoggingConfig.getLogger.
  rewrite lookup_insert_ne by congruence. reflexivity.
Qed.

(** X21: setting up a query logger. It raises when the log directory
    cannot be made, and then no logger has changed; and when the logger
    has no handler and the day's file in the log directory cannot be
    opened, and then the logger is left at level INFO without a handler.
    When it returns, the logger is at level INFO; if it had no handler it
    has exactly one, a file handler on the day's file at level INFO with
    the fixed format, and if it had handlers it keeps them and no file is
    opened. Loggers kept under another name are never touched; the empty
    name and the name of the root logger are one logger. A second set-up
    of a logger that was set up, whatever its directory and day, makes the
    directory and changes no logger: the logger goes on writing to the
    first file. *)
Theorem setup_logging_adds_one_handler_once (host : Host)
    (loggers : LoggingConfig.Loggers) (logger_name log_dir today : list N) :
  let run :=
    LoggingConfig.setup_logging host loggers logger_name log_dir today in
  let before := LoggingConfig.getLogger loggers logger_name in
  let after := LoggingConfig.getLogger (fst run) logger_name in
  let file := LoggingConfig.log_file log_dir today in
  (forall other,
      LoggingConfig.logger_key other <> LoggingConfig.logger_key logger_name ->
      LoggingConfig.getLogger (fst run) other
      = LoggingConfig.getLogger loggers other)
  /\ (forall other,
         LoggingConfig.logger_key other = LoggingConfig.logger_key logger_name ->
         LoggingConfig.getLogger (fst run) other = after)
  /\ match snd run with
     | inl e =>
         (makedirs host log_dir = inl e /\ fst run = loggers)
         \/ (makedirs host log_dir = inr tt
             /\ LoggingConfig.logger_handlers before = []
             /\ open_log host file = inl e
             /\ after = LoggingConfig.mkLogger LoggingConfig.INFO [])
     | inr _ =>
         makedirs host log_dir = inr tt
         /\ match LoggingConfig.logger_handlers before with
            | [] =>
                open_log host file = inr tt
                /\ after
                   = LoggingConfig.mkLogger LoggingConfig.INFO
                       [LoggingConfig.FileHandler file LoggingConfig.INFO
                          LoggingConfig.FORMAT]
            | handler :: handlers =>
                after
                = LoggingConfig.mkLogger LoggingConfig.INFO
                    (handler :: handlers)
            end
         /\ forall log_dir2 today2,
              LoggingConfig.setup_logging host (fst run) logger_name
                log_dir2 today2
              = (fst run,
                 match makedirs host log_dir2 with
                 | inl e => inl e
                 | inr _ => inr tt
                 end)
     end.
Proof.
  intros run before after file. subst run before after file.
  unfold LoggingConfig.setup_logging.
  destruct (makedirs host log_dir) as [e|[]].
  { cbn [fst snd]. split; [reflexivity|]. split; [|left; split; reflexivity].
    intros other Hkey. unfold LoggingConfig.getLogger. rewrite Hkey.
    reflexivity. }
  cbv zeta.
  destruct (LoggingConfig.logger_handlers
              (LoggingConfig.getLogger loggers logger_name))
    as [|handler handlers] eqn:Hold.
  - destruct (open_log host (LoggingConfig.log_file log_dir today))
      as [e|[]] eqn:Hopen; cbn [fst snd].
    + split; [intros other Hne; apply getLogger_insert_ne; exact Hne|].
      split; [intros other Hkey; unfold LoggingConfig.getLogger;
              rewrite Hkey; reflexivity|].
      right. split; [reflexivity|]. split; [reflexivity|].
      split; [reflexivity|]. apply getLogger_insert.
    + split.
      { intros other Hne. rewrite !getLogger_insert_ne by exact Hne.
        reflexivity. }
      split; [intros other Hkey; unfold LoggingConfig.getLogger;
              rewrite Hkey; reflexivity|].
      split; [reflexivity|]. split.
      { split; [reflexivity|]. apply getLogger_insert. }
      intros log_dir2 today2.
      destruct (makedirs host log_dir2) as [e|[]]; [reflexivity|].
      rewrite getLogger_insert. cbn [LoggingConfig.logger_handlers].
      rewrite insert_insert_eq. reflexivity.
  - cbn [fst snd].
    split; [intros other Hne; apply getLogger_insert_ne; exact Hne|].
    split; [intros other Hkey; unfold LoggingConfig.getLogger;
            rewrite Hkey; reflexivity|].
    split; [reflexivity|]. split; [apply getLogger_insert|].
    intros log_dir2 today2.
    destruct (makedirs host log_dir2) as [e|[]]; [reflexivity|].
    rewrite getLogger_insert. cbn [LoggingConfig.logger_handlers].
    rewrite insert_insert_eq. reflexivity.
Qed.

(** The file of a query logger: the day's name under the directory, with
    one separator between them. *)
Lemma log_file_in_directory (log_dir today : list N) :
  LoggingConfig.log_file log_dir today
  = (if PyStr.truthy log_dir && negb (PyStr.endswith log_dir (u8 "/"))
     then log_dir ++ u8 "/" else log_dir)
    ++ u8 "query_log_" ++ today ++ u8 ".log".
Proof.
  unfold LoggingConfig.log_file, LoggingConfig.path_join.
  destruct (PyStr.truthy log_dir), (PyStr.endswith log_dir (u8 "/"));
    cbn [negb orb andb]; rewrite <- ?app_assoc; reflexivity.
Qed.

(** A second logger asked for under the same name with another directory,
    a day later: the handler is still the first day's file. *)
Example second_logger_writes_to_the_first_file :
  let first := LoggingConfig.get_query_logger demo_host ∅
                 (u8 "LocalQuerySystem") (u8 "logs") true (u8 "20240101") in
  let second := LoggingConfig.get_query_logger demo_host (fst first)
                  (u8 "LocalQuerySystem") (u8 "audit") true (u8 "20240102") in
  snd first = inr tt /\ snd second = inr tt
  /\ LoggingConfig.getLogger (fst second) (u8 "LocalQuerySystem")
     = LoggingConfig.mkLogger LoggingConfig.INFO
         [LoggingConfig.FileHandler (u8 "logs/query_log_20240101.log")
            LoggingConfig.INFO LoggingConfig.FORMAT].
Proof. vm_compute. repeat split; reflexivity. Qed.

(** The empty name is the root logger: a set-up under the empty name
    gives the root logger its file handler, and a set-up under the root's
    name then adds none. *)
Example empty_name_is_the_root_logger :
  let first := LoggingConfig.setup_logging demo_host ∅ [] (u8 "logs")
                 (u8 "20240101") in
  let second := LoggingConfig.setup_logging demo_host (fst first) (u8 "root")
                  (u8 "audit") (u8 "20240102") in
  fst second = fst first
  /\ LoggingConfig.logger_handlers
       (LoggingConfig.getLogger (fst second) (u8 "root"))
     = [LoggingConfig.FileHandler (u8 "logs/query_log_20240101.log")
          LoggingConfig.INFO LoggingConfig.FORMAT].
Proof. vm_compute. split; reflexivity. Qed.

(** A log file that cannot be opened: the set-up raises after the
    directory was made, and the logger stays without a handler. *)
Example unopened_log_file_raises :
  let run := LoggingConfig.setup_logging demo_host ∅ (u8 "LocalQuerySystem")
               (u8 "/proc/logs") (u8 "20240101") in
  snd run = inl (Exn (u8 "Permission denied"))
  /\ LoggingConfig.getLogger (fst run) (u8 "LocalQuerySystem")
     = LoggingConfig.mkLogger LoggingConfig.INFO [].
Proof. vm_compute. split; reflexivity. Qed.
